(** * tree-sitter-db: the entity extractors over a syntax tree

    A shallow embedding of [tree_sitter_db/extractors] (base.py, python_ext.py,
    c_ext.py, cpp_ext.py).  A tree-sitter node is a finite tree carrying a type
    tag, byte and row positions and an ordered list of children, each child
    optionally labelled with a field name.  Parent links are represented by the
    stack of ancestors under which the tree cursor reached a node.

    Source text is a byte string; [get_node_text] slices it.  The UTF-8
    decoding step of the source is the identity on the ASCII range, which is
    the range every delimiter the extractors test for lives in. *)

From Stdlib Require Import String Ascii List Arith Bool Lia Sorted.
Import ListNotations.
Open Scope list_scope.
Open Scope string_scope.
Set Warnings "-register-all".

(** ** Python's [str] operations used by the extractors *)

Module PyStr.

Definition dquote : ascii := "034"%char.
Definition squote : ascii := "039"%char.

Definition of_char (c : ascii) : string := String c EmptyString.

(** A triple-quote delimiter: the quote character [c] three times. *)
Definition triple (c : ascii) : string := String c (String c (String c EmptyString)).

(** Truthiness of a [str]: non-empty. *)
Definition truthy (s : string) : bool :=
  match s with EmptyString => false | String _ _ => true end.

(** [s.startswith(p)] *)
Definition startswith (p s : string) : bool := String.prefix p s.

(** [s[a:-b]] for literal non-negative [a] and [b]. *)
Definition slice_inner (a b : nat) (s : string) : string :=
  String.substring a (String.length s - b - a) s.

(** A [str] is represented by the bytes of its UTF-8 encoding. On text
    that is ASCII throughout the two coincide, character for byte; on other
    text the length and the character classes of the [str] are not those of
    its bytes. *)
Definition is_ascii (s : string) : bool :=
  forallb (fun ch => (nat_of_ascii ch <? 128)%nat) (list_ascii_of_string s).

(** [str.isspace] on one ASCII character: tab to carriage return, the four
    separators 28 to 31 and the space. The whitespace of [str.strip]
    outside ASCII (U+00A0, U+3000 and the like) is not covered, so
    [strip] below is [str.strip] on ASCII text only. *)
Definition isspace (c : ascii) : bool :=
  let n := nat_of_ascii c in
  ((9 <=? n)%nat && (n <=? 13)%nat) || ((28 <=? n)%nat && (n <=? 32)%nat).

Fixpoint lstrip_by (f : ascii -> bool) (s : string) : string :=
  match s with
  | EmptyString => EmptyString
  | String c s' => if f c then lstrip_by f s' else s
  end.

(** Drops the trailing characters satisfying [f]. *)
Fixpoint rstrip_by (f : ascii -> bool) (s : string) : string :=
  match s with
  | EmptyString => EmptyString
  | String c s' =>
      match rstrip_by f s' with
      | EmptyString => if f c then EmptyString else String c EmptyString
      | r => String c r
      end
  end.

Definition strip_by (f : ascii -> bool) (s : string) : string :=
  rstrip_by f (lstrip_by f s).

(** [s.strip()] *)
Definition strip (s : string) : string := strip_by isspace s.

Fixpoint mem_char (c : ascii) (set : string) : bool :=
  match set with
  | EmptyString => false
  | String d set' => Ascii.eqb c d || mem_char c set'
  end.

(** [s.strip(chars)] *)
Definition strip_chars (chars s : string) : string :=
  strip_by (fun c => mem_char c chars) s.

(** [sep in s] *)
Fixpoint contains (sep s : string) : bool :=
  String.prefix sep s ||
  match s with
  | EmptyString => false
  | String _ s' => contains sep s'
  end.

Fixpoint drop (n : nat) (s : string) : string :=
  match n, s with
  | O, _ => s
  | S n', String _ s' => drop n' s'
  | S _, EmptyString => EmptyString
  end.

(** [s.rsplit(sep, 1)] when [sep] occurs in [s]: the text before and after
    the right-most occurrence; [None] when [sep] does not occur (Python
    then returns the one-element list [[s]]). *)
Fixpoint rsplit1 (sep s : string) : option (string * string) :=
  match s with
  | EmptyString => None
  | String c s' =>
      match rsplit1 sep s' with
      | Some (a, b) => Some (String c a, b)
      | None =>
          if String.prefix sep s
          then Some (EmptyString, drop (String.length sep) s)
          else None
      end
  end.

(** [sep.join(parts)] *)
Fixpoint join (sep : string) (parts : list string) : string :=
  match parts with
  | [] => EmptyString
  | [p] => p
  | p :: rest => p ++ sep ++ join sep rest
  end.

End PyStr.

(** ** The syntax tree a parser hands over *)

Inductive Node : Type :=
  mkNode {
    ntype : string;
    nfield : option string;  (* the field of its parent this node fills *)
    start_byte : nat;
    end_byte : nat;
    start_row : nat;         (* start_point[0] *)
    end_row : nat;           (* end_point[0] *)
    children : list Node     (* node.children, in order *)
  }.

Definition has_field (f : string) (c : Node) : bool :=
  match nfield c with
  | Some g => String.eqb g f
  | None => false
  end.

(** [node.child_by_field_name(f)]: the first child labelled [f]. *)
Definition child_by_field_name (n : Node) (f : string) : option Node :=
  find (has_field f) (children n).

(** [node.child(0)] *)
Definition child0 (n : Node) : option Node := hd_error (children n).

(** [get_node_text(node, source)]: the bytes
    [source[node.start_byte:node.end_byte]]. The code decodes them as UTF-8
    with replacement; the text is kept here as those bytes, which is the
    decoded text itself when the slice is ASCII ([PyStr.is_ascii]). *)
Definition get_node_text (n : Node) (source : string) : string :=
  String.substring (start_byte n) (end_byte n - start_byte n) source.

(** [node.type == t] and [node.type in (t1, ..., tk)] *)
Definition is_type (n : Node) (t : string) : bool := String.eqb (ntype n) t.
Definition type_in (n : Node) (ts : list string) : bool :=
  existsb (String.eqb (ntype n)) ts.

(** A node as the walker yields it: the node and its chain of parents,
    nearest first ([node.parent], [node.parent.parent], ...). *)
Record NodeRef : Type := mkRef { nr_node : Node; nr_anc : list Node }.

Fixpoint node_count (n : Node) : nat :=
  match n with
  | mkNode _ _ _ _ _ _ cs =>
      S ((fix count_all (l : list Node) : nat :=
            match l with
            | [] => 0
            | c :: l' => node_count c + count_all l'
            end) cs)
  end.

(** Depth-first pre-order listing of a subtree, each node with its parents. *)
Fixpoint preorder (anc : list Node) (n : Node) : list NodeRef :=
  mkRef n anc ::
  match n with
  | mkNode _ _ _ _ _ _ cs =>
      (fix over (l : list Node) : list NodeRef :=
         match l with
         | [] => []
         | c :: l' => (preorder (n :: anc) c ++ over l')%list
         end) cs
  end.

(** ** The tree cursor and [walk_tree] (base.py) *)

(** One level of a cursor's position: the parent it descended from and the
    siblings still to the right of the current node. *)
Record Frame : Type := mkFrame { fr_parent : Node; fr_right : list Node }.

(** [node.walk()] yields a cursor confined to the subtree of [node]. *)
Record TreeCursor : Type := mkCursor { cur_node : Node; cur_path : list Frame }.

Definition walk (n : Node) : TreeCursor := mkCursor n [].

(** [cursor.node] *)
Definition cursor_ref (c : TreeCursor) : NodeRef :=
  mkRef (cur_node c) (map fr_parent (cur_path c)).

(** The three cursor moves; [None] is the [False] result, which leaves the
    cursor where it was. *)
Definition goto_first_child (c : TreeCursor) : option TreeCursor :=
  match children (cur_node c) with
  | [] => None
  | k :: ks => Some (mkCursor k (mkFrame (cur_node c) ks :: cur_path c))
  end.

Definition goto_next_sibling (c : TreeCursor) : option TreeCursor :=
  match cur_path c with
  | mkFrame p (s :: ss) :: up => Some (mkCursor s (mkFrame p ss :: up))
  | _ => None
  end.

Definition goto_parent (c : TreeCursor) : option TreeCursor :=
  match cur_path c with
  | mkFrame p _ :: up => Some (mkCursor p up)
  | [] => None
  end.

(** The tail of one iteration of the [while True] loop, from
    [visited = False] on: the next loop state, or [None] on [break]. *)
Definition walk_advance (c : TreeCursor) : option (TreeCursor * bool) :=
  match goto_next_sibling c with
  | Some c' => Some (c', false)
  | None =>
      match goto_parent c with
      | None => None
      | Some c' => Some (c', true)
      end
  end.

(** One iteration of the loop of [walk_tree] on the state
    [(cursor, visited)]: what it yields and the next state. *)
Definition walk_step (st : TreeCursor * bool) : list NodeRef * option (TreeCursor * bool) :=
  let (cursor, visited) := st in
  if negb visited then
    match goto_first_child cursor with
    | Some c' => ([cursor_ref cursor], Some (c', false))
    | None => ([cursor_ref cursor], walk_advance cursor)
    end
  else ([], walk_advance cursor).

(** Draining the generator: [None] when [fuel] iterations do not reach the
    [break]. *)
Fixpoint walk_run (fuel : nat) (st : TreeCursor * bool) : option (list NodeRef) :=
  match fuel with
  | O => None
  | S fuel' =>
      let (out, next) := walk_step st in
      match next with
      | None => Some out
      | Some st' => option_map (app out) (walk_run fuel' st')
      end
  end.

(** Iterations that always suffice for the subtree of [n]. *)
Definition walk_fuel (n : Node) : nat := 2 * node_count n.

(** [list(walk_tree(node))] *)
Definition walk_tree (n : Node) : list NodeRef :=
  match walk_run (walk_fuel n) (walk n, false) with
  | Some l => l
  | None => []
  end.

(** ** The entity records (base.py) *)

Module FunctionInfo.
Record t : Type := mk {
  name : string;
  line_start : nat;
  line_end : nat;
  signature : string;
  class_name : option string;
  docstring : option string
}.
End FunctionInfo.

Module ClassInfo.
Record t : Type := mk {
  name : string;
  line_start : nat;
  line_end : nat;
  bases : option string;
  docstring : option string
}.
End ClassInfo.

Module ImportInfo.
Record t : Type := mk {
  module : string;
  line : nat;
  alias : option string
}.
End ImportInfo.

Module VariableInfo.
Record t : Type := mk {
  name : string;
  line : nat;
  scope : string;               (* 'global', 'class' *)
  class_name : option string;
  type_hint : option string
}.
End VariableInfo.

Module CallInfo.
Record t : Type := mk {
  callee_name : string;
  line : nat;
  caller_function : option string
}.
End CallInfo.

(** ** Helpers shared by the three extractors *)

(** [k] applied to the first element satisfying [p]: the shape of
    [x = first(...); if x: return k(x)] and of a [for] loop that returns at
    its first accepted element. *)
Definition on_first {A : Type} (p : Node -> bool) (k : Node -> A) : list Node -> option A :=
  fix go (l : list Node) : option A :=
    match l with
    | [] => None
    | c :: l' => if p c then Some (k c) else go l'
    end.

(** [get_node_text(n, source) if n else default] *)
Definition text_or (o : option Node) (source default : string) : string :=
  match o with
  | Some n => get_node_text n source
  | None => default
  end.

(** [get_node_text(n, source) if n else None] *)
Definition text_opt (o : option Node) (source : string) : option string :=
  option_map (fun n => get_node_text n source) o.

(** Truthiness of an optional [str]. *)
Definition truthy_opt (o : option string) : bool :=
  match o with
  | Some s => PyStr.truthy s
  | None => false
  end.

(** [node.start_point[0] + 1] and [node.end_point[0] + 1] *)
Definition start_line (n : Node) : nat := start_row n + 1.
Definition end_line (n : Node) : nat := end_row n + 1.

(** The caller lookup of [extract_calls]:
    [for start, end, name in func_ranges:
       if start <= call_pos <= end: caller = name; break] *)
Fixpoint find_caller (func_ranges : list (nat * nat * string)) (call_pos : nat) : option string :=
  match func_ranges with
  | [] => None
  | (start, end_, name) :: rest =>
      if (start <=? call_pos)%nat && (call_pos <=? end_)%nat then Some name
      else find_caller rest call_pos
  end.

(** The class-like ancestor lookup of [_get_parent_class], on the chain of
    parents: the name text of the nearest ancestor of one of the types
    [class_types] that has a [name] field. *)
Fixpoint parent_class_in (class_types : list string) (anc : list Node) (source : string)
  : option string :=
  match anc with
  | [] => None
  | p :: up =>
      if type_in p class_types then
        match child_by_field_name p "name" with
        | Some name_node => Some (get_node_text name_node source)
        | None => parent_class_in class_types up source
        end
      else parent_class_in class_types up source
  end.

(** ** python_ext.py *)

Module PythonExtractor.

(** [_get_parent_class(node, source)] *)
Definition _get_parent_class (node : NodeRef) (source : string) : option string :=
  parent_class_in ["class_definition"] (nr_anc node) source.

(** The body of the [for child in body_node.children] loop of
    [_extract_docstring]. *)
Fixpoint docstring_scan (cs : list Node) (source : string) : option string :=
  match cs with
  | [] => None
  | child :: rest =>
      if is_type child "expression_statement" then
        match child0 child with
        | Some expr =>
            if is_type expr "string" then
              let text := get_node_text expr source in
              if PyStr.startswith (PyStr.triple PyStr.dquote) text
                 || PyStr.startswith (PyStr.triple PyStr.squote) text
              then Some (PyStr.strip (PyStr.slice_inner 3 3 text))
              else if PyStr.startswith (PyStr.of_char PyStr.dquote) text
                      || PyStr.startswith (PyStr.of_char PyStr.squote) text
              then Some (PyStr.strip (PyStr.slice_inner 1 1 text))
              else docstring_scan rest source
            else docstring_scan rest source
        | None => docstring_scan rest source
        end
      else if negb (type_in child ["comment"]) then None   (* break *)
      else docstring_scan rest source
  end.

(** [_extract_docstring(body_node, source)] *)
Definition _extract_docstring (body_node : option Node) (source : string) : option string :=
  match body_node with
  | None => None
  | Some body => docstring_scan (children body) source
  end.

(** [_extract_function(node, source)] *)
Definition _extract_function (node : NodeRef) (source : string) : FunctionInfo.t :=
  let n := nr_node node in
  let name_node := child_by_field_name n "name" in
  let params_node := child_by_field_name n "parameters" in
  let return_node := child_by_field_name n "return_type" in
  let body_node := child_by_field_name n "body" in
  let name := text_or name_node source "<unknown>" in
  let params := text_or params_node source "()" in
  let return_type := text_or return_node source EmptyString in
  let signature := "def " ++ name ++ params in
  let signature :=
    if PyStr.truthy return_type then signature ++ " -> " ++ return_type else signature in
  let class_name := _get_parent_class node source in
  let docstring := _extract_docstring body_node source in
  FunctionInfo.mk name (start_line n) (end_line n) signature class_name docstring.

(** [extract_functions(tree, source)], with [root = tree.root_node]. *)
Definition extract_functions_at (node : NodeRef) (source : string) : list FunctionInfo.t :=
  if is_type (nr_node node) "function_definition"
  then [_extract_function node source]
  else [].

Definition extract_functions (root : Node) (source : string) : list FunctionInfo.t :=
  flat_map (fun node => extract_functions_at node source) (walk_tree root).

(** The base names collected by [_extract_class]. *)
Definition class_bases (n : Node) (source : string) : list string :=
  flat_map
    (fun child =>
       if is_type child "argument_list" then
         flat_map
           (fun arg =>
              if is_type arg "identifier" then [get_node_text arg source]
              else if is_type arg "attribute" then [get_node_text arg source]
              else [])
           (children child)
       else [])
    (children n).

(** [_extract_class(node, source)] *)
Definition _extract_class (node : NodeRef) (source : string) : ClassInfo.t :=
  let n := nr_node node in
  let name_node := child_by_field_name n "name" in
  let body_node := child_by_field_name n "body" in
  let name := text_or name_node source "<unknown>" in
  let bases := class_bases n source in
  let docstring := _extract_docstring body_node source in
  ClassInfo.mk name (start_line n) (end_line n)
    (match bases with [] => None | _ => Some (PyStr.join ", " bases) end)
    docstring.

Definition extract_classes_at (node : NodeRef) (source : string) : list ClassInfo.t :=
  if is_type (nr_node node) "class_definition"
  then [_extract_class node source]
  else [].

Definition extract_classes (root : Node) (source : string) : list ClassInfo.t :=
  flat_map (fun node => extract_classes_at node source) (walk_tree root).

(** The [aliased_import] branch shared by both import forms; [mk_module]
    builds the module path from the imported item. *)
Definition aliased_import (node child : Node) (source : string)
           (mk_module : string -> string) : list ImportInfo.t :=
  let name_node := child_by_field_name child "name" in
  let alias_node := child_by_field_name child "alias" in
  match name_node with
  | Some nn =>
      [ImportInfo.mk (mk_module (get_node_text nn source)) (start_line node)
         (text_opt alias_node source)]
  | None => []
  end.

(** [_extract_import(node, source)] *)
Definition _extract_import (node : Node) (source : string) : list ImportInfo.t :=
  flat_map
    (fun child =>
       if is_type child "dotted_name" then
         [ImportInfo.mk (get_node_text child source) (start_line node) None]
       else if is_type child "aliased_import" then
         aliased_import node child source (fun item => item)
       else [])
    (children node).

(** Position of [child_by_field_name(f)] among the children: node identity
    ([child != module_node]) is identity of position under one parent. *)
Fixpoint field_index (f : string) (cs : list Node) : option nat :=
  match cs with
  | [] => None
  | c :: cs' => if has_field f c then Some 0 else option_map S (field_index f cs')
  end.

Definition is_index (i : nat) (o : option nat) : bool :=
  match o with
  | Some j => Nat.eqb i j
  | None => false
  end.

(** [_extract_from_import(node, source)] *)
Definition _extract_from_import (node : Node) (source : string) : list ImportInfo.t :=
  let module_node := child_by_field_name node "module_name" in
  let module_at := field_index "module_name" (children node) in
  let module := text_or module_node source EmptyString in
  let path (item : string) : string :=
    if PyStr.truthy module then module ++ "." ++ item else item in
  flat_map
    (fun ic : nat * Node =>
       let (i, child) := ic in
       if is_type child "dotted_name" && negb (is_index i module_at) then
         [ImportInfo.mk (path (get_node_text child source)) (start_line node) None]
       else if is_type child "aliased_import" then
         aliased_import node child source path
       else [])
    (combine (seq 0 (length (children node))) (children node)).

Definition extract_imports_at (node : NodeRef) (source : string) : list ImportInfo.t :=
  if is_type (nr_node node) "import_statement" then _extract_import (nr_node node) source
  else if is_type (nr_node node) "import_from_statement"
  then _extract_from_import (nr_node node) source
  else [].

Definition extract_imports (root : Node) (source : string) : list ImportInfo.t :=
  flat_map (fun node => extract_imports_at node source) (walk_tree root).

(** The scope decision of [_extract_assignment]: [None] is the early
    [return]. *)
Definition assignment_scope (node : NodeRef) (grandparent : Node) (source : string)
  : option (string * option string) :=
  if is_type grandparent "module" then Some ("global", None)
  else if is_type grandparent "block" then
    let class_name := _get_parent_class node source in
    if truthy_opt class_name then Some ("class", class_name)
    else None                       (* Inside a function, skip *)
  else None.

(** [_extract_assignment(node, source)] *)
Definition _extract_assignment (node : NodeRef) (source : string) : list VariableInfo.t :=
  match nr_anc node with
  | parent :: grandparent :: _ =>
      if is_type parent "expression_statement" then
        match assignment_scope node grandparent source with
        | Some (scope, class_name) =>
            match child_by_field_name (nr_node node) "left" with
            | Some left_ =>
                if is_type left_ "identifier" then
                  [VariableInfo.mk (get_node_text left_ source) (start_line (nr_node node))
                     scope class_name None]
                else []
            | None => []
            end
        | None => []
        end
      else []
  | _ => []
  end.

(** [_extract_annotated_assignment(node, source)] *)
Definition _extract_annotated_assignment (node : NodeRef) (source : string)
  : list VariableInfo.t :=
  match nr_anc node with
  | parent :: _ =>
      if type_in parent ["module"; "block"] then
        let decision : option (string * option string) :=
          if is_type parent "module" then Some ("global", None)
          else
            let class_name := _get_parent_class node source in
            if truthy_opt class_name then Some ("class", class_name) else None in
        match decision with
        | Some (scope, class_name) =>
            let name_node := child_by_field_name (nr_node node) "name" in
            let type_node := child_by_field_name (nr_node node) "type" in
            match name_node with
            | Some nn =>
                if is_type nn "identifier" then
                  [VariableInfo.mk (get_node_text nn source) (start_line (nr_node node))
                     scope class_name (text_opt type_node source)]
                else []
            | None => []
            end
        | None => []
        end
      else []
  | [] => []
  end.

Definition extract_variables_at (node : NodeRef) (source : string) : list VariableInfo.t :=
  if is_type (nr_node node) "assignment" then _extract_assignment node source
  else if is_type (nr_node node) "annotated_assignment"
  then _extract_annotated_assignment node source
  else [].

Definition extract_variables (root : Node) (source : string) : list VariableInfo.t :=
  flat_map (fun node => extract_variables_at node source) (walk_tree root).

(** Phase 1 of [extract_calls]: the table of function ranges. *)
Definition func_ranges_at (node : NodeRef) (source : string) : list (nat * nat * string) :=
  let n := nr_node node in
  if is_type n "function_definition" then
    match child_by_field_name n "name" with
    | Some name_node => [(start_byte n, end_byte n, get_node_text name_node source)]
    | None => []
    end
  else [].

Definition func_ranges (nodes : list NodeRef) (source : string) : list (nat * nat * string) :=
  flat_map (fun node => func_ranges_at node source) nodes.

(** The callee of a [call] node; [None] is a [continue]. *)
Definition callee_of (n : Node) (source : string) : option string :=
  match child_by_field_name n "function" with
  | None => None
  | Some func_node =>
      if is_type func_node "identifier" then Some (get_node_text func_node source)
      else if is_type func_node "attribute" then
        text_opt (child_by_field_name func_node "attribute") source
      else None
  end.

(** Phase 2 of [extract_calls], for one node of the second walk. *)
Definition extract_calls_at (ranges : list (nat * nat * string)) (node : NodeRef)
           (source : string) : list CallInfo.t :=
  let n := nr_node node in
  if is_type n "call" then
    match callee_of n source with
    | Some callee => [CallInfo.mk callee (start_line n) (find_caller ranges (start_byte n))]
    | None => []
    end
  else [].

(** [extract_calls(tree, source)] *)
Definition extract_calls (root : Node) (source : string) : list CallInfo.t :=
  let ranges := func_ranges (walk_tree root) source in
  flat_map (fun node => extract_calls_at ranges node source) (walk_tree root).

End PythonExtractor.

(** ** c_ext.py *)

Module CExtractor.

(** [_extract_declarator_info(node, source)]: (name or [None], params). *)
Fixpoint _extract_declarator_info (node : Node) (source : string) {struct node}
  : option string * string :=
  let fail := (@None string, "()") in
  if is_type node "function_declarator" then
    let params_node := child_by_field_name node "parameters" in
    let params := text_or params_node source "()" in
    match
      on_first (has_field "declarator")
        (fun decl =>
           if is_type decl "identifier" then (Some (get_node_text decl source), params)
           else (fst (_extract_declarator_info decl source), params))
        (children node)
    with
    | Some result => result
    | None => fail
    end
  else if is_type node "pointer_declarator" then
    match
      on_first (has_field "declarator")
        (fun decl => _extract_declarator_info decl source) (children node)
    with
    | Some result => result
    | None => fail
    end
  else if is_type node "identifier" then (Some (get_node_text node source), "()")
  else if is_type node "parenthesized_declarator" then
    match
      on_first (fun child => negb (type_in child ["("; ")"]))
        (fun child => _extract_declarator_info child source) (children node)
    with
    | Some result => result
    | None => fail
    end
  else fail.

(** [_extract_function(node, source)] *)
Definition _extract_function (node : NodeRef) (source : string) : option FunctionInfo.t :=
  let n := nr_node node in
  let type_node := child_by_field_name n "type" in
  match child_by_field_name n "declarator" with
  | None => None
  | Some declarator =>
      let (name, params) := _extract_declarator_info declarator source in
      match name with
      | None => None
      | Some name =>
          if negb (PyStr.truthy name) then None
          else
            let return_type := text_or type_node source "void" in
            let signature := return_type ++ " " ++ name ++ params in
            Some (FunctionInfo.mk name (start_line n) (end_line n) signature None None)
      end
  end.

Definition extract_functions_at (node : NodeRef) (source : string) : list FunctionInfo.t :=
  if is_type (nr_node node) "function_definition" then
    match _extract_function node source with
    | Some info => [info]
    | None => []
    end
  else [].

Definition extract_functions (root : Node) (source : string) : list FunctionInfo.t :=
  flat_map (fun node => extract_functions_at node source) (walk_tree root).

(** [_extract_struct(node, source)] *)
Definition _extract_struct (node : NodeRef) (source : string) : option ClassInfo.t :=
  let n := nr_node node in
  let name_node := child_by_field_name n "name" in
  let body_node := child_by_field_name n "body" in
  match name_node with
  | None => None
  | Some nn =>
      Some (ClassInfo.mk (get_node_text nn source) (start_line n)
              (match body_node with Some _ => end_line n | None => start_line n end)
              None None)
  end.

Definition extract_classes_at (node : NodeRef) (source : string) : list ClassInfo.t :=
  if is_type (nr_node node) "struct_specifier" then
    match _extract_struct node source with
    | Some info => [info]
    | None => []
    end
  else [].

Definition extract_classes (root : Node) (source : string) : list ClassInfo.t :=
  flat_map (fun node => extract_classes_at node source) (walk_tree root).

(** The characters [path.strip] removes: a double quote, [<] and [>]. *)
Definition include_delims : string := String PyStr.dquote "<>".

Definition extract_imports_at (node : NodeRef) (source : string) : list ImportInfo.t :=
  let n := nr_node node in
  if is_type n "preproc_include" then
    match child_by_field_name n "path" with
    | Some path_node =>
        let path := get_node_text path_node source in
        let path := PyStr.strip_chars include_delims path in
        [ImportInfo.mk path (start_line n) None]
    | None => []
    end
  else [].

Definition extract_imports (root : Node) (source : string) : list ImportInfo.t :=
  flat_map (fun node => extract_imports_at node source) (walk_tree root).

(** [_get_var_name(node, source)] *)
Fixpoint _get_var_name (node : Node) (source : string) {struct node} : option string :=
  if is_type node "identifier" then Some (get_node_text node source)
  else if type_in node ["init_declarator"; "pointer_declarator"; "array_declarator"] then
    match
      on_first (has_field "declarator") (fun decl => _get_var_name decl source)
        (children node)
    with
    | Some result => result
    | None =>
        (* Try first child *)
        on_first (fun child => is_type child "identifier")
          (fun child => get_node_text child source) (children node)
    end
  else None.

(** [_extract_declaration(node, source)] *)
Definition _extract_declaration (node : NodeRef) (source : string) : list VariableInfo.t :=
  let n := nr_node node in
  let type_node := child_by_field_name n "type" in
  let type_str := text_opt type_node source in
  match child_by_field_name n "declarator" with
  | Some declarator =>
      let name := _get_var_name declarator source in
      match name with
      | Some name =>
          if PyStr.truthy name then
            [VariableInfo.mk name (start_line n) "global" None type_str]
          else []
      | None => []
      end
  | None => []
  end.

Definition extract_variables_at (node : NodeRef) (source : string) : list VariableInfo.t :=
  if is_type (nr_node node) "declaration" then
    match nr_anc node with
    | parent :: _ =>
        (* Only global declarations (direct children of translation_unit) *)
        if is_type parent "translation_unit" then _extract_declaration node source
        else []
    | [] => []
    end
  else [].

Definition extract_variables (root : Node) (source : string) : list VariableInfo.t :=
  flat_map (fun node => extract_variables_at node source) (walk_tree root).

Definition func_ranges_at (node : NodeRef) (source : string) : list (nat * nat * string) :=
  let n := nr_node node in
  if is_type n "function_definition" then
    match child_by_field_name n "declarator" with
    | Some declarator =>
        match fst (_extract_declarator_info declarator source) with
        | Some name =>
            if PyStr.truthy name then [(start_byte n, end_byte n, name)] else []
        | None => []
        end
    | None => []
    end
  else [].

Definition func_ranges (nodes : list NodeRef) (source : string) : list (nat * nat * string) :=
  flat_map (fun node => func_ranges_at node source) nodes.

(** The callee of a [call_expression] node; [None] when none is taken. *)
Definition callee_of (n : Node) (source : string) : option string :=
  match child_by_field_name n "function" with
  | Some func_node =>
      if is_type func_node "identifier" then Some (get_node_text func_node source)
      else None
  | None => None
  end.

Definition extract_calls_at (ranges : list (nat * nat * string)) (node : NodeRef)
           (source : string) : list CallInfo.t :=
  let n := nr_node node in
  if is_type n "call_expression" then
    match callee_of n source with
    | Some callee => [CallInfo.mk callee (start_line n) (find_caller ranges (start_byte n))]
    | None => []
    end
  else [].

(** [extract_calls(tree, source)] *)
Definition extract_calls (root : Node) (source : string) : list CallInfo.t :=
  let ranges := func_ranges (walk_tree root) source in
  flat_map (fun node => extract_calls_at ranges node source) (walk_tree root).

End CExtractor.

(** ** cpp_ext.py *)

Module CppExtractor.

(** [_extract_declarator_info(node, source)]: (name or [None], params). *)
Fixpoint _extract_declarator_info (node : Node) (source : string) {struct node}
  : option string * string :=
  let fail := (@None string, "()") in
  if is_type node "function_declarator" then
    let params_node := child_by_field_name node "parameters" in
    let params := text_or params_node source "()" in
    match
      on_first (has_field "declarator")
        (fun decl =>
           if is_type decl "identifier" then (Some (get_node_text decl source), params)
           else if is_type decl "qualified_identifier"
           then (Some (get_node_text decl source), params)
           else if is_type decl "field_identifier"
           then (Some (get_node_text decl source), params)
           else (fst (_extract_declarator_info decl source), params))
        (children node)
    with
    | Some result => result
    | None => fail
    end
  else if is_type node "pointer_declarator" then
    match
      on_first (has_field "declarator")
        (fun decl => _extract_declarator_info decl source) (children node)
    with
    | Some result => result
    | None => fail
    end
  else if is_type node "reference_declarator" then
    match
      on_first (fun child => negb (type_in child ["&"; "&&"]))
        (fun child => _extract_declarator_info child source) (children node)
    with
    | Some result => result
    | None => fail
    end
  else if type_in node ["identifier"; "qualified_identifier"; "field_identifier"]
  then (Some (get_node_text node source), "()")
  else if is_type node "parenthesized_declarator" then
    match
      on_first (fun child => negb (type_in child ["("; ")"]))
        (fun child => _extract_declarator_info child source) (children node)
    with
    | Some result => result
    | None => fail
    end
  else fail.

(** The [Class::method] split of [_extract_function]:
    (class_name, name). *)
Definition split_qualified (name : string) : option string * string :=
  if PyStr.contains "::" name then
    match PyStr.rsplit1 "::" name with
    | Some (cls, meth) => (Some cls, meth)
    | None => (None, name)
    end
  else (None, name).

(** [_extract_function(node, source)] *)
Definition _extract_function (node : NodeRef) (source : string) : option FunctionInfo.t :=
  let n := nr_node node in
  let type_node := child_by_field_name n "type" in
  match child_by_field_name n "declarator" with
  | None => None
  | Some declarator =>
      let (name, params) := _extract_declarator_info declarator source in
      match name with
      | None => None
      | Some name =>
          if negb (PyStr.truthy name) then None
          else
            let return_type := text_or type_node source "void" in
            let (class_name, name) := split_qualified name in
            let signature := return_type ++ " " ++ name ++ params in
            Some (FunctionInfo.mk name (start_line n) (end_line n) signature class_name None)
      end
  end.

Definition extract_functions_at (node : NodeRef) (source : string) : list FunctionInfo.t :=
  if is_type (nr_node node) "function_definition" then
    match _extract_function node source with
    | Some info => [info]
    | None => []
    end
  else [].

Definition extract_functions (root : Node) (source : string) : list FunctionInfo.t :=
  flat_map (fun node => extract_functions_at node source) (walk_tree root).

(** The base names collected by [_extract_class]. *)
Definition class_bases (n : Node) (source : string) : list string :=
  flat_map
    (fun child =>
       if is_type child "base_class_clause" then
         flat_map
           (fun base =>
              if is_type base "type_identifier" then [get_node_text base source]
              else if is_type base "qualified_identifier" then [get_node_text base source]
              else [])
           (children child)
       else [])
    (children n).

(** [_extract_class(node, source)] *)
Definition _extract_class (node : NodeRef) (source : string) : option ClassInfo.t :=
  let n := nr_node node in
  let name_node := child_by_field_name n "name" in
  let body_node := child_by_field_name n "body" in
  match name_node with
  | None => None
  | Some nn =>
      let bases := class_bases n source in
      Some (ClassInfo.mk (get_node_text nn source) (start_line n)
              (match body_node with Some _ => end_line n | None => start_line n end)
              (match bases with [] => None | _ => Some (PyStr.join ", " bases) end)
              None)
  end.

Definition extract_classes_at (node : NodeRef) (source : string) : list ClassInfo.t :=
  if type_in (nr_node node) ["class_specifier"; "struct_specifier"] then
    match _extract_class node source with
    | Some info => [info]
    | None => []
    end
  else [].

Definition extract_classes (root : Node) (source : string) : list ClassInfo.t :=
  flat_map (fun node => extract_classes_at node source) (walk_tree root).

Definition extract_imports_at (node : NodeRef) (source : string) : list ImportInfo.t :=
  let n := nr_node node in
  if is_type n "preproc_include" then
    match child_by_field_name n "path" with
    | Some path_node =>
        let path := get_node_text path_node source in
        let path := PyStr.strip_chars CExtractor.include_delims path in
        [ImportInfo.mk path (start_line n) None]
    | None => []
    end
  else [].

Definition extract_imports (root : Node) (source : string) : list ImportInfo.t :=
  flat_map (fun node => extract_imports_at node source) (walk_tree root).

(** [_get_parent_class(node, source)] *)
Definition _get_parent_class (node : NodeRef) (source : string) : option string :=
  parent_class_in ["class_specifier"; "struct_specifier"] (nr_anc node) source.

(** [_get_var_name(node, source)] *)
Fixpoint _get_var_name (node : Node) (source : string) {struct node} : option string :=
  if type_in node ["identifier"; "field_identifier"] then Some (get_node_text node source)
  else if type_in node ["init_declarator"; "pointer_declarator"; "array_declarator"] then
    match
      on_first (has_field "declarator") (fun decl => _get_var_name decl source)
        (children node)
    with
    | Some result => result
    | None =>
        on_first (fun child => type_in child ["identifier"; "field_identifier"])
          (fun child => get_node_text child source) (children node)
    end
  else None.

(** [_extract_declaration(node, source, scope, class_name)] *)
Definition _extract_declaration (node : NodeRef) (source : string) (scope : string)
           (class_name : option string) : list VariableInfo.t :=
  let n := nr_node node in
  let type_node := child_by_field_name n "type" in
  let type_str := text_opt type_node source in
  match child_by_field_name n "declarator" with
  | Some declarator =>
      match _get_var_name declarator source with
      | Some name =>
          if PyStr.truthy name then
            [VariableInfo.mk name (start_line n) scope class_name type_str]
          else []
      | None => []
      end
  | None => []
  end.

(** [_extract_field(node, source, class_name)] *)
Definition _extract_field (node : NodeRef) (source : string) (class_name : string)
  : list VariableInfo.t :=
  let n := nr_node node in
  let type_node := child_by_field_name n "type" in
  let type_str := text_opt type_node source in
  match child_by_field_name n "declarator" with
  | Some declarator =>
      match _get_var_name declarator source with
      | Some name =>
          if PyStr.truthy name then
            [VariableInfo.mk name (start_line n) "class" (Some class_name) type_str]
          else []
      | None => []
      end
  | None => []
  end.

Definition extract_variables_at (node : NodeRef) (source : string) : list VariableInfo.t :=
  if is_type (nr_node node) "declaration" then
    match nr_anc node with
    | parent :: _ =>
        if is_type parent "translation_unit"
        then _extract_declaration node source "global" None
        else []
    | [] => []
    end
  else if is_type (nr_node node) "field_declaration" then
    (* Class member *)
    match _get_parent_class node source with
    | Some class_name =>
        if PyStr.truthy class_name then _extract_field node source class_name else []
    | None => []
    end
  else [].

Definition extract_variables (root : Node) (source : string) : list VariableInfo.t :=
  flat_map (fun node => extract_variables_at node source) (walk_tree root).

(** [name.rsplit("::", 1)[1]] under the guard ["::" in name]. *)
Definition strip_class_prefix (name : string) : string :=
  if PyStr.contains "::" name then
    match PyStr.rsplit1 "::" name with
    | Some (_, meth) => meth
    | None => name
    end
  else name.

Definition func_ranges_at (node : NodeRef) (source : string) : list (nat * nat * string) :=
  let n := nr_node node in
  if is_type n "function_definition" then
    match child_by_field_name n "declarator" with
    | Some declarator =>
        match fst (_extract_declarator_info declarator source) with
        | Some name =>
            if PyStr.truthy name
            then [(start_byte n, end_byte n, strip_class_prefix name)]
            else []
        | None => []
        end
    | None => []
    end
  else [].

Definition func_ranges (nodes : list NodeRef) (source : string) : list (nat * nat * string) :=
  flat_map (fun node => func_ranges_at node source) nodes.

(** The callee of a [call_expression] node; [None] when none is taken. *)
Definition callee_of (n : Node) (source : string) : option string :=
  match child_by_field_name n "function" with
  | None => None
  | Some func_node =>
      if is_type func_node "identifier" then Some (get_node_text func_node source)
      else if is_type func_node "qualified_identifier"
      then Some (get_node_text func_node source)
      else if is_type func_node "field_expression" then
        (* obj.method() or obj->method() *)
        text_opt (child_by_field_name func_node "field") source
      else None
  end.

Definition extract_calls_at (ranges : list (nat * nat * string)) (node : NodeRef)
           (source : string) : list CallInfo.t :=
  let n := nr_node node in
  if is_type n "call_expression" then
    match callee_of n source with
    | Some callee =>
        if PyStr.truthy callee then
          [CallInfo.mk callee (start_line n) (find_caller ranges (start_byte n))]
        else []
    | None => []
    end
  else [].

(** [extract_calls(tree, source)] *)
Definition extract_calls (root : Node) (source : string) : list CallInfo.t :=
  let ranges := func_ranges (walk_tree root) source in
  flat_map (fun node => extract_calls_at ranges node source) (walk_tree root).

End CppExtractor.

(** ** Measures and reference notions the properties are stated with *)

(** Loop iterations [walk_tree] spends on the subtree of [n]: one per node,
    and one more on the way back up through each node that has children. *)
Fixpoint walk_cost (n : Node) : nat :=
  match children n with
  | [] => 1
  | cs => 2 + list_sum (map walk_cost cs)
  end.

(** What the loop does once the subtree under the cursor is finished. *)
Definition walk_after (fuel : nat) (c : TreeCursor) : option (list NodeRef) :=
  match walk_advance c with
  | None => Some []
  | Some st => walk_run fuel st
  end.

(** The subtree statement: once the rest of the walk is known, the walk of a
    subtree prepends its pre-order listing. *)
Definition walk_subtree_ok (n : Node) : Prop :=
  forall path fuel k,
    walk_after fuel (mkCursor n path) = Some k ->
    walk_run (walk_cost n + fuel) (mkCursor n path, false) =
    Some (preorder (map fr_parent path) n ++ k)%list.

(** ** The closed set of extractors (extractors/__init__.py) *)

Inductive Language : Type := python | c | cpp.

Definition ranges_t : Type := list (nat * nat * string).

(** The five capabilities of [BaseExtractor]. *)
Record BaseExtractor : Type := mkExtractor {
  extract_functions : Node -> string -> list FunctionInfo.t;
  extract_classes : Node -> string -> list ClassInfo.t;
  extract_imports : Node -> string -> list ImportInfo.t;
  extract_variables : Node -> string -> list VariableInfo.t;
  extract_calls : Node -> string -> list CallInfo.t
}.

(** [EXTRACTORS[lang]] *)
Definition extractor (lang : Language) : BaseExtractor :=
  match lang with
  | python =>
      mkExtractor PythonExtractor.extract_functions PythonExtractor.extract_classes
        PythonExtractor.extract_imports PythonExtractor.extract_variables
        PythonExtractor.extract_calls
  | c =>
      mkExtractor CExtractor.extract_functions CExtractor.extract_classes
        CExtractor.extract_imports CExtractor.extract_variables CExtractor.extract_calls
  | cpp =>
      mkExtractor CppExtractor.extract_functions CppExtractor.extract_classes
        CppExtractor.extract_imports CppExtractor.extract_variables
        CppExtractor.extract_calls
  end.

(** The loop bodies of the five passes, per language: what one node of the
    walk contributes. *)
Record PassBodies : Type := mkBodies {
  functions_at : NodeRef -> string -> list FunctionInfo.t;
  classes_at : NodeRef -> string -> list ClassInfo.t;
  imports_at : NodeRef -> string -> list ImportInfo.t;
  variables_at : NodeRef -> string -> list VariableInfo.t;
  ranges_at : NodeRef -> string -> ranges_t;
  calls_at : ranges_t -> NodeRef -> string -> list CallInfo.t
}.

Definition bodies (lang : Language) : PassBodies :=
  match lang with
  | python =>
      mkBodies PythonExtractor.extract_functions_at PythonExtractor.extract_classes_at
        PythonExtractor.extract_imports_at PythonExtractor.extract_variables_at
        PythonExtractor.func_ranges_at PythonExtractor.extract_calls_at
  | c =>
      mkBodies CExtractor.extract_functions_at CExtractor.extract_classes_at
        CExtractor.extract_imports_at CExtractor.extract_variables_at
        CExtractor.func_ranges_at CExtractor.extract_calls_at
  | cpp =>
      mkBodies CppExtractor.extract_functions_at CppExtractor.extract_classes_at
        CppExtractor.extract_imports_at CppExtractor.extract_variables_at
        CppExtractor.func_ranges_at CppExtractor.extract_calls_at
  end.

(** The phase-1 table of [extract_calls] over a node sequence. *)
Definition func_ranges (lang : Language) (nodes : list NodeRef) (source : string) : ranges_t :=
  flat_map (fun node => ranges_at (bodies lang) node source) nodes.

(** The node type each language's [extract_calls] filters on. *)
Definition call_type (lang : Language) : string :=
  match lang with
  | python => "call"
  | c | cpp => "call_expression"
  end.

(** ** Draining a pass on a store of cursors *)















(** ** Notions the declarator properties are stated with *)

(** The child a declarator wrapper hands the resolution on to, as a
    predicate selecting it among the children; [with_refs] is set for the
    C++ resolver, which also unwraps [reference_declarator]. *)
Definition wrapped_child (with_refs : bool) (node : Node) : option (Node -> bool) :=
  if is_type node "function_declarator" || is_type node "pointer_declarator"
  then Some (has_field "declarator")
  else if with_refs && is_type node "reference_declarator"
  then Some (fun child => negb (type_in child ["&"; "&&"]))
  else if is_type node "parenthesized_declarator"
  then Some (fun child => negb (type_in child ["("; ")"]))
  else None.

(** The chain of declarator nodes the resolver goes through, outermost
    first. *)
Fixpoint declarator_chain (with_refs : bool) (node : Node) {struct node} : list Node :=
  node ::
  match wrapped_child with_refs node with
  | Some p =>
      match on_first p (declarator_chain with_refs) (children node) with
      | Some inner => inner
      | None => []
      end
  | None => []
  end.

Definition is_function_declarator (n : Node) : bool := is_type n "function_declarator".

(** The first and the last [function_declarator] of a chain. *)
Definition outermost_function_declarator (with_refs : bool) (node : Node) : option Node :=
  find is_function_declarator (declarator_chain with_refs node).

Definition innermost_function_declarator (with_refs : bool) (node : Node) : option Node :=
  find is_function_declarator (rev (declarator_chain with_refs node)).

(** The parameter-list text a [function_declarator] carries itself. *)
Definition own_parameters (fd : Node) (source : string) : string :=
  text_or (child_by_field_name fd "parameters") source "()".

(** The node at which the unwrapping stops. *)
Fixpoint chain_end (with_refs : bool) (node : Node) {struct node} : Node :=
  match wrapped_child with_refs node with
  | Some p =>
      match on_first p (chain_end with_refs) (children node) with
      | Some inner => inner
      | None => node
      end
  | None => node
  end.

(** The node types whose text is a name: [identifier] for C, and the
    qualified and field identifiers as well for C++. *)
Definition identifier_types (cxx : bool) : list string :=
  if cxx then ["identifier"; "qualified_identifier"; "field_identifier"] else ["identifier"].

(** The name at the end of the chain, when the chain ends in a name. *)
Definition chain_name (cxx : bool) (node : Node) (source : string) : option string :=
  let last_node := chain_end cxx node in
  if type_in last_node (identifier_types cxx)
  then Some (get_node_text last_node source)
  else None.

(** The parameter text the resolver returns: that of the outermost
    [function_declarator], provided it wraps a declarator. *)
Definition chain_parameters (cxx : bool) (node : Node) (source : string) : string :=
  match outermost_function_declarator cxx node with
  | Some fd =>
      match child_by_field_name fd "declarator" with
      | Some _ => own_parameters fd source
      | None => "()"
      end
  | None => "()"
  end.

(** The resolver of each of the two C-family extractors. *)
Definition declarator_info (cxx : bool) : Node -> string -> option string * string :=
  if cxx then CppExtractor._extract_declarator_info
  else CExtractor._extract_declarator_info.

(** ** Notions the scope and position properties are stated with *)

(** A range of the phase-1 table contains a byte position. *)
Definition covers (r : nat * nat * string) (pos : nat) : Prop :=
  fst (fst r) <= pos /\ pos <= snd (fst r).

(** [caller] is the name of the first range of the table containing [pos],
    or [None] when no range contains it. *)
Definition first_covering (ranges : ranges_t) (pos : nat) (caller : option string) : Prop :=
  match caller with
  | Some name =>
      exists before start end_ after,
        ranges = (before ++ (start, end_, name) :: after)%list /\
        start <= pos <= end_ /\
        Forall (fun r => ~ covers r pos) before
  | None => Forall (fun r => ~ covers r pos) ranges
  end.

(** The tree-sitter guarantee on positions: no node ends on a row before the
    one it starts on. *)
Definition rows_ordered (root : Node) : Prop :=
  Forall (fun r => start_row (nr_node r) <= end_row (nr_node r)) (preorder [] root).

(** The name of a function definition as each extractor resolves it:
    [None] when the name field is missing (Python) or the declarator is
    missing or resolves to no name or to an empty one (C, C++). *)
Definition resolved_name (lang : Language) (n : Node) (source : string) : option string :=
  match lang with
  | python => text_opt (child_by_field_name n "name") source
  | c =>
      match child_by_field_name n "declarator" with
      | Some declarator =>
          match fst (CExtractor._extract_declarator_info declarator source) with
          | Some name => if PyStr.truthy name then Some name else None
          | None => None
          end
      | None => None
      end
  | cpp =>
      match child_by_field_name n "declarator" with
      | Some declarator =>
          match fst (CppExtractor._extract_declarator_info declarator source) with
          | Some name => if PyStr.truthy name then Some name else None
          | None => None
          end
      | None => None
      end
  end.

(** A variable record is either global without a class, or class-scoped
    with one. *)
Definition scope_consistent (v : VariableInfo.t) : Prop :=
  (VariableInfo.scope v = "global" /\ VariableInfo.class_name v = None) \/
  (VariableInfo.scope v = "class" /\ exists cn, VariableInfo.class_name v = Some cn).

(** ** Concrete syntax trees *)

Definition nl : string := String "010"%char EmptyString.

(** A childless node on one row. *)
Definition leaf (ty : string) (fld : option string) (sb eb row : nat) : Node :=
  mkNode ty fld sb eb row row [].

Definition py_class_source : string :=
  "class A:" ++ nl ++ "    y = 2" ++ nl ++ "    def f(self):" ++ nl
  ++ "        x = g(1)" ++ nl ++ "z = 3" ++ nl.

Definition py_class_root : Node :=
  mkNode "module" None 0 59 0 5
    [
     mkNode "class_definition" None 0 52 0 3
       [
        leaf "class" None 0 5 0;
        leaf "identifier" (Some "name") 6 7 0;
        leaf ":" None 7 8 0;
        mkNode "block" (Some "body") 13 52 1 3
          [
           mkNode "expression_statement" None 13 18 1 1
             [
              mkNode "assignment" None 13 18 1 1
                [
                 leaf "identifier" (Some "left") 13 14 1;
                 leaf "=" None 15 16 1;
                 leaf "integer" (Some "right") 17 18 1 ] ];
           mkNode "function_definition" None 23 52 2 3
             [
              leaf "def" None 23 26 2;
              leaf "identifier" (Some "name") 27 28 2;
              mkNode "parameters" (Some "parameters") 28 34 2 2
                [leaf "(" None 28 29 2; leaf "identifier" None 29 33 2; leaf ")" None 33 34 2];
              leaf ":" None 34 35 2;
              mkNode "block" (Some "body") 44 52 3 3
                [
                 mkNode "expression_statement" None 44 52 3 3
                   [
                    mkNode "assignment" None 44 52 3 3
                      [
                       leaf "identifier" (Some "left") 44 45 3;
                       leaf "=" None 46 47 3;
                       mkNode "call" (Some "right") 48 52 3 3
                         [
                          leaf "identifier" (Some "function") 48 49 3;
                          mkNode "argument_list" (Some "arguments") 49 52 3 3
                            [
                             leaf "(" None 49 50 3;
                             leaf "integer" None 50 51 3;
                             leaf ")" None 51 52 3 ] ] ] ] ] ] ] ];
     mkNode "expression_statement" None 53 58 4 4
       [
        mkNode "assignment" None 53 58 4 4
          [
           leaf "identifier" (Some "left") 53 54 4;
           leaf "=" None 55 56 4;
           leaf "integer" (Some "right") 57 58 4 ] ] ].

Definition py_late_source : string :=
  "def f():" ++ nl ++ "    x = 1" ++ nl ++ "    'late'" ++ nl.

Definition py_late_root : Node :=
  mkNode "module" None 0 30 0 3
    [
     mkNode "function_definition" None 0 29 0 2
       [
        leaf "def" None 0 3 0;
        leaf "identifier" (Some "name") 4 5 0;
        mkNode "parameters" (Some "parameters") 5 7 0 0
          [leaf "(" None 5 6 0; leaf ")" None 6 7 0];
        leaf ":" None 7 8 0;
        mkNode "block" (Some "body") 13 29 1 2
          [
           mkNode "expression_statement" None 13 18 1 1
             [
              mkNode "assignment" None 13 18 1 1
                [
                 leaf "identifier" (Some "left") 13 14 1;
                 leaf "=" None 15 16 1;
                 leaf "integer" (Some "right") 17 18 1 ] ];
           mkNode "expression_statement" None 23 29 2 2
             [
              mkNode "string" None 23 29 2 2
                [
                 leaf "string_start" None 23 24 2;
                 leaf "string_content" None 24 28 2;
                 leaf "string_end" None 28 29 2 ] ] ] ] ].

Definition py_anon_source : string :=
  "def (): pass" ++ nl.

Definition py_anon_root : Node :=
  mkNode "module" None 0 13 0 1
    [
     mkNode "function_definition" None 0 12 0 0
       [
        leaf "def" None 0 3 0;
        mkNode "parameters" (Some "parameters") 4 6 0 0
          [leaf "(" None 4 5 0; leaf ")" None 5 6 0];
        leaf ":" None 6 7 0;
        mkNode "block" (Some "body") 8 12 0 0
          [
           mkNode "pass_statement" None 8 12 0 0
             [leaf "pass" None 8 12 0] ] ] ].

Definition c_unit_source : string :=
  "int (*fp)(void);" ++ nl ++ "struct S { int x; };" ++ nl ++ "int g = 1;" ++ nl
  ++ "int main(void) { return fp(); }" ++ nl.

Definition c_unit_root : Node :=
  mkNode "translation_unit" None 0 81 0 4
    [
     mkNode "declaration" None 0 16 0 0
       [
        leaf "primitive_type" (Some "type") 0 3 0;
        mkNode "function_declarator" (Some "declarator") 4 15 0 0
          [
           mkNode "parenthesized_declarator" (Some "declarator") 4 9 0 0
             [
              leaf "(" None 4 5 0;
              mkNode "pointer_declarator" None 5 8 0 0
                [leaf "*" None 5 6 0; leaf "identifier" (Some "declarator") 6 8 0];
              leaf ")" None 8 9 0 ];
           mkNode "parameter_list" (Some "parameters") 9 15 0 0
             [
              leaf "(" None 9 10 0;
              mkNode "parameter_declaration" None 10 14 0 0
                [leaf "primitive_type" (Some "type") 10 14 0];
              leaf ")" None 14 15 0 ] ];
        leaf ";" None 15 16 0 ];
     mkNode "struct_specifier" None 17 36 1 1
       [
        leaf "struct" None 17 23 1;
        leaf "type_identifier" (Some "name") 24 25 1;
        mkNode "field_declaration_list" (Some "body") 26 36 1 1
          [
           leaf "{" None 26 27 1;
           mkNode "field_declaration" None 28 34 1 1
             [
              leaf "primitive_type" (Some "type") 28 31 1;
              leaf "field_identifier" (Some "declarator") 32 33 1;
              leaf ";" None 33 34 1 ];
           leaf "}" None 35 36 1 ] ];
     leaf ";" None 36 37 1;
     mkNode "declaration" None 38 48 2 2
       [
        leaf "primitive_type" (Some "type") 38 41 2;
        mkNode "init_declarator" (Some "declarator") 42 47 2 2
          [
           leaf "identifier" (Some "declarator") 42 43 2;
           leaf "=" None 44 45 2;
           leaf "number_literal" (Some "value") 46 47 2 ];
        leaf ";" None 47 48 2 ];
     mkNode "function_definition" None 49 80 3 3
       [
        leaf "primitive_type" (Some "type") 49 52 3;
        mkNode "function_declarator" (Some "declarator") 53 63 3 3
          [
           leaf "identifier" (Some "declarator") 53 57 3;
           mkNode "parameter_list" (Some "parameters") 57 63 3 3
             [
              leaf "(" None 57 58 3;
              mkNode "parameter_declaration" None 58 62 3 3
                [leaf "primitive_type" (Some "type") 58 62 3];
              leaf ")" None 62 63 3 ] ];
        mkNode "compound_statement" (Some "body") 64 80 3 3
          [
           leaf "{" None 64 65 3;
           mkNode "return_statement" None 66 78 3 3
             [
              leaf "return" None 66 72 3;
              mkNode "call_expression" None 73 77 3 3
                [
                 leaf "identifier" (Some "function") 73 75 3;
                 mkNode "argument_list" (Some "arguments") 75 77 3 3
                   [leaf "(" None 75 76 3; leaf ")" None 76 77 3] ];
              leaf ";" None 77 78 3 ];
           leaf "}" None 79 80 3 ] ] ].

Definition c_fnptr_source : string :=
  "int (*f(int a))(char b) { return 0; }" ++ nl.

Definition c_fnptr_root : Node :=
  mkNode "translation_unit" None 0 38 0 1
    [
     mkNode "function_definition" None 0 37 0 0
       [
        leaf "primitive_type" (Some "type") 0 3 0;
        mkNode "function_declarator" (Some "declarator") 4 23 0 0
          [
           mkNode "parenthesized_declarator" (Some "declarator") 4 15 0 0
             [
              leaf "(" None 4 5 0;
              mkNode "pointer_declarator" None 5 14 0 0
                [
                 leaf "*" None 5 6 0;
                 mkNode "function_declarator" (Some "declarator") 6 14 0 0
                   [
                    leaf "identifier" (Some "declarator") 6 7 0;
                    mkNode "parameter_list" (Some "parameters") 7 14 0 0
                      [
                       leaf "(" None 7 8 0;
                       mkNode "parameter_declaration" None 8 13 0 0
                         [
                          leaf "primitive_type" (Some "type") 8 11 0;
                          leaf "identifier" (Some "declarator") 12 13 0 ];
                       leaf ")" None 13 14 0 ] ] ];
              leaf ")" None 14 15 0 ];
           mkNode "parameter_list" (Some "parameters") 15 23 0 0
             [
              leaf "(" None 15 16 0;
              mkNode "parameter_declaration" None 16 22 0 0
                [
                 leaf "primitive_type" (Some "type") 16 20 0;
                 leaf "identifier" (Some "declarator") 21 22 0 ];
              leaf ")" None 22 23 0 ] ];
        mkNode "compound_statement" (Some "body") 24 37 0 0
          [
           leaf "{" None 24 25 0;
           mkNode "return_statement" None 26 35 0 0
             [
              leaf "return" None 26 32 0;
              leaf "number_literal" None 33 34 0;
              leaf ";" None 34 35 0 ];
           leaf "}" None 36 37 0 ] ] ].

Definition cpp_unit_source : string :=
  "class W { int n; };" ++ nl ++ "int total;" ++ nl ++ "void W::draw() { paint(); }" ++ nl.

Definition cpp_unit_root : Node :=
  mkNode "translation_unit" None 0 59 0 3
    [
     mkNode "class_specifier" None 0 18 0 0
       [
        leaf "class" None 0 5 0;
        leaf "type_identifier" (Some "name") 6 7 0;
        mkNode "field_declaration_list" (Some "body") 8 18 0 0
          [
           leaf "{" None 8 9 0;
           mkNode "field_declaration" None 10 16 0 0
             [
              leaf "primitive_type" (Some "type") 10 13 0;
              leaf "field_identifier" (Some "declarator") 14 15 0;
              leaf ";" None 15 16 0 ];
           leaf "}" None 17 18 0 ] ];
     leaf ";" None 18 19 0;
     mkNode "declaration" None 20 30 1 1
       [
        leaf "primitive_type" (Some "type") 20 23 1;
        leaf "identifier" (Some "declarator") 24 29 1;
        leaf ";" None 29 30 1 ];
     mkNode "function_definition" None 31 58 2 2
       [
        leaf "primitive_type" (Some "type") 31 35 2;
        mkNode "function_declarator" (Some "declarator") 36 45 2 2
          [
           mkNode "qualified_identifier" (Some "declarator") 36 43 2 2
             [
              leaf "namespace_identifier" (Some "scope") 36 37 2;
              leaf "::" None 37 39 2;
              leaf "identifier" (Some "name") 39 43 2 ];
           mkNode "parameter_list" (Some "parameters") 43 45 2 2
             [leaf "(" None 43 44 2; leaf ")" None 44 45 2] ];
        mkNode "compound_statement" (Some "body") 46 58 2 2
          [
           leaf "{" None 46 47 2;
           mkNode "expression_statement" None 48 56 2 2
             [
              mkNode "call_expression" None 48 55 2 2
                [
                 leaf "identifier" (Some "function") 48 53 2;
                 mkNode "argument_list" (Some "arguments") 53 55 2 2
                   [leaf "(" None 53 54 2; leaf ")" None 54 55 2] ];
              leaf ";" None 55 56 2 ];
           leaf "}" None 57 58 2 ] ] ].

Definition cpp_operator_source : string :=
  "bool operator!(W w) { return false; }" ++ nl.

Definition cpp_operator_root : Node :=
  mkNode "translation_unit" None 0 38 0 1
    [
     mkNode "function_definition" None 0 37 0 0
       [
        leaf "primitive_type" (Some "type") 0 4 0;
        mkNode "function_declarator" (Some "declarator") 5 19 0 0
          [
           mkNode "operator_name" (Some "declarator") 5 14 0 0
             [leaf "operator" None 5 13 0; leaf "!" None 13 14 0];
           mkNode "parameter_list" (Some "parameters") 14 19 0 0
             [
              leaf "(" None 14 15 0;
              mkNode "parameter_declaration" None 15 18 0 0
                [
                 leaf "type_identifier" (Some "type") 15 16 0;
                 leaf "identifier" (Some "declarator") 17 18 0 ];
              leaf ")" None 18 19 0 ] ];
        mkNode "compound_statement" (Some "body") 20 37 0 0
          [
           leaf "{" None 20 21 0;
           mkNode "return_statement" None 22 35 0 0
             [leaf "return" None 22 28 0; leaf "false" None 29 34 0; leaf ";" None 34 35 0];
           leaf "}" None 36 37 0 ] ] ].

(** The node reached from [r] by a path of child indices, with its
    parents. *)
Fixpoint descend (r : NodeRef) (path : list nat) : NodeRef :=
  match path with
  | [] => r
  | i :: rest =>
      match nth_error (children (nr_node r)) i with
      | Some child => descend (mkRef child (nr_node r :: nr_anc r)) rest
      | None => r
      end
  end.

(** [x = g(1)] inside the method [f] of class [A]. *)
Definition py_class_local : NodeRef := descend (mkRef py_class_root []) [0; 3; 1; 4; 0; 0].

(** The body block of [f] in [py_late]. *)
Definition py_late_body : Node := nr_node (descend (mkRef py_late_root []) [0; 4]).

(** The function definition without a name field. *)
Definition py_anon_fn : NodeRef := descend (mkRef py_anon_root []) [0].

(** [int ( *fp)(void);] and its declarator. *)
Definition c_unit_fp : NodeRef := descend (mkRef c_unit_root []) [0].
Definition c_unit_fp_declarator : Node := nr_node (descend c_unit_fp [1]).

(** [int x;] inside [struct S]. *)
Definition c_unit_field : NodeRef := descend (mkRef c_unit_root []) [1; 2; 1].

(** The declarator of [f] in [c_fnptr], and the inner [f(int a)]. *)
Definition c_fnptr_declarator : Node := nr_node (descend (mkRef c_fnptr_root []) [0; 1]).
Definition c_fnptr_inner : Node := nr_node (descend (mkRef c_fnptr_root []) [0; 1; 0; 1; 1]).

(** [int n;] inside [class W]. *)
Definition cpp_unit_field : NodeRef := descend (mkRef cpp_unit_root []) [0; 2; 1].

(** The definition of [operator!]. *)
Definition cpp_operator_fn : NodeRef := descend (mkRef cpp_operator_root []) [0].

(** ** Choosing the extractor for a file (extractors/__init__.py) *)

(** [s.endswith(suffix)]: [s], or what is left of it after dropping
    characters from its front, is [suffix]. *)
Fixpoint endswith (suffix s : string) : bool :=
  String.eqb s suffix ||
  match s with
  | EmptyString => false
  | String _ s' => endswith suffix s'
  end.

(** [EXTRACTORS], in the order the dictionary lists its languages. *)
Definition EXTRACTORS : list (Language * list string) :=
  [(python, [".py"; ".pyi"]);
   (c, [".c"; ".h"]);
   (cpp, [".cpp"; ".hpp"; ".cc"; ".cxx"; ".hxx"; ".hh"])].

(** The two nested loops of [get_extractor_for_file] over a table. *)
Fixpoint extractor_in (table : list (Language * list string)) (path : string)
  : option (BaseExtractor * Language) :=
  match table with
  | [] => None
  | (lang, extensions) :: rest =>
      if existsb (fun ext => endswith ext path) extensions
      then Some (extractor lang, lang)
      else extractor_in rest path
  end.

(** [get_extractor_for_file(path)] *)
Definition get_extractor_for_file (path : string) : option (BaseExtractor * Language) :=
  extractor_in EXTRACTORS path.

Definition Language_eqb (a b : Language) : bool :=
  match a, b with
  | python, python | c, c | cpp, cpp => true
  | _, _ => false
  end.

(** The extensions [EXTRACTORS] lists for a language. *)
Definition extensions (lang : Language) : list string :=
  flat_map (fun entry => if Language_eqb (fst entry) lang then snd entry else []) EXTRACTORS.

(** ** Further concrete syntax trees *)

(** The one-character string holding a double quote. *)
Definition dq : string := PyStr.of_char PyStr.dquote.

Definition c_include_source : string :=
  "#include <stdio.h>" ++ nl ++ "#include " ++ dq ++ "my.h" ++ dq ++ nl.

Definition c_include_root : Node :=
  mkNode "translation_unit" None 0 35 0 2
    [
     mkNode "preproc_include" None 0 19 0 1
       [leaf "#include" None 0 8 0; leaf "system_lib_string" (Some "path") 9 18 0];
     mkNode "preproc_include" None 19 35 1 2
       [
        leaf "#include" None 19 27 1;
        mkNode "string_literal" (Some "path") 28 34 1 1
          [leaf dq None 28 29 1; leaf "string_content" None 29 33 1; leaf dq None 33 34 1] ] ].

Definition py_doc_source : string :=
  "def f():" ++ nl ++ "    # note" ++ nl ++ "    '''  Doc.  '''" ++ nl ++ "    pass" ++ nl.

Definition py_doc_root : Node :=
  mkNode "module" None 0 48 0 4
    [
     mkNode "function_definition" None 0 47 0 3
       [
        leaf "def" None 0 3 0;
        leaf "identifier" (Some "name") 4 5 0;
        mkNode "parameters" (Some "parameters") 5 7 0 0
          [leaf "(" None 5 6 0; leaf ")" None 6 7 0];
        leaf ":" None 7 8 0;
        mkNode "block" (Some "body") 13 47 1 3
          [
           leaf "comment" None 13 19 1;
           mkNode "expression_statement" None 24 38 2 2
             [
              mkNode "string" None 24 38 2 2
                [
                 leaf "string_start" None 24 27 2;
                 leaf "string_content" None 27 35 2;
                 leaf "string_end" None 35 38 2 ] ];
           mkNode "pass_statement" None 43 47 3 3
             [leaf "pass" None 43 47 3] ] ] ].

Definition py_nested_source : string :=
  "def outer():" ++ nl ++ "    def inner():" ++ nl ++ "        g()" ++ nl ++ "    h()"
  ++ nl ++ "k()" ++ nl.

Definition py_nested_root : Node :=
  mkNode "module" None 0 54 0 5
    [
     mkNode "function_definition" None 0 49 0 3
       [
        leaf "def" None 0 3 0;
        leaf "identifier" (Some "name") 4 9 0;
        mkNode "parameters" (Some "parameters") 9 11 0 0
          [leaf "(" None 9 10 0; leaf ")" None 10 11 0];
        leaf ":" None 11 12 0;
        mkNode "block" (Some "body") 17 49 1 3
          [
           mkNode "function_definition" None 17 41 1 2
             [
              leaf "def" None 17 20 1;
              leaf "identifier" (Some "name") 21 26 1;
              mkNode "parameters" (Some "parameters") 26 28 1 1
                [leaf "(" None 26 27 1; leaf ")" None 27 28 1];
              leaf ":" None 28 29 1;
              mkNode "block" (Some "body") 38 41 2 2
                [
                 mkNode "expression_statement" None 38 41 2 2
                   [
                    mkNode "call" None 38 41 2 2
                      [
                       leaf "identifier" (Some "function") 38 39 2;
                       mkNode "argument_list" (Some "arguments") 39 41 2 2
                         [leaf "(" None 39 40 2; leaf ")" None 40 41 2] ] ] ] ];
           mkNode "expression_statement" None 46 49 3 3
             [
              mkNode "call" None 46 49 3 3
                [
                 leaf "identifier" (Some "function") 46 47 3;
                 mkNode "argument_list" (Some "arguments") 47 49 3 3
                   [leaf "(" None 47 48 3; leaf ")" None 48 49 3] ] ] ] ];
     mkNode "expression_statement" None 50 53 4 4
       [
        mkNode "call" None 50 53 4 4
          [
           leaf "identifier" (Some "function") 50 51 4;
           mkNode "argument_list" (Some "arguments") 51 53 4 4
             [leaf "(" None 51 52 4; leaf ")" None 52 53 4] ] ] ].

(** The body block of [f] in [py_doc]. *)
Definition py_doc_body : Node := nr_node (descend (mkRef py_doc_root []) [0; 4]).

(** ** Notions the further properties are stated with *)

(** A node of the walk of a child subtree, seen from the walk of the parent
    [top]: the same node, with [top] added at the far end of its parents. *)
Definition under (top : Node) (r : NodeRef) : NodeRef :=
  mkRef (nr_node r) (nr_anc r ++ [top])%list.

(** No two ranges of a table share a byte position. *)
Definition disjoint_ranges (ranges : ranges_t) : Prop :=
  ForallOrdPairs
    (fun r1 r2 => snd (fst r1) < fst (fst r2) \/ snd (fst r2) < fst (fst r1)) ranges.

(** A string neither begins nor ends with a character satisfying [f]. *)
Definition clean_edges (f : ascii -> bool) (s : string) : Prop :=
  PyStr.lstrip_by f s = s /\ PyStr.rstrip_by f s = s.

(** The nodes of a subtree: the node itself and its descendants. *)
Definition subtree (n : Node) : list Node := map nr_node (preorder [] n).

(** Every number of a list is at most the next one. *)
Fixpoint nondecreasing (l : list nat) : bool :=
  match l with
  | a :: (b :: _) as rest => (a <=? b)%nat && nondecreasing rest
  | _ => true
  end.

(** The tree-sitter guarantee on order: along the pre-order walk, start
    rows never go back. *)
Definition rows_in_walk_order (root : Node) : Prop :=
  nondecreasing (map (fun r => start_row (nr_node r)) (preorder [] root)) = true.

(** No node of the tree is a Python class definition. *)
Definition no_class_definition (root : Node) : Prop :=
  forallb (fun n => negb (is_type n "class_definition")) (subtree root) = true.

(** A node stands directly at file level, in the way each extractor tests
    it before it reports a global variable: an assignment in an expression
    statement of the module or an annotated assignment of the module
    (Python), a declaration whose parent is the translation unit (C, C++). *)
Definition at_file_level (lang : Language) (node : NodeRef) : bool :=
  match lang with
  | python =>
      match nr_anc node with
      | p :: up =>
          (is_type (nr_node node) "assignment" && is_type p "expression_statement"
           && match up with g :: _ => is_type g "module" | [] => false end)
          || (is_type (nr_node node) "annotated_assignment" && is_type p "module")
      | [] => false
      end
  | c | cpp =>
      is_type (nr_node node) "declaration"
      && match nr_anc node with p :: _ => is_type p "translation_unit" | [] => false end
  end.

(** The node type, or types, each extractor takes for a function and for a
    class definition. *)
Definition is_function_node (node : NodeRef) : bool :=
  is_type (nr_node node) "function_definition".

Definition is_class_node (lang : Language) (node : NodeRef) : bool :=
  match lang with
  | python => is_type (nr_node node) "class_definition"
  | c => is_type (nr_node node) "struct_specifier"
  | cpp => type_in (nr_node node) ["class_specifier"; "struct_specifier"]
  end.

(** ** What a call node contributes, stated apart from the code *)

(** The callee name taken from a call node: the text of the [function]
    field when it is an identifier (all three extractors); the text of the
    [attribute] field of an attribute (Python); the text of a
    qualified_identifier, or of the [field] field of a field_expression
    (C++). The C++ extractor takes no empty name. *)
Inductive takes_callee (source : string) : Language -> Node -> string -> Prop :=
| callee_identifier (lang : Language) (n f : Node) :
    child_by_field_name n "function" = Some f ->
    is_type f "identifier" = true ->
    (lang = cpp -> PyStr.truthy (get_node_text f source) = true) ->
    takes_callee source lang n (get_node_text f source)
| callee_attribute (n f a : Node) :
    child_by_field_name n "function" = Some f ->
    is_type f "attribute" = true ->
    child_by_field_name f "attribute" = Some a ->
    takes_callee source python n (get_node_text a source)
| callee_qualified (n f : Node) :
    child_by_field_name n "function" = Some f ->
    is_type f "qualified_identifier" = true ->
    PyStr.truthy (get_node_text f source) = true ->
    takes_callee source cpp n (get_node_text f source)
| callee_field (n f a : Node) :
    child_by_field_name n "function" = Some f ->
    is_type f "field_expression" = true ->
    child_by_field_name f "field" = Some a ->
    PyStr.truthy (get_node_text a source) = true ->
    takes_callee source cpp n (get_node_text a source).



(** ** The node a variable declarator is named by *)

(** A declarator wrapper that is not itself a name. *)
Definition is_var_wrapper (ids : list string) (node : Node) : bool :=
  negb (type_in node ids) &&
  type_in node ["init_declarator"; "pointer_declarator"; "array_declarator"].

(** [var_name_node ids node n]: [n] names the declarator [node], where
    [ids] are the node types that count as names. A name names itself; a
    wrapper with a [declarator] field is named by what names that field's
    child; a wrapper without one is named by the first of its children that
    is a name, whatever that child's role in the wrapper. *)
Inductive var_name_node (ids : list string) : Node -> Node -> Prop :=
| name_here (node : Node) :
    type_in node ids = true ->
    var_name_node ids node node
| name_below (node decl n : Node) :
    is_var_wrapper ids node = true ->
    child_by_field_name node "declarator" = Some decl ->
    var_name_node ids decl n ->
    var_name_node ids node n
| name_first_child (node child : Node) :
    is_var_wrapper ids node = true ->
    child_by_field_name node "declarator" = None ->
    find (fun child => type_in child ids) (children node) = Some child ->
    var_name_node ids node child.

(** * Properties *)

(** ** The tree walker *)

Lemma Node_children_ind (P : Node -> Prop) :
  (forall n, Forall P (children n) -> P n) -> forall n, P n.
Proof.
  intros step. fix IH 1. intros n. apply step.
  destruct n as [ty fld sb eb sr er cs]. simpl.
  induction cs as [|c cs IHcs]; constructor; [apply IH | exact IHcs].
Qed.

Lemma preorder_eq (anc : list Node) (n : Node) :
  preorder anc n = mkRef n anc :: flat_map (preorder (n :: anc)) (children n).
Proof.
  destruct n as [ty fld sb eb sr er cs]. reflexivity.
Qed.

Lemma node_count_eq (n : Node) :
  node_count n = S (list_sum (map node_count (children n))).
Proof.
  destruct n as [ty fld sb eb sr er cs]. simpl. f_equal.
  induction cs as [|c cs IHcs]; simpl; [reflexivity | now rewrite IHcs].
Qed.

Lemma option_map_app_nil (o : option (list NodeRef)) : option_map (app []) o = o.
Proof. destruct o; reflexivity. Qed.

Lemma walk_run_up (fuel : nat) (c : TreeCursor) :
  walk_run (S fuel) (c, true) = walk_after fuel c.
Proof.
  unfold walk_after. simpl. destruct (walk_advance c); [apply option_map_app_nil | reflexivity].
Qed.

Lemma walk_run_leaf (fuel : nat) (c : TreeCursor) (k : list NodeRef) :
  children (cur_node c) = [] ->
  walk_after fuel c = Some k ->
  walk_run (S fuel) (c, false) = Some (cursor_ref c :: k).
Proof.
  intros Hleaf Hk. unfold walk_after in Hk. simpl.
  unfold goto_first_child. rewrite Hleaf.
  destruct (walk_advance c).
  - rewrite Hk. reflexivity.
  - injection Hk as <-. reflexivity.
Qed.

Lemma walk_run_descend (fuel : nat) (c : TreeCursor) (k : Node) (ks : list Node) :
  children (cur_node c) = k :: ks ->
  walk_run (S fuel) (c, false) =
  option_map (cons (cursor_ref c))
    (walk_run fuel (mkCursor k (mkFrame (cur_node c) ks :: cur_path c), false)).
Proof.
  intros Hkids. simpl. unfold goto_first_child. rewrite Hkids. reflexivity.
Qed.

Lemma walk_siblings (cs : list Node) :
  Forall walk_subtree_ok cs ->
  forall c1 n path fuel k,
    walk_subtree_ok c1 ->
    walk_after fuel (mkCursor n path) = Some k ->
    walk_run (walk_cost c1 + (list_sum (map walk_cost cs) + (1 + fuel)))
      (mkCursor c1 (mkFrame n cs :: path), false) =
    Some (preorder (n :: map fr_parent path) c1
          ++ flat_map (preorder (n :: map fr_parent path)) cs ++ k)%list.
Proof.
  induction 1 as [|c2 cs Hc2 Hcs IH]; intros c1 n path fuel k Hc1 Hk.
  - simpl. apply (Hc1 (mkFrame n [] :: path)).
    unfold walk_after at 1. simpl. 
    change (walk_run (S fuel) (mkCursor n path, true) = Some k).
    rewrite walk_run_up. exact Hk.
  - simpl. apply (Hc1 (mkFrame n (c2 :: cs) :: path)).
    unfold walk_after at 1. simpl.
    rewrite <- Nat.add_assoc, <- app_assoc.
    apply IH; assumption.
Qed.

Lemma walk_subtree (n : Node) : walk_subtree_ok n.
Proof.
  induction n as [n IHn] using Node_children_ind.
  intros path fuel k Hk. rewrite preorder_eq.
  destruct (children n) as [|c1 cs] eqn:Hkids.
  - assert (Hcost : walk_cost n = 1).
    { destruct n; simpl in *. now rewrite Hkids. }
    rewrite Hcost. simpl Nat.add.
    apply (walk_run_leaf fuel (mkCursor n path) k Hkids Hk).
  - assert (Hcost : walk_cost n = 2 + list_sum (map walk_cost (c1 :: cs))).
    { destruct n; simpl in *. now rewrite Hkids. }
    rewrite Hcost. inversion IHn as [|? ? Hc1 Hcs]; subst.
    change (2 + list_sum (map walk_cost (c1 :: cs)) + fuel)
      with (S (S (walk_cost c1 + list_sum (map walk_cost cs)) + fuel)).
    rewrite (walk_run_descend _ (mkCursor n path) c1 cs Hkids).
    simpl cur_node. simpl cur_path.
    replace (S (walk_cost c1 + list_sum (map walk_cost cs)) + fuel)
      with (walk_cost c1 + (list_sum (map walk_cost cs) + (1 + fuel))) by lia.
    rewrite (walk_siblings cs Hcs c1 n path fuel k Hc1 Hk).
    simpl. now rewrite <- app_assoc.
Qed.

Lemma walk_run_more (fuel : nat) :
  forall st l extra, walk_run fuel st = Some l -> walk_run (fuel + extra) st = Some l.
Proof.
  induction fuel as [|fuel IH]; intros st l extra H; [discriminate|].
  simpl in *. destruct (walk_step st) as [out [st'|]]; [|exact H].
  destruct (walk_run fuel st') as [l'|] eqn:Hrun; [|discriminate].
  rewrite (IH st' l' extra Hrun). exact H.
Qed.

Lemma walk_cost_bound (n : Node) : walk_cost n + 1 <= 2 * node_count n.
Proof.
  induction n as [n IHn] using Node_children_ind.
  rewrite node_count_eq.
  assert (Hsum : list_sum (map walk_cost (children n)) + length (children n)
                 <= 2 * list_sum (map node_count (children n))).
  { induction IHn as [|c cs Hc _ IHcs]; simpl in *; lia. }
  destruct n as [ty fld sb eb sr er cs]; simpl in *.
  destruct cs as [|c cs]; simpl in *; lia.
Qed.

(** With [walk_fuel] iterations or more, the loop of [walk_tree] reaches its
    [break] and has yielded exactly the pre-order listing of the tree. *)
Lemma walk_run_enough (root : Node) (fuel : nat) :
  walk_fuel root <= fuel ->
  walk_run fuel (walk root, false) = Some (preorder [] root).
Proof.
  intros Hfuel.
  pose proof (walk_cost_bound root) as Hb. unfold walk_fuel in Hfuel.
  replace fuel with ((walk_cost root + 0) + (fuel - walk_cost root)) by lia.
  apply walk_run_more.
  pose proof (walk_subtree root [] 0 [] eq_refl) as Hwalk.
  simpl map in Hwalk. rewrite app_nil_r in Hwalk. exact Hwalk.
Qed.

Lemma walk_tree_preorder (root : Node) : walk_tree root = preorder [] root.
Proof.
  unfold walk_tree. now rewrite walk_run_enough.
Qed.

(** ** The passes over the walk *)

Lemma on_first_find {A : Type} (p : Node -> bool) (k : Node -> A) (l : list Node) :
  on_first p k l = option_map k (find p l).
Proof.
  induction l as [|x l IH]; simpl; [reflexivity|].
  destruct (p x); [reflexivity | exact IH].
Qed.

Lemma extract_functions_walk (lang : Language) (root : Node) (source : string) :
  extract_functions (extractor lang) root source =
  flat_map (fun node => functions_at (bodies lang) node source) (preorder [] root).
Proof.
  destruct lang; simpl;
    [unfold PythonExtractor.extract_functions | unfold CExtractor.extract_functions
     | unfold CppExtractor.extract_functions];
    now rewrite walk_tree_preorder.
Qed.

Lemma extract_classes_walk (lang : Language) (root : Node) (source : string) :
  extract_classes (extractor lang) root source =
  flat_map (fun node => classes_at (bodies lang) node source) (preorder [] root).
Proof.
  destruct lang; simpl;
    [unfold PythonExtractor.extract_classes | unfold CExtractor.extract_classes
     | unfold CppExtractor.extract_classes];
    now rewrite walk_tree_preorder.
Qed.

Lemma extract_imports_walk (lang : Language) (root : Node) (source : string) :
  extract_imports (extractor lang) root source =
  flat_map (fun node => imports_at (bodies lang) node source) (preorder [] root).
Proof.
  destruct lang; simpl;
    [unfold PythonExtractor.extract_imports | unfold CExtractor.extract_imports
     | unfold CppExtractor.extract_imports];
    now rewrite walk_tree_preorder.
Qed.

Lemma extract_variables_walk (lang : Language) (root : Node) (source : string) :
  extract_variables (extractor lang) root source =
  flat_map (fun node => variables_at (bodies lang) node source) (preorder [] root).
Proof.
  destruct lang; simpl;
    [unfold PythonExtractor.extract_variables | unfold CExtractor.extract_variables
     | unfold CppExtractor.extract_variables];
    now rewrite walk_tree_preorder.
Qed.

Lemma extract_calls_walk (lang : Language) (root : Node) (source : string) :
  extract_calls (extractor lang) root source =
  flat_map
    (fun node => calls_at (bodies lang) (func_ranges lang (preorder [] root) source) node source)
    (preorder [] root).
Proof.
  destruct lang; simpl;
    [unfold PythonExtractor.extract_calls | unfold CExtractor.extract_calls
     | unfold CppExtractor.extract_calls];
    now rewrite walk_tree_preorder.
Qed.












(** ** Call attribution *)

Lemma find_caller_first (ranges : ranges_t) (pos : nat) :
  first_covering ranges pos (find_caller ranges pos).
Proof.
  induction ranges as [|[[start end_] name] rest IH]; simpl.
  - constructor.
  - destruct (start <=? pos)%nat eqn:Hs; simpl.
    + destruct (pos <=? end_)%nat eqn:He; simpl.
      * exists [], start, end_, rest. repeat split.
        -- now apply Nat.leb_le.
        -- now apply Nat.leb_le.
        -- constructor.
      * assert (Hout : ~ covers (start, end_, name) pos).
        { unfold covers; simpl. apply Nat.leb_gt in He. lia. }
        destruct (find_caller rest pos) as [caller|]; simpl in *.
        -- destruct IH as (before & s & e & after & Heq & Hin & Hbefore).
           exists ((start, end_, name) :: before), s, e, after.
           repeat split; try lia; [now rewrite Heq | now constructor].
        -- now constructor.
    + assert (Hout : ~ covers (start, end_, name) pos).
      { unfold covers; simpl. apply Nat.leb_gt in Hs. lia. }
      destruct (find_caller rest pos) as [caller|]; simpl in *.
      * destruct IH as (before & s & e & after & Heq & Hin & Hbefore).
        exists ((start, end_, name) :: before), s, e, after.
        repeat split; try lia; [now rewrite Heq | now constructor].
      * now constructor.
Qed.

Lemma is_type_true (n : Node) (t : string) : is_type n t = true -> ntype n = t.
Proof. unfold is_type. apply String.eqb_eq. Qed.

Lemma calls_at_shape (lang : Language) (ranges : ranges_t) (node : NodeRef) (source : string)
      (ci : CallInfo.t) :
  In ci (calls_at (bodies lang) ranges node source) ->
  ntype (nr_node node) = call_type lang /\
  CallInfo.line ci = start_line (nr_node node) /\
  CallInfo.caller_function ci = find_caller ranges (start_byte (nr_node node)).
Proof.
  destruct lang; simpl;
    [unfold PythonExtractor.extract_calls_at | unfold CExtractor.extract_calls_at
     | unfold CppExtractor.extract_calls_at];
    (destruct (is_type (nr_node node) _) eqn:Hty; [apply is_type_true in Hty|intros []]).
  - destruct (PythonExtractor.callee_of _ _); [|intros []].
    intros [<-|[]]. now rewrite Hty.
  - destruct (CExtractor.callee_of _ _); [|intros []].
    intros [<-|[]]. now rewrite Hty.
  - destruct (CppExtractor.callee_of _ _) as [callee|]; [|intros []].
    destruct (PyStr.truthy callee); [|intros []].
    intros [<-|[]]. now rewrite Hty.
Qed.

Lemma is_type_excludes (n : Node) (t t' : string) :
  is_type n t = true -> String.eqb t t' = false -> is_type n t' = false.
Proof. intros Ht Hne. apply is_type_true in Ht. unfold is_type. now rewrite Ht. Qed.



Lemma python_callee_of_takes (n : Node) (source callee : string) :
  PythonExtractor.callee_of n source = Some callee <-> takes_callee source python n callee.
Proof.
  unfold PythonExtractor.callee_of. split.
  - destruct (child_by_field_name n "function") as [f|] eqn:Hf; [|discriminate].
    destruct (is_type f "identifier") eqn:Hid.
    + intros H. injection H as <-. now apply (callee_identifier source python n f).
    + destruct (is_type f "attribute") eqn:Hattr; [|discriminate].
      destruct (child_by_field_name f "attribute") as [a|] eqn:Ha; [|discriminate].
      intros H. injection H as <-. now apply (callee_attribute source n f a).
  - intros H. inversion H as [lang n' f Hf Hid _|n' f a Hf Hattr Ha| |]; subst.
    + now rewrite Hf, Hid.
    + rewrite Hf, (is_type_excludes f "attribute" "identifier" Hattr eq_refl), Hattr, Ha.
      reflexivity.
Qed.

Lemma c_callee_of_takes (n : Node) (source callee : string) :
  CExtractor.callee_of n source = Some callee <-> takes_callee source c n callee.
Proof.
  unfold CExtractor.callee_of. split.
  - destruct (child_by_field_name n "function") as [f|] eqn:Hf; [|discriminate].
    destruct (is_type f "identifier") eqn:Hid; [|discriminate].
    intros H. injection H as <-. now apply (callee_identifier source c n f).
  - intros H. inversion H as [lang n' f Hf Hid _| | |]; subst. now rewrite Hf, Hid.
Qed.

Lemma cpp_callee_of_takes (n : Node) (source callee : string) :
  (exists taken, CppExtractor.callee_of n source = Some taken /\
                 PyStr.truthy taken = true /\ taken = callee)
  <-> takes_callee source cpp n callee.
Proof.
  unfold CppExtractor.callee_of. split.
  - intros (taken & Htaken & Hne & <-).
    destruct (child_by_field_name n "function") as [f|] eqn:Hf; [|discriminate].
    destruct (is_type f "identifier") eqn:Hid.
    + injection Htaken as <-. now apply (callee_identifier source cpp n f).
    + destruct (is_type f "qualified_identifier") eqn:Hq.
      * injection Htaken as <-. now apply (callee_qualified source n f).
      * destruct (is_type f "field_expression") eqn:Hfe; [|discriminate].
        destruct (child_by_field_name f "field") as [a|] eqn:Ha; [|discriminate].
        injection Htaken as <-. now apply (callee_field source n f a).
  - intros H.
    inversion H as [lang n' f Hf Hid Hne| |n' f Hf Hq Hne|n' f a Hf Hfe Ha Hne]; subst.
    + exists (get_node_text f source). rewrite Hf, Hid. now repeat split; auto.
    + exists (get_node_text f source).
      rewrite Hf, (is_type_excludes f "qualified_identifier" "identifier" Hq eq_refl), Hq.
      now repeat split.
    + exists (get_node_text a source).
      rewrite Hf, (is_type_excludes f "field_expression" "identifier" Hfe eq_refl),
        (is_type_excludes f "field_expression" "qualified_identifier" Hfe eq_refl), Hfe, Ha.
      now repeat split.
Qed.

Lemma calls_at_takes (lang : Language) (ranges : ranges_t) (node : NodeRef)
      (source : string) (ci : CallInfo.t) :
  In ci (calls_at (bodies lang) ranges node source) <->
  ntype (nr_node node) = call_type lang /\
  takes_callee source lang (nr_node node) (CallInfo.callee_name ci) /\
  CallInfo.line ci = start_line (nr_node node) /\
  CallInfo.caller_function ci = find_caller ranges (start_byte (nr_node node)).
Proof.
  split.
  - intros Hin. pose proof (calls_at_shape lang ranges node source ci Hin)
      as (Hty & Hline & Hcaller).
    repeat split; try assumption.
    destruct lang; simpl in Hin;
      [unfold PythonExtractor.extract_calls_at in Hin
      | unfold CExtractor.extract_calls_at in Hin
      | unfold CppExtractor.extract_calls_at in Hin];
      (destruct (is_type (nr_node node) _); [|now destruct Hin]).
    + destruct (PythonExtractor.callee_of (nr_node node) source) as [callee|] eqn:Hc;
        [|now destruct Hin].
      destruct Hin as [<-|[]]. now apply python_callee_of_takes.
    + destruct (CExtractor.callee_of (nr_node node) source) as [callee|] eqn:Hc;
        [|now destruct Hin].
      destruct Hin as [<-|[]]. now apply c_callee_of_takes.
    + destruct (CppExtractor.callee_of (nr_node node) source) as [callee|] eqn:Hc;
        [|now destruct Hin].
      destruct (PyStr.truthy callee) eqn:Hne; [|now destruct Hin].
      destruct Hin as [<-|[]]. apply cpp_callee_of_takes. now exists callee.
  - intros (Hty & Htakes & Hline & Hcaller).
    destruct ci as [callee line caller]. simpl in *. subst line caller.
    assert (Hcall : is_type (nr_node node) (call_type lang) = true).
    { unfold is_type. rewrite Hty. apply String.eqb_refl. }
    destruct lang; simpl in *;
      [unfold PythonExtractor.extract_calls_at
      | unfold CExtractor.extract_calls_at
      | unfold CppExtractor.extract_calls_at];
      rewrite Hcall.
    + apply python_callee_of_takes in Htakes. rewrite Htakes. now left.
    + apply c_callee_of_takes in Htakes. rewrite Htakes. now left.
    + apply cpp_callee_of_takes in Htakes. destruct Htakes as (taken & -> & Hne & <-).
      rewrite Hne. now left.
Qed.



(** ** Scope and class ownership of variables *)

Lemma truthy_opt_some (o : option string) :
  truthy_opt o = true -> exists s, o = Some s.
Proof. destruct o as [s|]; [now exists s | discriminate]. Qed.

Lemma python_assignment_scope_consistent (node : NodeRef) (source : string) (v : VariableInfo.t) :
  In v (PythonExtractor._extract_assignment node source) -> scope_consistent v.
Proof.
  unfold PythonExtractor._extract_assignment.
  destruct (nr_anc node) as [|parent [|grandparent up]]; try (intros []).
  destruct (is_type parent "expression_statement"); [|intros []].
  unfold PythonExtractor.assignment_scope.
  destruct (is_type grandparent "module").
  - destruct (child_by_field_name (nr_node node) "left") as [l|]; [|intros []].
    destruct (is_type l "identifier"); [|intros []].
    intros [<-|[]]. left. now split.
  - destruct (is_type grandparent "block"); [|intros []].
    destruct (truthy_opt (PythonExtractor._get_parent_class node source)) eqn:Hcls; [|intros []].
    destruct (child_by_field_name (nr_node node) "left") as [l|]; [|intros []].
    destruct (is_type l "identifier"); [|intros []].
    intros [<-|[]]. right. split; [reflexivity|]. now apply truthy_opt_some.
Qed.

Lemma python_annotated_scope_consistent (node : NodeRef) (source : string) (v : VariableInfo.t) :
  In v (PythonExtractor._extract_annotated_assignment node source) -> scope_consistent v.
Proof.
  unfold PythonExtractor._extract_annotated_assignment.
  destruct (nr_anc node) as [|parent up]; [intros []|].
  destruct (type_in parent ["module"; "block"]); [|intros []].
  destruct (is_type parent "module").
  - destruct (child_by_field_name (nr_node node) "name") as [nn|]; [|intros []].
    destruct (is_type nn "identifier"); [|intros []].
    intros [<-|[]]. left. now split.
  - destruct (truthy_opt (PythonExtractor._get_parent_class node source)) eqn:Hcls; [|intros []].
    destruct (child_by_field_name (nr_node node) "name") as [nn|]; [|intros []].
    destruct (is_type nn "identifier"); [|intros []].
    intros [<-|[]]. right. split; [reflexivity|]. now apply truthy_opt_some.
Qed.

Lemma c_declaration_global (node : NodeRef) (source : string) (v : VariableInfo.t) :
  In v (CExtractor.extract_variables_at node source) ->
  VariableInfo.scope v = "global" /\ VariableInfo.class_name v = None.
Proof.
  unfold CExtractor.extract_variables_at, CExtractor._extract_declaration.
  destruct (is_type (nr_node node) "declaration"); [|intros []].
  destruct (nr_anc node) as [|parent up]; [intros []|].
  destruct (is_type parent "translation_unit"); [|intros []].
  destruct (child_by_field_name (nr_node node) "declarator") as [d|]; [|intros []].
  destruct (CExtractor._get_var_name d source) as [name|]; [|intros []].
  destruct (PyStr.truthy name); [|intros []].
  intros [<-|[]]. now split.
Qed.

Lemma cpp_variables_scope_consistent (node : NodeRef) (source : string) (v : VariableInfo.t) :
  In v (CppExtractor.extract_variables_at node source) -> scope_consistent v.
Proof.
  unfold CppExtractor.extract_variables_at, CppExtractor._extract_declaration,
    CppExtractor._extract_field.
  destruct (is_type (nr_node node) "declaration").
  - destruct (nr_anc node) as [|parent up]; [intros []|].
    destruct (is_type parent "translation_unit"); [|intros []].
    destruct (child_by_field_name (nr_node node) "declarator") as [d|]; [|intros []].
    destruct (CppExtractor._get_var_name d source) as [name|]; [|intros []].
    destruct (PyStr.truthy name); [|intros []].
    intros [<-|[]]. left. now split.
  - destruct (is_type (nr_node node) "field_declaration"); [|intros []].
    destruct (CppExtractor._get_parent_class node source) as [cn|]; [|intros []].
    destruct (PyStr.truthy cn); [|intros []].
    destruct (child_by_field_name (nr_node node) "declarator") as [d|]; [|intros []].
    destruct (CppExtractor._get_var_name d source) as [name|]; [|intros []].
    destruct (PyStr.truthy name); [|intros []].
    intros [<-|[]]. right. split; [reflexivity | now exists cn].
Qed.

Lemma variables_at_scope_consistent (lang : Language) (node : NodeRef) (source : string)
      (v : VariableInfo.t) :
  In v (variables_at (bodies lang) node source) -> scope_consistent v.
Proof.
  destruct lang; simpl.
  - unfold PythonExtractor.extract_variables_at.
    destruct (is_type (nr_node node) "assignment");
      [apply python_assignment_scope_consistent|].
    destruct (is_type (nr_node node) "annotated_assignment");
      [apply python_annotated_scope_consistent | intros []].
  - intros Hin. left. now apply (c_declaration_global node source).
  - apply cpp_variables_scope_consistent.
Qed.

(** C8. For every VariableInfo emitted by extract_variables of any of the
    three extractors, class_name is set (not None) if and only if scope is
    'class'; a VariableInfo with scope 'global' carries no class_name. *)
Theorem class_name_iff_class_scope
        (lang : Language) (root : Node) (source : string) (v : VariableInfo.t) :
  In v (extract_variables (extractor lang) root source) ->
  (VariableInfo.class_name v <> None <-> VariableInfo.scope v = "class") /\
  (VariableInfo.scope v = "global" -> VariableInfo.class_name v = None).
Proof.
  rewrite extract_variables_walk. intros Hin.
  apply in_flat_map in Hin. destruct Hin as (node & _ & Hv).
  apply variables_at_scope_consistent in Hv.
  destruct Hv as [[Hscope Hcls]|[Hscope [cn Hcls]]]; rewrite Hscope, Hcls.
  - split; [split; [congruence | discriminate] | reflexivity].
  - split; [split; [reflexivity | discriminate] | discriminate].
Qed.

Lemma class_name_iff_class_scope_witness :
  (Some "W" <> None <-> "class" = "class") /\ ("class" = "global" -> Some "W" = None).
Proof.
  apply (class_name_iff_class_scope cpp cpp_unit_root cpp_unit_source
           (VariableInfo.mk "n" 1 "class" (Some "W") (Some "int"))).
  vm_compute. left. reflexivity.
Defined.

(** ** Line ranges *)

Lemma functions_at_lines (lang : Language) (node : NodeRef) (source : string)
      (info : FunctionInfo.t) :
  In info (functions_at (bodies lang) node source) ->
  FunctionInfo.line_start info = start_line (nr_node node) /\
  FunctionInfo.line_end info = end_line (nr_node node).
Proof.
  destruct lang; simpl.
  - unfold PythonExtractor.extract_functions_at.
    destruct (is_type (nr_node node) "function_definition"); [|intros []].
    intros [<-|[]]. now split.
  - unfold CExtractor.extract_functions_at, CExtractor._extract_function.
    destruct (is_type (nr_node node) "function_definition"); [|intros []].
    destruct (child_by_field_name (nr_node node) "declarator") as [d|]; [|intros []].
    destruct (CExtractor._extract_declarator_info d source) as [[name|] params]; [|intros []].
    destruct (PyStr.truthy name); simpl; [|intros []].
    intros [<-|[]]. now split.
  - unfold CppExtractor.extract_functions_at, CppExtractor._extract_function.
    destruct (is_type (nr_node node) "function_definition"); [|intros []].
    destruct (child_by_field_name (nr_node node) "declarator") as [d|]; [|intros []].
    destruct (CppExtractor._extract_declarator_info d source) as [[name|] params]; [|intros []].
    destruct (PyStr.truthy name); simpl; [|intros []].
    destruct (CppExtractor.split_qualified name) as [cls meth].
    intros [<-|[]]. now split.
Qed.

Lemma classes_at_lines (lang : Language) (node : NodeRef) (source : string)
      (info : ClassInfo.t) :
  In info (classes_at (bodies lang) node source) ->
  ClassInfo.line_start info = start_line (nr_node node) /\
  (ClassInfo.line_end info = end_line (nr_node node) \/
   ClassInfo.line_end info = start_line (nr_node node)).
Proof.
  destruct lang; simpl.
  - unfold PythonExtractor.extract_classes_at.
    destruct (is_type (nr_node node) "class_definition"); [|intros []].
    intros [<-|[]]. split; [reflexivity | now left].
  - unfold CExtractor.extract_classes_at, CExtractor._extract_struct.
    destruct (is_type (nr_node node) "struct_specifier"); [|intros []].
    destruct (child_by_field_name (nr_node node) "name"); [|intros []].
    intros [<-|[]]. simpl. split; [reflexivity|].
    destruct (child_by_field_name (nr_node node) "body"); [now left | now right].
  - unfold CppExtractor.extract_classes_at, CppExtractor._extract_class.
    destruct (type_in (nr_node node) _); [|intros []].
    destruct (child_by_field_name (nr_node node) "name"); [|intros []].
    intros [<-|[]]. simpl. split; [reflexivity|].
    destruct (child_by_field_name (nr_node node) "body"); [now left | now right].
Qed.

Lemma struct_without_body_one_line (node : NodeRef) (source : string) (info : ClassInfo.t) :
  child_by_field_name (nr_node node) "body" = None ->
  CExtractor._extract_struct node source = Some info \/
  CppExtractor._extract_class node source = Some info ->
  ClassInfo.line_end info = ClassInfo.line_start info.
Proof.
  unfold CExtractor._extract_struct, CppExtractor._extract_class.
  intros ->. destruct (child_by_field_name (nr_node node) "name").
  - intros [H|H]; injection H as <-; reflexivity.
  - intros [H|H]; discriminate.
Qed.

Lemma rows_ordered_check (root : Node) :
  forallb (fun r => start_row (nr_node r) <=? end_row (nr_node r))%nat (preorder [] root) = true ->
  rows_ordered root.
Proof.
  intros Hall. unfold rows_ordered. apply Forall_forall. intros r Hr.
  rewrite forallb_forall in Hall. apply Nat.leb_le, Hall, Hr.
Qed.

(** C10. On a tree whose nodes do not end on a row before their start row,
    every FunctionInfo and every ClassInfo emitted by any of the three
    extractors has line_start <= line_end; a named struct or class without a
    body field gets line_end equal to line_start. *)
Theorem line_start_le_line_end (lang : Language) (root : Node) (source : string) :
  rows_ordered root ->
  (forall info, In info (extract_functions (extractor lang) root source) ->
                FunctionInfo.line_start info <= FunctionInfo.line_end info) /\
  (forall info, In info (extract_classes (extractor lang) root source) ->
                ClassInfo.line_start info <= ClassInfo.line_end info) /\
  (forall node info,
      child_by_field_name (nr_node node) "body" = None ->
      CExtractor._extract_struct node source = Some info \/
      CppExtractor._extract_class node source = Some info ->
      ClassInfo.line_end info = ClassInfo.line_start info).
Proof.
  intros Hrows. unfold rows_ordered in Hrows. rewrite Forall_forall in Hrows.
  split; [|split].
  - intros info. rewrite extract_functions_walk. intros Hin.
    apply in_flat_map in Hin. destruct Hin as (node & Hnode & Hinfo).
    apply functions_at_lines in Hinfo. destruct Hinfo as [-> ->].
    specialize (Hrows node Hnode). unfold start_line, end_line. lia.
  - intros info. rewrite extract_classes_walk. intros Hin.
    apply in_flat_map in Hin. destruct Hin as (node & Hnode & Hinfo).
    apply classes_at_lines in Hinfo. destruct Hinfo as [-> [-> | ->]].
    + specialize (Hrows node Hnode). unfold start_line, end_line. lia.
    + lia.
  - intros node info. apply struct_without_body_one_line.
Qed.

Lemma line_start_le_line_end_witness :
  rows_ordered c_unit_root /\
  (forall info, In info (extract_classes (extractor c) c_unit_root c_unit_source) ->
                ClassInfo.line_start info <= ClassInfo.line_end info).
Proof.
  assert (Hrows : rows_ordered c_unit_root).
  { apply rows_ordered_check. vm_compute. reflexivity. }
  split; [exact Hrows|].
  exact (proj1 (proj2 (line_start_le_line_end c c_unit_root c_unit_source Hrows))).
Defined.

(** ** Repeated extraction *)



(** ** Declarator resolution *)

Lemma c_declarator_info_eq (node : Node) (source : string) :
  CExtractor._extract_declarator_info node source =
  if is_type node "function_declarator" then
    match child_by_field_name node "declarator" with
    | Some decl =>
        (if is_type decl "identifier" then Some (get_node_text decl source)
         else fst (CExtractor._extract_declarator_info decl source),
         own_parameters node source)
    | None => (None, "()")
    end
  else if is_type node "pointer_declarator" then
    match child_by_field_name node "declarator" with
    | Some decl => CExtractor._extract_declarator_info decl source
    | None => (None, "()")
    end
  else if is_type node "identifier" then (Some (get_node_text node source), "()")
  else if is_type node "parenthesized_declarator" then
    match find (fun child => negb (type_in child ["("; ")"])) (children node) with
    | Some child => CExtractor._extract_declarator_info child source
    | None => (None, "()")
    end
  else (None, "()").
Proof.
  destruct node as [ty fld sb eb sr er cs].
  cbn [CExtractor._extract_declarator_info]. rewrite !on_first_find.
  unfold child_by_field_name, own_parameters, child_by_field_name.
  destruct (is_type _ "function_declarator").
  - destruct (find (has_field "declarator") _) as [decl|]; [|reflexivity].
    simpl option_map. cbv iota. destruct (is_type decl "identifier"); reflexivity.
  - destruct (is_type _ "pointer_declarator").
    + destruct (find (has_field "declarator") _); reflexivity.
    + destruct (is_type _ "identifier"); [reflexivity|].
      destruct (is_type _ "parenthesized_declarator"); [|reflexivity].
      destruct (find _ _); reflexivity.
Qed.

Lemma cpp_declarator_info_eq (node : Node) (source : string) :
  CppExtractor._extract_declarator_info node source =
  if is_type node "function_declarator" then
    match child_by_field_name node "declarator" with
    | Some decl =>
        (if type_in decl ["identifier"; "qualified_identifier"; "field_identifier"]
         then Some (get_node_text decl source)
         else fst (CppExtractor._extract_declarator_info decl source),
         own_parameters node source)
    | None => (None, "()")
    end
  else if is_type node "pointer_declarator" then
    match child_by_field_name node "declarator" with
    | Some decl => CppExtractor._extract_declarator_info decl source
    | None => (None, "()")
    end
  else if is_type node "reference_declarator" then
    match find (fun child => negb (type_in child ["&"; "&&"])) (children node) with
    | Some child => CppExtractor._extract_declarator_info child source
    | None => (None, "()")
    end
  else if type_in node ["identifier"; "qualified_identifier"; "field_identifier"]
  then (Some (get_node_text node source), "()")
  else if is_type node "parenthesized_declarator" then
    match find (fun child => negb (type_in child ["("; ")"])) (children node) with
    | Some child => CppExtractor._extract_declarator_info child source
    | None => (None, "()")
    end
  else (None, "()").
Proof.
  destruct node as [ty fld sb eb sr er cs].
  cbn [CppExtractor._extract_declarator_info]. rewrite !on_first_find.
  unfold child_by_field_name, own_parameters, child_by_field_name.
  destruct (is_type _ "function_declarator").
  - destruct (find (has_field "declarator") _) as [decl|]; [|reflexivity].
    simpl option_map. cbv iota. unfold type_in, existsb, is_type.
    destruct (String.eqb (ntype decl) "identifier"); [reflexivity|].
    destruct (String.eqb (ntype decl) "qualified_identifier"); [reflexivity|].
    destruct (String.eqb (ntype decl) "field_identifier"); reflexivity.
  - destruct (is_type _ "pointer_declarator").
    + destruct (find (has_field "declarator") _); reflexivity.
    + destruct (is_type _ "reference_declarator").
      * destruct (find _ _); reflexivity.
      * destruct (type_in _ _); [reflexivity|].
        destruct (is_type _ "parenthesized_declarator"); [|reflexivity].
        destruct (find _ _); reflexivity.
Qed.

Lemma chain_end_eq (cxx : bool) (node : Node) :
  chain_end cxx node =
  match wrapped_child cxx node with
  | Some p =>
      match find p (children node) with
      | Some inner => chain_end cxx inner
      | None => node
      end
  | None => node
  end.
Proof.
  destruct node as [ty fld sb eb sr er cs]. cbn [chain_end].
  destruct (wrapped_child cxx _); [|reflexivity].
  rewrite on_first_find. destruct (find _ _); reflexivity.
Qed.

Lemma declarator_chain_eq (cxx : bool) (node : Node) :
  declarator_chain cxx node =
  node ::
  match wrapped_child cxx node with
  | Some p =>
      match find p (children node) with
      | Some inner => declarator_chain cxx inner
      | None => []
      end
  | None => []
  end.
Proof.
  destruct node as [ty fld sb eb sr er cs]. cbn [declarator_chain].
  destruct (wrapped_child cxx _); [|reflexivity].
  rewrite on_first_find. destruct (find _ _); reflexivity.
Qed.

Lemma outermost_eq (cxx : bool) (node : Node) :
  outermost_function_declarator cxx node =
  if is_type node "function_declarator" then Some node
  else
    match wrapped_child cxx node with
    | Some p =>
        match find p (children node) with
        | Some inner => outermost_function_declarator cxx inner
        | None => None
        end
    | None => None
    end.
Proof.
  unfold outermost_function_declarator. rewrite declarator_chain_eq.
  cbn [find]. unfold is_function_declarator at 1.
  destruct (is_type node "function_declarator"); [reflexivity|].
  destruct (wrapped_child cxx node); [|reflexivity].
  destruct (find _ (children node)); reflexivity.
Qed.

Lemma wrapped_child_identifier (cxx : bool) (node : Node) :
  type_in node (identifier_types cxx) = true -> wrapped_child cxx node = None.
Proof.
  intros Hid.
  assert (Hcase : ntype node = "identifier" \/ ntype node = "qualified_identifier"
                  \/ ntype node = "field_identifier").
  { unfold type_in in Hid. apply existsb_exists in Hid.
    destruct Hid as (t & Hin & Heq). apply String.eqb_eq in Heq. rewrite Heq.
    destruct cxx; simpl in Hin; intuition. }
  unfold wrapped_child, is_type.
  destruct Hcase as [E|[E|E]]; rewrite E; destruct cxx; reflexivity.
Qed.

Lemma chain_name_identifier (cxx : bool) (node : Node) (source : string) :
  type_in node (identifier_types cxx) = true ->
  chain_name cxx node source = Some (get_node_text node source).
Proof.
  intros Hid. unfold chain_name. rewrite chain_end_eq.
  rewrite (wrapped_child_identifier cxx node Hid), Hid. reflexivity.
Qed.

Lemma wrapped_child_field (cxx : bool) (node : Node) :
  is_type node "function_declarator" || is_type node "pointer_declarator" = true ->
  wrapped_child cxx node = Some (has_field "declarator").
Proof. intros H. unfold wrapped_child. now rewrite H. Qed.

Lemma wrapped_child_paren (cxx : bool) (node : Node) :
  is_type node "parenthesized_declarator" = true ->
  wrapped_child cxx node = Some (fun child => negb (type_in child ["("; ")"])).
Proof.
  intros H. apply is_type_true in H. unfold wrapped_child, is_type. rewrite H.
  destruct cxx; reflexivity.
Qed.

Lemma wrapped_child_reference (node : Node) :
  is_type node "reference_declarator" = true ->
  wrapped_child true node = Some (fun child => negb (type_in child ["&"; "&&"])).
Proof.
  intros H. apply is_type_true in H. unfold wrapped_child, is_type. rewrite H. reflexivity.
Qed.

Lemma chain_name_step (cxx : bool) (node inner : Node) (p : Node -> bool) (source : string) :
  wrapped_child cxx node = Some p ->
  find p (children node) = Some inner ->
  chain_name cxx node source = chain_name cxx inner source.
Proof.
  intros Hw Hf. unfold chain_name. rewrite (chain_end_eq cxx node), Hw, Hf. reflexivity.
Qed.

Lemma chain_name_stop (cxx : bool) (node : Node) (source : string) :
  match wrapped_child cxx node with
  | Some p => find p (children node) = None
  | None => True
  end ->
  type_in node (identifier_types cxx) = false ->
  chain_name cxx node source = None.
Proof.
  intros Hw Hid. unfold chain_name. rewrite chain_end_eq.
  destruct (wrapped_child cxx node); [rewrite Hw|]; now rewrite Hid.
Qed.

Lemma chain_parameters_own (cxx : bool) (node : Node) (source : string) :
  is_type node "function_declarator" = true ->
  chain_parameters cxx node source =
  match child_by_field_name node "declarator" with
  | Some _ => own_parameters node source
  | None => "()"
  end.
Proof.
  intros Hfd. unfold chain_parameters. rewrite outermost_eq, Hfd. reflexivity.
Qed.

Lemma chain_parameters_step (cxx : bool) (node inner : Node) (p : Node -> bool)
      (source : string) :
  is_type node "function_declarator" = false ->
  wrapped_child cxx node = Some p ->
  find p (children node) = Some inner ->
  chain_parameters cxx node source = chain_parameters cxx inner source.
Proof.
  intros Hfd Hw Hf. unfold chain_parameters.
  rewrite (outermost_eq cxx node), Hfd, Hw, Hf. reflexivity.
Qed.

Lemma chain_parameters_stop (cxx : bool) (node : Node) (source : string) :
  is_type node "function_declarator" = false ->
  match wrapped_child cxx node with
  | Some p => find p (children node) = None
  | None => True
  end ->
  chain_parameters cxx node source = "()".
Proof.
  intros Hfd Hw. unfold chain_parameters. rewrite outermost_eq, Hfd.
  destruct (wrapped_child cxx node); [rewrite Hw|]; reflexivity.
Qed.

Lemma c_resolver_chain (node : Node) (source : string) :
  CExtractor._extract_declarator_info node source =
  (chain_name false node source, chain_parameters false node source).
Proof.
  induction node as [node IH] using Node_children_ind.
  rewrite Forall_forall in IH. rewrite c_declarator_info_eq.
  destruct (is_type node "function_declarator") eqn:Hfd.
  - rewrite (chain_parameters_own false node source Hfd).
    assert (Hw := wrapped_child_field false node). rewrite Hfd in Hw.
    specialize (Hw eq_refl). unfold child_by_field_name.
    destruct (find (has_field "declarator") (children node)) as [decl|] eqn:Hdecl.
    + rewrite (chain_name_step false node decl _ source Hw Hdecl).
      rewrite (IH decl) by (apply (find_some _ _ Hdecl)). simpl fst.
      destruct (is_type decl "identifier") eqn:Hid; [|reflexivity].
      rewrite (chain_name_identifier false decl source); [reflexivity|].
      unfold identifier_types, type_in, existsb. fold (is_type decl "identifier").
      now rewrite Hid.
    + rewrite chain_name_stop; [reflexivity | now rewrite Hw |].
      apply is_type_true in Hfd. unfold identifier_types, type_in. now rewrite Hfd.
  - destruct (is_type node "pointer_declarator") eqn:Hptr.
    + assert (Hw := wrapped_child_field false node). rewrite Hfd, Hptr in Hw.
      specialize (Hw eq_refl). unfold child_by_field_name.
      destruct (find (has_field "declarator") (children node)) as [decl|] eqn:Hdecl.
      * rewrite (chain_name_step false node decl _ source Hw Hdecl).
        rewrite (chain_parameters_step false node decl _ source Hfd Hw Hdecl).
        apply IH, (find_some _ _ Hdecl).
      * rewrite chain_name_stop, chain_parameters_stop;
          [reflexivity | assumption | now rewrite Hw | now rewrite Hw |].
        apply is_type_true in Hptr. unfold identifier_types, type_in. now rewrite Hptr.
    + destruct (is_type node "identifier") eqn:Hid.
      * assert (Hids : type_in node (identifier_types false) = true).
        { unfold identifier_types, type_in, existsb. fold (is_type node "identifier").
          now rewrite Hid. }
        rewrite (chain_name_identifier false node source Hids).
        rewrite chain_parameters_stop;
          [reflexivity | assumption | now rewrite (wrapped_child_identifier false node Hids)].
      * assert (Hids : type_in node (identifier_types false) = false).
        { unfold identifier_types, type_in, existsb. fold (is_type node "identifier").
          now rewrite Hid. }
        destruct (is_type node "parenthesized_declarator") eqn:Hpar.
        -- assert (Hw := wrapped_child_paren false node Hpar).
           destruct (find (fun child => negb (type_in child ["("; ")"])) (children node))
             as [child|] eqn:Hchild.
           ++ rewrite (chain_name_step false node child _ source Hw Hchild).
              rewrite (chain_parameters_step false node child _ source Hfd Hw Hchild).
              apply IH, (find_some _ _ Hchild).
           ++ rewrite chain_name_stop, chain_parameters_stop;
                [reflexivity | assumption | now rewrite Hw | now rewrite Hw | assumption].
        -- assert (Hw : wrapped_child false node = None).
           { unfold wrapped_child. now rewrite Hfd, Hptr, Hpar. }
           rewrite chain_name_stop, chain_parameters_stop;
             [reflexivity | assumption | now rewrite Hw | now rewrite Hw | assumption].
Qed.

Lemma cpp_resolver_chain (node : Node) (source : string) :
  CppExtractor._extract_declarator_info node source =
  (chain_name true node source, chain_parameters true node source).
Proof.
  induction node as [node IH] using Node_children_ind.
  rewrite Forall_forall in IH. rewrite cpp_declarator_info_eq.
  destruct (is_type node "function_declarator") eqn:Hfd.
  - rewrite (chain_parameters_own true node source Hfd).
    assert (Hw := wrapped_child_field true node). rewrite Hfd in Hw.
    specialize (Hw eq_refl). unfold child_by_field_name.
    destruct (find (has_field "declarator") (children node)) as [decl|] eqn:Hdecl.
    + rewrite (chain_name_step true node decl _ source Hw Hdecl).
      rewrite (IH decl) by (apply (find_some _ _ Hdecl)). simpl fst.
      destruct (type_in decl ["identifier"; "qualified_identifier"; "field_identifier"])
        eqn:Hid; [|reflexivity].
      now rewrite (chain_name_identifier true decl source Hid).
    + rewrite chain_name_stop; [reflexivity | now rewrite Hw |].
      apply is_type_true in Hfd. unfold identifier_types, type_in. now rewrite Hfd.
  - destruct (is_type node "pointer_declarator") eqn:Hptr.
    + assert (Hw := wrapped_child_field true node). rewrite Hfd, Hptr in Hw.
      specialize (Hw eq_refl). unfold child_by_field_name.
      destruct (find (has_field "declarator") (children node)) as [decl|] eqn:Hdecl.
      * rewrite (chain_name_step true node decl _ source Hw Hdecl).
        rewrite (chain_parameters_step true node decl _ source Hfd Hw Hdecl).
        apply IH, (find_some _ _ Hdecl).
      * rewrite chain_name_stop, chain_parameters_stop;
          [reflexivity | assumption | now rewrite Hw | now rewrite Hw |].
        apply is_type_true in Hptr. unfold identifier_types, type_in. now rewrite Hptr.
    + destruct (is_type node "reference_declarator") eqn:Href.
      * assert (Hw := wrapped_child_reference node Href).
        destruct (find (fun child => negb (type_in child ["&"; "&&"])) (children node))
          as [child|] eqn:Hchild.
        -- rewrite (chain_name_step true node child _ source Hw Hchild).
           rewrite (chain_parameters_step true node child _ source Hfd Hw Hchild).
           apply IH, (find_some _ _ Hchild).
        -- rewrite chain_name_stop, chain_parameters_stop;
             [reflexivity | assumption | now rewrite Hw | now rewrite Hw |].
           apply is_type_true in Href. unfold identifier_types, type_in. now rewrite Href.
      * destruct (type_in node ["identifier"; "qualified_identifier"; "field_identifier"])
          eqn:Hids.
        -- rewrite (chain_name_identifier true node source Hids).
           rewrite chain_parameters_stop;
             [reflexivity | assumption
              | now rewrite (wrapped_child_identifier true node Hids)].
        -- destruct (is_type node "parenthesized_declarator") eqn:Hpar.
           ++ assert (Hw := wrapped_child_paren true node Hpar).
              destruct (find (fun child => negb (type_in child ["("; ")"])) (children node))
                as [child|] eqn:Hchild.
              ** rewrite (chain_name_step true node child _ source Hw Hchild).
                 rewrite (chain_parameters_step true node child _ source Hfd Hw Hchild).
                 apply IH, (find_some _ _ Hchild).
              ** rewrite chain_name_stop, chain_parameters_stop;
                   [reflexivity | assumption | now rewrite Hw | now rewrite Hw | assumption].
           ++ assert (Hw : wrapped_child true node = None).
              { unfold wrapped_child. now rewrite Hfd, Hptr, Href, Hpar. }
              rewrite chain_name_stop, chain_parameters_stop;
                [reflexivity | assumption | now rewrite Hw | now rewrite Hw | assumption].
Qed.

Lemma resolver_chain (cxx : bool) (node : Node) (source : string) :
  declarator_info cxx node source =
  (chain_name cxx node source, chain_parameters cxx node source).
Proof.
  destruct cxx; [apply cpp_resolver_chain | apply c_resolver_chain].
Qed.

(** Counterexample to C4 as the specification words it: for the definition of a function returning a
    pointer to function, [int ( *f(int a))(char b)], the innermost
    function_declarator carries [(int a)], and both resolvers return the
    text [(char b)] of the outer one. *)
Lemma resolver_returns_outer_parameters :
  innermost_function_declarator false c_fnptr_declarator = Some c_fnptr_inner /\
  own_parameters c_fnptr_inner c_fnptr_source = "(int a)" /\
  CExtractor._extract_declarator_info c_fnptr_declarator c_fnptr_source
    = (Some "f", "(char b)") /\
  CppExtractor._extract_declarator_info c_fnptr_declarator c_fnptr_source
    = (Some "f", "(char b)") /\
  snd (CExtractor._extract_declarator_info c_fnptr_declarator c_fnptr_source)
    <> own_parameters c_fnptr_inner c_fnptr_source.
Proof. vm_compute. repeat split. discriminate. Qed.

(** C4 (amended). For every C or C++ declarator chain that contains a
    function_declarator, the resolver returns the parameter-list text of the
    outermost function_declarator of the chain, the first one met while
    unwrapping (["()"] when that node has no parameters field, and no name
    with ["()"] when it wraps no declarator); the name is the text of the
    node the unwrapping of function, pointer, (C++) reference and
    parenthesized declarators ends at when that node is an identifier (C) or
    an identifier, qualified_identifier or field_identifier (C++), and no
    name is returned when the chain ends at any other node type. *)
Theorem resolver_returns_outermost_parameters
        (cxx : bool) (node fd : Node) (source : string) :
  outermost_function_declarator cxx node = Some fd ->
  snd (declarator_info cxx node source) =
    match child_by_field_name fd "declarator" with
    | Some _ => own_parameters fd source
    | None => "()"
    end /\
  fst (declarator_info cxx node source) =
    (if type_in (chain_end cxx node) (identifier_types cxx)
     then Some (get_node_text (chain_end cxx node) source)
     else None).
Proof.
  intros Hfd. rewrite resolver_chain. simpl. split; [|reflexivity].
  unfold chain_parameters. now rewrite Hfd.
Qed.

Lemma resolver_returns_outermost_parameters_witness :
  snd (declarator_info false c_fnptr_declarator c_fnptr_source) =
    match child_by_field_name c_fnptr_declarator "declarator" with
    | Some _ => own_parameters c_fnptr_declarator c_fnptr_source
    | None => "()"
    end /\
  fst (declarator_info false c_fnptr_declarator c_fnptr_source) =
    (if type_in (chain_end false c_fnptr_declarator) (identifier_types false)
     then Some (get_node_text (chain_end false c_fnptr_declarator) c_fnptr_source)
     else None).
Proof.
  apply (resolver_returns_outermost_parameters false c_fnptr_declarator c_fnptr_declarator
           c_fnptr_source).
  vm_compute. reflexivity.
Defined.

(** ** Variable declarators *)

Lemma c_get_var_name_eq (node : Node) (source : string) :
  CExtractor._get_var_name node source =
  if is_type node "identifier" then Some (get_node_text node source)
  else if type_in node ["init_declarator"; "pointer_declarator"; "array_declarator"] then
    match child_by_field_name node "declarator" with
    | Some decl => CExtractor._get_var_name decl source
    | None =>
        option_map (fun child => get_node_text child source)
          (find (fun child => is_type child "identifier") (children node))
    end
  else None.
Proof.
  destruct node as [ty fld sb eb sr er cs].
  cbn [CExtractor._get_var_name]. rewrite !on_first_find.
  unfold child_by_field_name.
  destruct (is_type _ "identifier"); [reflexivity|].
  destruct (type_in _ _); [|reflexivity].
  destruct (find (has_field "declarator") _); reflexivity.
Qed.

Lemma c_get_var_name_function_declarator (node : Node) (source : string) :
  is_type node "function_declarator" = true ->
  CExtractor._get_var_name node source = None.
Proof.
  intros Hfd. apply is_type_true in Hfd. rewrite c_get_var_name_eq.
  unfold is_type, type_in. rewrite Hfd. reflexivity.
Qed.

(** Counterexample to C6 as the specification words it: the global declaration
    [int ( *fp)(void);] is skipped, and the only variable reported for the
    translation unit is [g]. *)
Lemma function_pointer_variable_not_reported :
  nth_error (walk_tree c_unit_root) 1 = Some c_unit_fp /\
  is_type (nr_node c_unit_fp) "declaration" = true /\
  get_node_text (nr_node c_unit_fp) c_unit_source = "int (*fp)(void);" /\
  child_by_field_name (nr_node c_unit_fp) "declarator" = Some c_unit_fp_declarator /\
  CExtractor._get_var_name c_unit_fp_declarator c_unit_source = None /\
  CExtractor.extract_variables_at c_unit_fp c_unit_source = [] /\
  extract_variables (extractor c) c_unit_root c_unit_source =
    [VariableInfo.mk "g" 3 "global" None (Some "int")].
Proof. vm_compute. repeat split. Qed.

(** C6 (amended). For a C declaration whose declarator is a
    function_declarator, as in the pointer-to-function shape
    [int ( *fp)(void)], _get_var_name recovers no name and extract_variables
    emits no VariableInfo for the declaration. *)
Theorem function_declarator_variable_skipped
        (node : NodeRef) (declarator : Node) (source : string) :
  child_by_field_name (nr_node node) "declarator" = Some declarator ->
  is_type declarator "function_declarator" = true ->
  CExtractor._get_var_name declarator source = None /\
  CExtractor.extract_variables_at node source = [].
Proof.
  intros Hdecl Hfd.
  pose proof (c_get_var_name_function_declarator declarator source Hfd) as Hname.
  split; [exact Hname|].
  unfold CExtractor.extract_variables_at, CExtractor._extract_declaration.
  rewrite Hdecl, Hname.
  destruct (is_type (nr_node node) "declaration"); [|reflexivity].
  destruct (nr_anc node) as [|parent up]; [reflexivity|].
  destruct (is_type parent "translation_unit"); reflexivity.
Qed.

Lemma function_declarator_variable_skipped_witness :
  CExtractor._get_var_name c_unit_fp_declarator c_unit_source = None /\
  CExtractor.extract_variables_at c_unit_fp c_unit_source = [].
Proof.
  apply (function_declarator_variable_skipped c_unit_fp c_unit_fp_declarator c_unit_source);
    vm_compute; reflexivity.
Defined.

(** ** Field declarations *)

Lemma parent_class_in_nearest (class_types : list string) (between : list Node)
      (owner : Node) (up : list Node) (name_node : Node) (source : string) :
  Forall (fun a => type_in a class_types = false \/ child_by_field_name a "name" = None)
         between ->
  type_in owner class_types = true ->
  child_by_field_name owner "name" = Some name_node ->
  parent_class_in class_types (between ++ owner :: up) source =
  Some (get_node_text name_node source).
Proof.
  intros Hbetween Howner Hname.
  induction Hbetween as [|a between Ha _ IH]; simpl.
  - now rewrite Howner, Hname.
  - destruct Ha as [Ha|Ha]; rewrite Ha; [exact IH|].
    destruct (type_in a class_types); exact IH.
Qed.

(** Counterexample to C7 as the specification words it, for the C extractor: [int x;] is a field
    declaration inside the named struct [S], its nearest named struct
    ancestor resolves to [S], and no class-scoped VariableInfo is emitted. *)
Lemma c_field_declaration_not_reported :
  nth_error (walk_tree c_unit_root) 21 = Some c_unit_field /\
  is_type (nr_node c_unit_field) "field_declaration" = true /\
  get_node_text (nr_node c_unit_field) c_unit_source = "int x;" /\
  parent_class_in ["struct_specifier"] (nr_anc c_unit_field) c_unit_source = Some "S" /\
  extract_variables (extractor c) c_unit_root c_unit_source =
    [VariableInfo.mk "g" 3 "global" None (Some "int")].
Proof. vm_compute. repeat split. Qed.

Lemma cpp_field_emitted (node : NodeRef) (source : string) (class_name : string)
      (declarator : Node) (name : string) :
  is_type (nr_node node) "field_declaration" = true ->
  CppExtractor._get_parent_class node source = Some class_name ->
  PyStr.truthy class_name = true ->
  child_by_field_name (nr_node node) "declarator" = Some declarator ->
  CppExtractor._get_var_name declarator source = Some name ->
  PyStr.truthy name = true ->
  CppExtractor.extract_variables_at node source =
  [VariableInfo.mk name (start_line (nr_node node)) "class" (Some class_name)
     (text_opt (child_by_field_name (nr_node node) "type") source)].
Proof.
  intros Hty Hcls Hcn Hdecl Hname Hn.
  unfold CppExtractor.extract_variables_at, CppExtractor._extract_field.
  assert (Hnot : is_type (nr_node node) "declaration" = false).
  { apply is_type_true in Hty. unfold is_type. now rewrite Hty. }
  now rewrite Hnot, Hty, Hcls, Hcn, Hdecl, Hname, Hn.
Qed.

(** C7 (amended). The C++ extractor emits, for every field_declaration of
    the walk that has a class_specifier or struct_specifier ancestor with a
    name field, at any depth, and whose declarator yields a non-empty
    variable name, a VariableInfo with scope 'class' and class_name the
    (non-empty) name of the nearest such ancestor; the C extractor emits
    global variables only and no class-scoped VariableInfo. *)
Theorem cpp_field_declarations_class_scoped
        (root : Node) (node : NodeRef) (source : string)
        (between : list Node) (owner : Node) (up : list Node)
        (name_node declarator : Node) (name : string) :
  In node (walk_tree root) ->
  is_type (nr_node node) "field_declaration" = true ->
  nr_anc node = (between ++ owner :: up)%list ->
  Forall (fun a => type_in a ["class_specifier"; "struct_specifier"] = false \/
                   child_by_field_name a "name" = None) between ->
  type_in owner ["class_specifier"; "struct_specifier"] = true ->
  child_by_field_name owner "name" = Some name_node ->
  PyStr.truthy (get_node_text name_node source) = true ->
  child_by_field_name (nr_node node) "declarator" = Some declarator ->
  CppExtractor._get_var_name declarator source = Some name ->
  PyStr.truthy name = true ->
  In (VariableInfo.mk name (start_line (nr_node node)) "class"
        (Some (get_node_text name_node source))
        (text_opt (child_by_field_name (nr_node node) "type") source))
     (extract_variables (extractor cpp) root source) /\
  (forall v, In v (extract_variables (extractor c) root source) ->
             VariableInfo.scope v = "global" /\ VariableInfo.class_name v = None).
Proof.
  intros Hnode Hty Hanc Hbetween Howner Hname Hcn Hdecl Hvar Hn. split.
  - rewrite walk_tree_preorder in Hnode. rewrite extract_variables_walk.
    apply in_flat_map. exists node. split; [exact Hnode|]. simpl.
    rewrite (cpp_field_emitted node source (get_node_text name_node source) declarator name);
      try assumption; [now left|].
    unfold CppExtractor._get_parent_class. rewrite Hanc.
    now apply parent_class_in_nearest.
  - intros v. rewrite extract_variables_walk. intros Hin.
    apply in_flat_map in Hin. destruct Hin as (n & _ & Hv).
    now apply (c_declaration_global n source).
Qed.

Lemma cpp_field_declarations_class_scoped_witness :
  In (VariableInfo.mk "n" 1 "class" (Some "W") (Some "int"))
     (extract_variables (extractor cpp) cpp_unit_root cpp_unit_source) /\
  (forall v, In v (extract_variables (extractor c) cpp_unit_root cpp_unit_source) ->
             VariableInfo.scope v = "global" /\ VariableInfo.class_name v = None).
Proof.
  apply (cpp_field_declarations_class_scoped cpp_unit_root cpp_unit_field cpp_unit_source
           (firstn 1 (nr_anc cpp_unit_field))
           (nr_node (descend (mkRef cpp_unit_root []) [0]))
           [cpp_unit_root]
           (nr_node (descend (mkRef cpp_unit_root []) [0; 1]))
           (nr_node (descend cpp_unit_field [1]))
           "n").
  - apply (nth_error_In _ 6). vm_compute. reflexivity.
  - vm_compute. reflexivity.
  - vm_compute. reflexivity.
  - vm_compute. constructor; [left; reflexivity | constructor].
  - vm_compute. reflexivity.
  - vm_compute. reflexivity.
  - vm_compute. reflexivity.
  - vm_compute. reflexivity.
  - vm_compute. reflexivity.
  - vm_compute. reflexivity.
Defined.

(** ** Function definitions without a resolvable name *)

Lemma c_unresolved_not_emitted (node : NodeRef) (source : string) :
  resolved_name c (nr_node node) source = None ->
  CExtractor.extract_functions_at node source = [].
Proof.
  unfold resolved_name, CExtractor.extract_functions_at, CExtractor._extract_function.
  intros Hres. destruct (is_type (nr_node node) "function_definition"); [|reflexivity].
  destruct (child_by_field_name (nr_node node) "declarator") as [d|]; [|reflexivity].
  destruct (CExtractor._extract_declarator_info d source) as [[name|] params];
    simpl in *; [|reflexivity].
  destruct (PyStr.truthy name); [discriminate | reflexivity].
Qed.

Lemma cpp_unresolved_not_emitted (node : NodeRef) (source : string) :
  resolved_name cpp (nr_node node) source = None ->
  CppExtractor.extract_functions_at node source = [].
Proof.
  unfold resolved_name, CppExtractor.extract_functions_at, CppExtractor._extract_function.
  intros Hres. destruct (is_type (nr_node node) "function_definition"); [|reflexivity].
  destruct (child_by_field_name (nr_node node) "declarator") as [d|]; [|reflexivity].
  destruct (CppExtractor._extract_declarator_info d source) as [[name|] params];
    simpl in *; [|reflexivity].
  destruct (PyStr.truthy name); [discriminate | reflexivity].
Qed.

Lemma python_unresolved_placeholder (node : NodeRef) (source : string) :
  is_type (nr_node node) "function_definition" = true ->
  resolved_name python (nr_node node) source = None ->
  exists info,
    PythonExtractor.extract_functions_at node source = [info] /\
    FunctionInfo.name info = "<unknown>".
Proof.
  unfold resolved_name, PythonExtractor.extract_functions_at. intros -> Hres.
  eexists. split; [reflexivity|].
  unfold PythonExtractor._extract_function. simpl.
  destruct (child_by_field_name (nr_node node) "name"); [discriminate | reflexivity].
Qed.

(** Counterexample to C1 as the specification words it, for Python: the function_definition node of
    [def (): pass] has no name field, and extract_functions emits a record
    for it under the placeholder name. *)
Lemma python_unnamed_function_emitted :
  nth_error (walk_tree py_anon_root) 1 = Some py_anon_fn /\
  is_type (nr_node py_anon_fn) "function_definition" = true /\
  child_by_field_name (nr_node py_anon_fn) "name" = None /\
  resolved_name python (nr_node py_anon_fn) py_anon_source = None /\
  extract_functions (extractor python) py_anon_root py_anon_source =
    [FunctionInfo.mk "<unknown>" 1 1 "def <unknown>()" None None].
Proof. vm_compute. repeat split. Qed.

(** C1 (amended). For a function_definition node of the walk whose name
    cannot be resolved: the C and the C++ extractor (declarator missing, or
    resolving to no name or to an empty one) emit no FunctionInfo for the
    node, and every FunctionInfo they emit comes from a node whose name
    resolves; the Python extractor (name field missing) emits one
    FunctionInfo for the node, whose name is the placeholder '<unknown>'. *)
Theorem unresolved_function_names
        (lang : Language) (root : Node) (node : NodeRef) (source : string) :
  In node (walk_tree root) ->
  is_type (nr_node node) "function_definition" = true ->
  resolved_name lang (nr_node node) source = None ->
  match lang with
  | python =>
      exists info,
        functions_at (bodies python) node source = [info] /\
        FunctionInfo.name info = "<unknown>" /\
        In info (extract_functions (extractor python) root source)
  | _ =>
      functions_at (bodies lang) node source = [] /\
      forall info,
        In info (extract_functions (extractor lang) root source) ->
        exists origin,
          In origin (walk_tree root) /\
          resolved_name lang (nr_node origin) source <> None /\
          In info (functions_at (bodies lang) origin source)
  end.
Proof.
  intros Hnode Hty Hres. rewrite walk_tree_preorder in *.
  destruct lang.
  - destruct (python_unresolved_placeholder node source Hty Hres) as (info & Hat & Hname).
    exists info. repeat split; try assumption.
    rewrite extract_functions_walk. apply in_flat_map. exists node.
    split; [exact Hnode|]. simpl. rewrite Hat. now left.
  - split; [now apply c_unresolved_not_emitted|].
    intros info. rewrite extract_functions_walk. intros Hin.
    apply in_flat_map in Hin. destruct Hin as (origin & Horigin & Hinfo).
    exists origin. repeat split; try assumption.
    intros Hnone. simpl in Hinfo.
    now rewrite (c_unresolved_not_emitted origin source Hnone) in Hinfo.
  - split; [now apply cpp_unresolved_not_emitted|].
    intros info. rewrite extract_functions_walk. intros Hin.
    apply in_flat_map in Hin. destruct Hin as (origin & Horigin & Hinfo).
    exists origin. repeat split; try assumption.
    intros Hnone. simpl in Hinfo.
    now rewrite (cpp_unresolved_not_emitted origin source Hnone) in Hinfo.
Qed.

Lemma unresolved_function_names_witness :
  functions_at (bodies cpp) cpp_operator_fn cpp_operator_source = [] /\
  forall info,
    In info (extract_functions (extractor cpp) cpp_operator_root cpp_operator_source) ->
    exists origin,
      In origin (walk_tree cpp_operator_root) /\
      resolved_name cpp (nr_node origin) cpp_operator_source <> None /\
      In info (functions_at (bodies cpp) origin cpp_operator_source).
Proof.
  apply (unresolved_function_names cpp cpp_operator_root cpp_operator_fn cpp_operator_source).
  - apply (nth_error_In _ 1). vm_compute. reflexivity.
  - vm_compute. reflexivity.
  - vm_compute. reflexivity.
Defined.

(** ** Python assignments *)

Lemma python_module_assignment_global (node : NodeRef) (source : string)
      (parent_ grandparent : Node) (up : list Node) (target : Node) :
  nr_anc node = parent_ :: grandparent :: up ->
  is_type parent_ "expression_statement" = true ->
  is_type grandparent "module" = true ->
  child_by_field_name (nr_node node) "left" = Some target ->
  is_type target "identifier" = true ->
  PythonExtractor._extract_assignment node source =
  [VariableInfo.mk (get_node_text target source) (start_line (nr_node node))
     "global" None None].
Proof.
  intros Hanc Hp Hg Hleft Hid. unfold PythonExtractor._extract_assignment.
  rewrite Hanc, Hp. unfold PythonExtractor.assignment_scope.
  now rewrite Hg, Hleft, Hid.
Qed.

Lemma python_assignment_outside_class_skipped (node : NodeRef) (source : string)
      (parent_ grandparent : Node) (up : list Node) :
  nr_anc node = parent_ :: grandparent :: up ->
  is_type grandparent "module" = false ->
  PythonExtractor._get_parent_class node source = None ->
  PythonExtractor._extract_assignment node source = [].
Proof.
  intros Hanc Hg Hcls. unfold PythonExtractor._extract_assignment.
  rewrite Hanc. destruct (is_type parent_ "expression_statement"); [|reflexivity].
  unfold PythonExtractor.assignment_scope. rewrite Hg, Hcls.
  destruct (is_type grandparent "block"); reflexivity.
Qed.

(** C2. The assignment [x = g(1)] lies in the body block of the method [f]
    of class [A] (its parents are expression_statement, block,
    function_definition, block, class_definition, module), and
    extract_variables reports it as a variable of scope 'class' with
    class_name [A], between the class-level [y] and the global [z]. *)
Theorem method_local_assignment_reported :
  nth_error (walk_tree py_class_root) 21 = Some py_class_local /\
  is_type (nr_node py_class_local) "assignment" = true /\
  get_node_text (nr_node py_class_local) py_class_source = "x = g(1)" /\
  map ntype (nr_anc py_class_local) =
    ["expression_statement"; "block"; "function_definition"; "block";
     "class_definition"; "module"] /\
  PythonExtractor._extract_assignment py_class_local py_class_source =
    [VariableInfo.mk "x" 4 "class" (Some "A") None] /\
  extract_variables (extractor python) py_class_root py_class_source =
    [VariableInfo.mk "y" 2 "class" (Some "A") None;
     VariableInfo.mk "x" 4 "class" (Some "A") None;
     VariableInfo.mk "z" 5 "global" None None].
Proof. vm_compute. repeat split. Qed.

(** ** Python docstrings *)

Lemma docstring_scan_comment (child : Node) (rest : list Node) (source : string) :
  is_type child "comment" = true ->
  PythonExtractor.docstring_scan (child :: rest) source =
  PythonExtractor.docstring_scan rest source.
Proof.
  intros Hc. simpl. assert (Hty := is_type_true _ _ Hc).
  unfold is_type, type_in. rewrite Hty. reflexivity.
Qed.

Lemma docstring_scan_break (child : Node) (rest : list Node) (source : string) :
  is_type child "expression_statement" = false ->
  is_type child "comment" = false ->
  PythonExtractor.docstring_scan (child :: rest) source = None.
Proof.
  intros He Hc. simpl. rewrite He. unfold type_in, existsb.
  fold (is_type child "comment"). now rewrite Hc.
Qed.

Lemma docstring_scan_string (child expr : Node) (rest : list Node) (source : string) :
  is_type child "expression_statement" = true ->
  child0 child = Some expr ->
  is_type expr "string" = true ->
  PyStr.startswith (PyStr.triple PyStr.dquote) (get_node_text expr source)
  || PyStr.startswith (PyStr.triple PyStr.squote) (get_node_text expr source) = true ->
  PythonExtractor.docstring_scan (child :: rest) source =
  Some (PyStr.strip (PyStr.slice_inner 3 3 (get_node_text expr source))).
Proof.
  intros He Hexpr Hs Hq. simpl. now rewrite He, Hexpr, Hs, Hq.
Qed.

(** The case the loop has no [break] for: an expression statement that is
    not a string literal is passed over like a comment. *)
Lemma docstring_scan_passes_expression (child expr : Node) (rest : list Node)
      (source : string) :
  is_type child "expression_statement" = true ->
  child0 child = Some expr ->
  is_type expr "string" = false ->
  PythonExtractor.docstring_scan (child :: rest) source =
  PythonExtractor.docstring_scan rest source.
Proof.
  intros He Hexpr Hs. simpl. now rewrite He, Hexpr, Hs.
Qed.

(** C5. In the body of [f], whose first statement is the assignment
    [x = 1] and whose second statement is the string literal ['late'],
    _extract_docstring returns the text of the second statement, and the
    FunctionInfo of [f] carries it as docstring. *)
Theorem docstring_taken_after_first_statement :
  map ntype (children py_late_body) = ["expression_statement"; "expression_statement"] /\
  map (fun statement => option_map ntype (child0 statement)) (children py_late_body) =
    [Some "assignment"; Some "string"] /\
  child_by_field_name (nr_node (descend (mkRef py_late_root []) [0])) "body" =
    Some py_late_body /\
  PythonExtractor._extract_docstring (Some py_late_body) py_late_source = Some "late" /\
  extract_functions (extractor python) py_late_root py_late_source =
    [FunctionInfo.mk "f" 1 3 "def f()" None (Some "late")].
Proof. vm_compute. repeat split. Qed.

(** * Further properties of the code *)

(** ** The walker (base.py) *)

Lemma preorder_under (extra : list Node) (n : Node) :
  forall anc,
    preorder (anc ++ extra) n =
    map (fun r => mkRef (nr_node r) (nr_anc r ++ extra)%list) (preorder anc n).
Proof.
  induction n as [n IH] using Node_children_ind. intros anc.
  rewrite !preorder_eq. simpl. f_equal.
  rewrite Forall_forall in IH.
  induction (children n) as [|c cs IHcs]; simpl; [reflexivity|].
  rewrite map_app. f_equal.
  - apply (IH c (or_introl eq_refl) (n :: anc)).
  - apply IHcs. intros x Hx. apply IH. now right.
Qed.

(** X1. The walker yields the root first, with no parents, and then the
    complete walk of each child subtree, child after child in order, every
    node of a child's walk carrying the root as its outermost parent. *)
Theorem walk_tree_root_then_children (root : Node) :
  walk_tree root =
  mkRef root [] :: flat_map (fun child => map (under root) (walk_tree child)) (children root).
Proof.
  rewrite walk_tree_preorder, preorder_eq. f_equal.
  apply flat_map_ext. intros child.
  rewrite walk_tree_preorder. apply (preorder_under [root] child []).
Qed.

Lemma preorder_length (anc : list Node) (n : Node) :
  length (preorder anc n) = node_count n.
Proof.
  revert anc. induction n as [n IH] using Node_children_ind. intros anc.
  rewrite preorder_eq, node_count_eq. simpl. f_equal.
  rewrite Forall_forall in IH.
  induction (children n) as [|c cs IHcs]; simpl; [reflexivity|].
  rewrite length_app, (IH c (or_introl eq_refl)). f_equal.
  apply IHcs. intros x Hx. apply IH. now right.
Qed.

(** X2. The walker yields exactly as many nodes as the tree has; its loop
    reaches the break within twice that many iterations, and a run that
    reaches the break, whatever its iteration budget, has yielded the same
    list. *)
Theorem walk_tree_complete (root : Node) :
  length (walk_tree root) = node_count root /\
  (forall fuel, 2 * node_count root <= fuel ->
                walk_run fuel (walk root, false) = Some (walk_tree root)) /\
  (forall fuel l, walk_run fuel (walk root, false) = Some l -> l = walk_tree root).
Proof.
  rewrite walk_tree_preorder. split; [apply preorder_length|]. split.
  - intros fuel Hfuel. now apply walk_run_enough.
  - intros fuel l Hrun.
    apply (walk_run_more fuel _ _ (walk_fuel root)) in Hrun.
    rewrite walk_run_enough in Hrun by lia. now injection Hrun.
Qed.

Lemma preorder_head (anc : list Node) (n : Node) : In (mkRef n anc) (preorder anc n).
Proof. rewrite preorder_eq. now left. Qed.

Lemma preorder_child_incl (anc : list Node) (n child : Node) (r : NodeRef) :
  In child (children n) ->
  In r (preorder (n :: anc) child) ->
  In r (preorder anc n).
Proof.
  intros Hchild Hr. rewrite preorder_eq. right.
  apply in_flat_map. now exists child.
Qed.

Lemma preorder_parent_links (n : Node) :
  forall anc r,
    In r (preorder anc n) ->
    r = mkRef n anc \/
    exists p up,
      nr_anc r = p :: up /\ In (nr_node r) (children p) /\ In (mkRef p up) (preorder anc n).
Proof.
  induction n as [n IH] using Node_children_ind. intros anc r Hr.
  rewrite preorder_eq in Hr. destruct Hr as [<-|Hr]; [now left|]. right.
  apply in_flat_map in Hr. destruct Hr as (child & Hchild & Hr).
  rewrite Forall_forall in IH.
  destruct (IH child Hchild (n :: anc) r Hr) as [->|(p & up & Hanc & Hkid & Hp)].
  - exists n, anc. repeat split; [exact Hchild | apply preorder_head].
  - exists p, up. repeat split; try assumption.
    now apply (preorder_child_incl anc n child).
Qed.

(** X3. Parent links of the walk are consistent: every yielded node other
    than the root has a parent, it is one of that parent's children, and
    the parent (with the rest of the chain) is itself a node of the walk. *)
Theorem walk_tree_parent_links (root : Node) (r : NodeRef) :
  In r (walk_tree root) ->
  r = mkRef root [] \/
  exists p up,
    nr_anc r = p :: up /\ In (nr_node r) (children p) /\ In (mkRef p up) (walk_tree root).
Proof.
  rewrite walk_tree_preorder. apply preorder_parent_links.
Qed.

Lemma walk_tree_parent_links_witness :
  py_class_local = mkRef py_class_root [] \/
  exists p up,
    nr_anc py_class_local = p :: up /\ In (nr_node py_class_local) (children p) /\
    In (mkRef p up) (walk_tree py_class_root).
Proof.
  apply (walk_tree_parent_links py_class_root py_class_local).
  apply (nth_error_In _ 21). vm_compute. reflexivity.
Defined.

(** ** Stripping ([str.strip]) *)

Lemma lstrip_by_fixed (f : ascii -> bool) (s : string) :
  PyStr.lstrip_by f s = s <->
  match s with
  | EmptyString => True
  | String ch _ => f ch = false
  end.
Proof.
  destruct s as [|ch s]; simpl; [tauto|].
  destruct (f ch) eqn:Hf; split; try reflexivity; try discriminate.
  intros Heq. exfalso.
  assert (Hlen : forall t, String.length (PyStr.lstrip_by f t) <= String.length t).
  { induction t as [|x t IH]; simpl; [lia|]. destruct (f x); simpl; lia. }
  specialize (Hlen s). rewrite Heq in Hlen. simpl in Hlen. lia.
Qed.

Lemma lstrip_by_head (f : ascii -> bool) (s : string) :
  PyStr.lstrip_by f (PyStr.lstrip_by f s) = PyStr.lstrip_by f s.
Proof.
  induction s as [|ch s IH]; simpl; [reflexivity|].
  destruct (f ch) eqn:Hf; [exact IH|]. simpl. now rewrite Hf.
Qed.

Lemma rstrip_by_idempotent (f : ascii -> bool) (s : string) :
  PyStr.rstrip_by f (PyStr.rstrip_by f s) = PyStr.rstrip_by f s.
Proof.
  induction s as [|ch s IH]; simpl; [reflexivity|].
  destruct (PyStr.rstrip_by f s) as [|x r] eqn:Hr.
  - destruct (f ch) eqn:Hf; simpl; [reflexivity | now rewrite Hf].
  - simpl in *. now rewrite IH.
Qed.

Lemma rstrip_by_keeps_head (f : ascii -> bool) (s : string) :
  PyStr.lstrip_by f s = s -> PyStr.lstrip_by f (PyStr.rstrip_by f s) = PyStr.rstrip_by f s.
Proof.
  intros Hhead. apply lstrip_by_fixed in Hhead. apply lstrip_by_fixed.
  destruct s as [|ch s]; simpl; [exact I|].
  destruct (PyStr.rstrip_by f s); [now rewrite Hhead | exact Hhead].
Qed.

Lemma strip_by_clean (f : ascii -> bool) (s : string) : clean_edges f (PyStr.strip_by f s).
Proof.
  unfold clean_edges, PyStr.strip_by. split.
  - apply rstrip_by_keeps_head, lstrip_by_head.
  - apply rstrip_by_idempotent.
Qed.

Lemma lstrip_by_all (f : ascii -> bool) (l s : string) :
  Forall (fun ch => f ch = true) (list_ascii_of_string l) ->
  PyStr.lstrip_by f (l ++ s) = PyStr.lstrip_by f s.
Proof.
  induction l as [|ch l IH]; simpl; intros Hall; [reflexivity|].
  inversion Hall as [|? ? Hch Hl]; subst. rewrite Hch. now apply IH.
Qed.

Lemma rstrip_by_all (f : ascii -> bool) (s r : string) :
  Forall (fun ch => f ch = true) (list_ascii_of_string r) ->
  PyStr.rstrip_by f (s ++ r) = PyStr.rstrip_by f s.
Proof.
  intros Hall.
  assert (Hr : PyStr.rstrip_by f r = EmptyString).
  { induction r as [|ch r IH]; simpl in *; [reflexivity|].
    inversion Hall as [|? ? Hch Hrest]; subst. now rewrite (IH Hrest), Hch. }
  induction s as [|ch s IH]; simpl; [exact Hr | now rewrite IH].
Qed.

Lemma strip_by_framed (f : ascii -> bool) (l m r : string) :
  Forall (fun ch => f ch = true) (list_ascii_of_string l) ->
  Forall (fun ch => f ch = true) (list_ascii_of_string r) ->
  clean_edges f m ->
  PyStr.strip_by f (l ++ m ++ r) = m.
Proof.
  intros Hl Hr [Hhead Htail]. unfold PyStr.strip_by.
  rewrite (lstrip_by_all f l _ Hl).
  destruct m as [|ch m].
  - simpl. replace r with (r ++ EmptyString).
    + now rewrite (lstrip_by_all f r _ Hr).
    + clear. induction r as [|x r IH]; simpl; [reflexivity | now rewrite IH].
  - apply lstrip_by_fixed in Hhead.
    change (PyStr.lstrip_by f (String ch m ++ r)) with
      (if f ch then PyStr.lstrip_by f (m ++ r) else String ch (m ++ r)).
    rewrite Hhead.
    change (String ch (m ++ r)) with (String ch m ++ r).
    now rewrite (rstrip_by_all f _ r Hr).
Qed.

(** ** Docstrings (python_ext.py) *)

Lemma prefix_append (p s : string) : String.prefix p (p ++ s) = true.
Proof.
  induction p as [|ch p IH]; simpl; [now destruct s|].
  destruct (ascii_dec ch ch) as [_|Hne]; [exact IH | now elim Hne].
Qed.

Lemma string_length_append (a b : string) :
  String.length (a ++ b) = String.length a + String.length b.
Proof. induction a as [|ch a IH]; simpl; [reflexivity | now rewrite IH]. Qed.

Lemma substring_middle (a b c : string) :
  String.substring (String.length a) (String.length b) (a ++ b ++ c) = b.
Proof.
  induction a as [|ch a IH]; simpl; [|exact IH].
  induction b as [|x b IHb]; simpl; [now destruct c | now rewrite IHb].
Qed.

Lemma slice_inner_framed (a b c : string) :
  PyStr.slice_inner (String.length a) (String.length c) (a ++ b ++ c) = b.
Proof.
  unfold PyStr.slice_inner. rewrite !string_length_append.
  replace (String.length a + (String.length b + String.length c)
           - String.length c - String.length a) with (String.length b) by lia.
  apply substring_middle.
Qed.

Lemma docstring_scan_comments (comments rest : list Node) (source : string) :
  Forall (fun child => is_type child "comment" = true) comments ->
  PythonExtractor.docstring_scan (comments ++ rest) source =
  PythonExtractor.docstring_scan rest source.
Proof.
  induction 1 as [|child comments Hc _ IH]; [reflexivity|].
  change ((child :: comments) ++ rest)%list with (child :: (comments ++ rest))%list.
  now rewrite docstring_scan_comment.
Qed.

(** X5. For a docstring literal that is ASCII throughout: when the first
    statement of a body that is not a comment is an expression statement
    holding a string literal written with triple quotes (of either kind),
    the docstring is the text between the two delimiters with the
    surrounding ASCII whitespace removed; comments before it are skipped. *)
Theorem docstring_of_triple_quoted
        (body : Node) (source : string) (comments : list Node) (stmt expr : Node)
        (rest : list Node) (q : ascii) (inner : string) :
  children body = (comments ++ stmt :: rest)%list ->
  Forall (fun child => is_type child "comment" = true) comments ->
  is_type stmt "expression_statement" = true ->
  child0 stmt = Some expr ->
  is_type expr "string" = true ->
  q = PyStr.dquote \/ q = PyStr.squote ->
  get_node_text expr source = PyStr.triple q ++ inner ++ PyStr.triple q ->
  PyStr.is_ascii (get_node_text expr source) = true ->
  PythonExtractor._extract_docstring (Some body) source = Some (PyStr.strip inner).
Proof.
  intros Hkids Hcomments Hstmt Hexpr Hstring Hq Htext _.
  unfold PythonExtractor._extract_docstring. rewrite Hkids.
  rewrite (docstring_scan_comments comments _ source Hcomments).
  rewrite (docstring_scan_string stmt expr rest source Hstmt Hexpr Hstring).
  - rewrite Htext.
    pose proof (slice_inner_framed (PyStr.triple q) inner (PyStr.triple q)) as Hslice.
    change (String.length (PyStr.triple q)) with 3 in Hslice. now rewrite Hslice.
  - rewrite Htext. unfold PyStr.startswith.
    destruct Hq as [-> | ->]; rewrite prefix_append; [reflexivity | apply orb_true_r].
Qed.

Lemma docstring_of_triple_quoted_witness :
  PythonExtractor._extract_docstring (Some py_doc_body) py_doc_source = Some (PyStr.strip "  Doc.  ").
Proof.
  apply (docstring_of_triple_quoted py_doc_body py_doc_source
           (firstn 1 (children py_doc_body))
           (nth 1 (children py_doc_body) py_doc_body)
           (nth 0 (children (nth 1 (children py_doc_body) py_doc_body)) py_doc_body)
           (skipn 2 (children py_doc_body))
           PyStr.squote "  Doc.  ").
  - vm_compute. reflexivity.
  - vm_compute. constructor; [reflexivity | constructor].
  - vm_compute. reflexivity.
  - vm_compute. reflexivity.
  - vm_compute. reflexivity.
  - right. reflexivity.
  - vm_compute. reflexivity.
  - vm_compute. reflexivity.
Defined.

Lemma docstring_scan_clean (cs : list Node) (source d : string) :
  PythonExtractor.docstring_scan cs source = Some d -> clean_edges PyStr.isspace d.
Proof.
  induction cs as [|child rest IH]; simpl; [discriminate|].
  destruct (is_type child "expression_statement").
  - destruct (child0 child) as [expr|]; [|exact IH].
    destruct (is_type expr "string"); [|exact IH].
    destruct (_ || _).
    + intros H. injection H as <-. apply strip_by_clean.
    + destruct (_ || _); [|exact IH].
      intros H. injection H as <-. apply strip_by_clean.
  - destruct (negb _); [discriminate | exact IH].
Qed.

(** X6. A docstring that _extract_docstring returns never begins or ends
    with whitespace: stripping it again, on either side, changes nothing. *)
Theorem docstring_has_no_outer_whitespace (body : option Node) (source d : string) :
  PythonExtractor._extract_docstring body source = Some d ->
  clean_edges PyStr.isspace d /\ PyStr.strip d = d.
Proof.
  intros Hdoc.
  assert (Hclean : clean_edges PyStr.isspace d).
  { destruct body as [b|]; [|discriminate].
    exact (docstring_scan_clean (children b) source d Hdoc). }
  split; [exact Hclean|].
  destruct Hclean as [Hl Hr]. unfold PyStr.strip, PyStr.strip_by. now rewrite Hl, Hr.
Qed.

Lemma docstring_has_no_outer_whitespace_witness :
  clean_edges PyStr.isspace "Doc." /\ PyStr.strip "Doc." = "Doc.".
Proof.
  apply (docstring_has_no_outer_whitespace (Some py_doc_body) py_doc_source "Doc.").
  vm_compute. reflexivity.
Defined.

(** X7. No docstring is found when the body is missing, when it holds
    nothing but comments, or when its first child that is not a comment is
    of a type other than expression_statement (a pass, return, if or def,
    say), whatever follows. *)
Theorem docstring_absent (comments : list Node) (source : string) :
  Forall (fun child => is_type child "comment" = true) comments ->
  PythonExtractor._extract_docstring None source = None /\
  (forall body, children body = comments ->
                PythonExtractor._extract_docstring (Some body) source = None) /\
  (forall body other rest,
      children body = (comments ++ other :: rest)%list ->
      is_type other "expression_statement" = false ->
      is_type other "comment" = false ->
      PythonExtractor._extract_docstring (Some body) source = None).
Proof.
  intros Hcomments. split; [reflexivity|]. split.
  - intros body Hkids. unfold PythonExtractor._extract_docstring. rewrite Hkids.
    rewrite <- (app_nil_r comments). now rewrite docstring_scan_comments.
  - intros body other rest Hkids He Hc.
    unfold PythonExtractor._extract_docstring. rewrite Hkids.
    rewrite docstring_scan_comments by assumption.
    now apply docstring_scan_break.
Qed.

Lemma docstring_absent_witness :
  PythonExtractor._extract_docstring None py_doc_source = None /\
  (forall body, children body = firstn 1 (children py_doc_body) ->
                PythonExtractor._extract_docstring (Some body) py_doc_source = None) /\
  (forall body other rest,
      children body = (firstn 1 (children py_doc_body) ++ other :: rest)%list ->
      is_type other "expression_statement" = false ->
      is_type other "comment" = false ->
      PythonExtractor._extract_docstring (Some body) py_doc_source = None).
Proof.
  apply (docstring_absent (firstn 1 (children py_doc_body)) py_doc_source).
  vm_compute. constructor; [reflexivity | constructor].
Defined.

(** ** Include paths (c_ext.py, cpp_ext.py) *)

Lemma c_family_imports_at (lang : Language) (node : NodeRef) (source : string)
      (imp : ImportInfo.t) :
  lang <> python ->
  In imp (imports_at (bodies lang) node source) ->
  exists path_node,
    is_type (nr_node node) "preproc_include" = true /\
    child_by_field_name (nr_node node) "path" = Some path_node /\
    imp = ImportInfo.mk
            (PyStr.strip_chars CExtractor.include_delims (get_node_text path_node source))
            (start_line (nr_node node)) None.
Proof.
  intros Hlang. destruct lang; [now elim Hlang| |]; simpl;
    [unfold CExtractor.extract_imports_at | unfold CppExtractor.extract_imports_at];
    (destruct (is_type (nr_node node) "preproc_include"); [|intros []]);
    (destruct (child_by_field_name (nr_node node) "path") as [path_node|]; [|intros []]);
    intros [<-|[]]; now exists path_node.
Qed.

(** X8. Every include the C or the C++ extractor reports comes from a
    preproc_include node of the walk that has a path field, carries that
    node's line and no alias, and its module is the path text with the
    double quotes and angle brackets at both ends removed: it never begins
    or ends with one of these characters, and when the text is a name
    framed by such characters the module is exactly that name. *)
Theorem include_path_unwrapped
        (lang : Language) (root : Node) (source : string) (imp : ImportInfo.t) :
  lang <> python ->
  In imp (extract_imports (extractor lang) root source) ->
  clean_edges (fun ch => PyStr.mem_char ch CExtractor.include_delims) (ImportInfo.module imp) /\
  ImportInfo.alias imp = None /\
  exists node path_node,
    In node (walk_tree root) /\
    is_type (nr_node node) "preproc_include" = true /\
    child_by_field_name (nr_node node) "path" = Some path_node /\
    ImportInfo.line imp = start_line (nr_node node) /\
    forall opening name closing,
      get_node_text path_node source = opening ++ name ++ closing ->
      Forall (fun ch => PyStr.mem_char ch CExtractor.include_delims = true)
             (list_ascii_of_string opening) ->
      Forall (fun ch => PyStr.mem_char ch CExtractor.include_delims = true)
             (list_ascii_of_string closing) ->
      clean_edges (fun ch => PyStr.mem_char ch CExtractor.include_delims) name ->
      ImportInfo.module imp = name.
Proof.
  intros Hlang. rewrite extract_imports_walk, walk_tree_preorder. intros Hin.
  apply in_flat_map in Hin. destruct Hin as (node & Hnode & Himp).
  destruct (c_family_imports_at lang node source imp Hlang Himp)
    as (path_node & Hty & Hpath & ->). simpl.
  split; [apply strip_by_clean|]. split; [reflexivity|].
  exists node, path_node. repeat split; try assumption.
  intros opening name closing Htext Hopen Hclose Hname.
  unfold PyStr.strip_chars. rewrite Htext. now apply strip_by_framed.
Qed.

Lemma include_path_unwrapped_witness :
  clean_edges (fun ch => PyStr.mem_char ch CExtractor.include_delims) "my.h" /\
  @None string = None /\
  exists node path_node,
    In node (walk_tree c_include_root) /\
    is_type (nr_node node) "preproc_include" = true /\
    child_by_field_name (nr_node node) "path" = Some path_node /\
    2 = start_line (nr_node node) /\
    forall opening name closing,
      get_node_text path_node c_include_source = opening ++ name ++ closing ->
      Forall (fun ch => PyStr.mem_char ch CExtractor.include_delims = true)
             (list_ascii_of_string opening) ->
      Forall (fun ch => PyStr.mem_char ch CExtractor.include_delims = true)
             (list_ascii_of_string closing) ->
      clean_edges (fun ch => PyStr.mem_char ch CExtractor.include_delims) name ->
      "my.h" = name.
Proof.
  apply (include_path_unwrapped c c_include_root c_include_source
           (ImportInfo.mk "my.h" 2 None)).
  - discriminate.
  - vm_compute. right. left. reflexivity.
Defined.

(** ** Qualified names (cpp_ext.py) *)

Lemma prefix_drop (p s : string) :
  String.prefix p s = true -> s = p ++ PyStr.drop (String.length p) s.
Proof.
  revert s. induction p as [|ch p IH]; intros s Hp; [reflexivity|].
  destruct s as [|x s]; simpl in Hp; [discriminate|].
  destruct (ascii_dec ch x) as [->|]; [|discriminate].
  simpl. f_equal. now apply IH.
Qed.

Lemma prefix_empty_string (sep : string) :
  sep <> EmptyString -> String.prefix sep EmptyString = false.
Proof. destruct sep; [now intros H; elim H | reflexivity]. Qed.

Lemma contains_drop (sep : string) (n : nat) (s : string) :
  sep <> EmptyString ->
  PyStr.contains sep s = false -> PyStr.contains sep (PyStr.drop n s) = false.
Proof.
  intros Hsep. revert s. induction n as [|n IH]; intros s Hs; [exact Hs|].
  destruct s as [|ch s]; [exact Hs|]. simpl. apply IH.
  simpl in Hs. now apply orb_false_elim in Hs.
Qed.

Lemma rsplit1_none (sep s : string) :
  sep <> EmptyString ->
  PyStr.rsplit1 sep s = None -> PyStr.contains sep s = false.
Proof.
  intros Hsep. induction s as [|ch s IH].
  - intros _. cbn [PyStr.contains]. now rewrite (prefix_empty_string sep Hsep).
  - intros Hnone. cbn [PyStr.rsplit1] in Hnone. cbn [PyStr.contains].
    destruct (PyStr.rsplit1 sep s) as [[a b]|]; [discriminate|].
    destruct (String.prefix sep (String ch s)); [discriminate|].
    now rewrite IH.
Qed.

Lemma rsplit1_some (sep s a b : string) :
  sep <> EmptyString ->
  PyStr.rsplit1 sep s = Some (a, b) ->
  s = a ++ sep ++ b /\ PyStr.contains sep b = false.
Proof.
  intros Hsep. revert a. induction s as [|ch s IH]; intros a Hsome; [discriminate|].
  cbn [PyStr.rsplit1] in Hsome.
  destruct (PyStr.rsplit1 sep s) as [[a' b']|] eqn:Hrest.
  - injection Hsome as <- <-. destruct (IH a' eq_refl) as [-> Hb]. now split.
  - destruct (String.prefix sep (String ch s)) eqn:Hp; [|discriminate].
    injection Hsome as <- <-. split.
    + simpl. now apply prefix_drop.
    + destruct sep as [|x sep]; [now elim Hsep|]. simpl.
      apply contains_drop; [exact Hsep|]. now apply rsplit1_none.
Qed.

Lemma scope_separator_not_empty : "::" <> EmptyString.
Proof. discriminate. Qed.

Lemma split_qualified_spec (name : string) :
  match CppExtractor.split_qualified name with
  | (Some cls, meth) => name = cls ++ "::" ++ meth
  | (None, meth) => name = meth
  end /\
  PyStr.contains "::" (snd (CppExtractor.split_qualified name)) = false /\
  CppExtractor.strip_class_prefix name = snd (CppExtractor.split_qualified name).
Proof.
  unfold CppExtractor.split_qualified, CppExtractor.strip_class_prefix.
  destruct (PyStr.contains "::" name) eqn:Hin.
  - destruct (PyStr.rsplit1 "::" name) as [[cls meth]|] eqn:Hsplit.
    + destruct (rsplit1_some "::" name cls meth scope_separator_not_empty Hsplit)
        as [Hname Hmeth].
      simpl. now repeat split.
    + apply (rsplit1_none _ _ scope_separator_not_empty) in Hsplit. congruence.
  - simpl. now repeat split.
Qed.

(** X9. Splitting a resolved C++ function name at its last scope
    separator loses nothing: when a class part is split off, class part,
    [::] and method name concatenate back to the resolved name; otherwise
    the name is returned unchanged. In both cases the resulting name holds
    no scope separator, and it is the name phase 1 of extract_calls enters
    in its table. *)
Theorem split_qualified_rebuilds (name : string) :
  match CppExtractor.split_qualified name with
  | (Some cls, meth) => name = cls ++ "::" ++ meth
  | (None, meth) => name = meth
  end /\
  PyStr.contains "::" (snd (CppExtractor.split_qualified name)) = false /\
  CppExtractor.strip_class_prefix name = snd (CppExtractor.split_qualified name).
Proof. apply split_qualified_spec. Qed.

Lemma cpp_functions_at_origin (node : NodeRef) (source : string) (f : FunctionInfo.t) :
  In f (CppExtractor.extract_functions_at node source) ->
  exists resolved,
    resolved_name cpp (nr_node node) source = Some resolved /\
    FunctionInfo.class_name f = fst (CppExtractor.split_qualified resolved) /\
    FunctionInfo.name f = snd (CppExtractor.split_qualified resolved).
Proof.
  unfold CppExtractor.extract_functions_at, CppExtractor._extract_function, resolved_name.
  destruct (is_type (nr_node node) "function_definition"); [|intros []].
  destruct (child_by_field_name (nr_node node) "declarator") as [d|]; [|intros []].
  destruct (CppExtractor._extract_declarator_info d source) as [[name|] params];
    [|intros []].
  cbn [fst]. destruct (PyStr.truthy name); cbn [negb]; [|intros []].
  destruct (CppExtractor.split_qualified name) as [cls meth] eqn:Hsplit.
  intros [<-|[]]. exists name. rewrite Hsplit. now repeat split.
Qed.

(** X11. Every FunctionInfo of the C++ extractor can be traced back to its
    definition: its name holds no scope separator, and some
    function_definition node of the walk resolves to the name itself when
    class_name is None, and to class_name, [::] and name put together when
    class_name is set. *)
Theorem cpp_function_name_rebuilds (root : Node) (source : string) (f : FunctionInfo.t) :
  In f (extract_functions (extractor cpp) root source) ->
  PyStr.contains "::" (FunctionInfo.name f) = false /\
  exists node,
    In node (walk_tree root) /\
    resolved_name cpp (nr_node node) source =
      Some (match FunctionInfo.class_name f with
            | Some cls => cls ++ "::" ++ FunctionInfo.name f
            | None => FunctionInfo.name f
            end).
Proof.
  rewrite extract_functions_walk, walk_tree_preorder. intros Hin.
  apply in_flat_map in Hin. destruct Hin as (node & Hnode & Hf).
  apply cpp_functions_at_origin in Hf. destruct Hf as (resolved & Hres & Hcls & Hname).
  destruct (split_qualified_spec resolved) as (Hsplit & Hclean & _).
  rewrite Hname, Hcls. split; [exact Hclean|].
  exists node. split; [exact Hnode|]. rewrite Hres. f_equal.
  destruct (CppExtractor.split_qualified resolved) as [[cls|] meth]; exact Hsplit.
Qed.

Lemma cpp_function_name_rebuilds_witness :
  PyStr.contains "::" "draw" = false /\
  exists node,
    In node (walk_tree cpp_unit_root) /\
    resolved_name cpp (nr_node node) cpp_unit_source = Some ("W" ++ "::" ++ "draw").
Proof.
  apply (cpp_function_name_rebuilds cpp_unit_root cpp_unit_source
           (FunctionInfo.mk "draw" 3 3 "void draw()" (Some "W") None)).
  vm_compute. left. reflexivity.
Defined.

(** ** The phase-1 table and the caller lookup *)

(** X10. When no two ranges of the table share a byte position, the lookup
    returns the name of the one range that contains the position, wherever
    that range stands in the table. *)
Theorem find_caller_disjoint
        (ranges : ranges_t) (start end_ : nat) (name : string) (pos : nat) :
  disjoint_ranges ranges ->
  In (start, end_, name) ranges ->
  start <= pos <= end_ ->
  find_caller ranges pos = Some name.
Proof.
  intros Hdisjoint. induction Hdisjoint as [|[[s e] nm] rest Hfirst _ IH]; intros Hin Hpos.
  - destruct Hin.
  - simpl. destruct ((s <=? pos)%nat && (pos <=? e)%nat) eqn:Hcover.
    + destruct Hin as [Heq|Hin]; [now injection Heq as -> -> ->|].
      apply andb_prop in Hcover. destruct Hcover as [Hs He].
      apply Nat.leb_le in Hs, He.
      rewrite Forall_forall in Hfirst. specialize (Hfirst _ Hin). simpl in Hfirst. lia.
    + destruct Hin as [Heq|Hin]; [|now apply IH].
      injection Heq as -> -> ->.
      apply andb_false_iff in Hcover.
      destruct Hcover as [H|H]; apply Nat.leb_gt in H; lia.
Qed.

Lemma find_caller_disjoint_witness :
  find_caller [(0, 9, "a"); (20, 29, "b"); (10, 19, "c")] 15 = Some "c".
Proof.
  apply (find_caller_disjoint _ 10 19 "c" 15).
  - unfold disjoint_ranges. repeat constructor; simpl; lia.
  - right. right. left. reflexivity.
  - lia.
Defined.

Lemma ranges_at_function (lang : Language) (fnode : NodeRef) (source : string)
      (start end_ : nat) (name : string) :
  In (start, end_, name) (ranges_at (bodies lang) fnode source) ->
  is_type (nr_node fnode) "function_definition" = true /\
  start = start_byte (nr_node fnode) /\
  end_ = end_byte (nr_node fnode) /\
  exists f, In f (functions_at (bodies lang) fnode source) /\ FunctionInfo.name f = name.
Proof.
  destruct lang; simpl.
  - unfold PythonExtractor.func_ranges_at, PythonExtractor.extract_functions_at.
    destruct (is_type (nr_node fnode) "function_definition"); [|intros []].
    destruct (child_by_field_name (nr_node fnode) "name") as [nn|] eqn:Hname; [|intros []].
    intros [Heq|[]]. injection Heq as <- <- <-. repeat split.
    eexists. split; [now left|].
    unfold PythonExtractor._extract_function. simpl. now rewrite Hname.
  - unfold CExtractor.func_ranges_at, CExtractor.extract_functions_at,
      CExtractor._extract_function.
    destruct (is_type (nr_node fnode) "function_definition"); [|intros []].
    destruct (child_by_field_name (nr_node fnode) "declarator") as [d|]; [|intros []].
    destruct (CExtractor._extract_declarator_info d source) as [[nm|] params];
      [|intros []].
    simpl. destruct (PyStr.truthy nm); simpl; [|intros []].
    intros [Heq|[]]. injection Heq as <- <- <-. repeat split.
    eexists. split; [now left | reflexivity].
  - unfold CppExtractor.func_ranges_at, CppExtractor.extract_functions_at,
      CppExtractor._extract_function.
    destruct (is_type (nr_node fnode) "function_definition"); [|intros []].
    destruct (child_by_field_name (nr_node fnode) "declarator") as [d|]; [|intros []].
    destruct (CppExtractor._extract_declarator_info d source) as [[nm|] params];
      [|intros []].
    simpl. destruct (PyStr.truthy nm); simpl; [|intros []].
    intros [Heq|[]]. injection Heq as <- <- <-. repeat split.
    destruct (split_qualified_spec nm) as (_ & _ & ->).
    destruct (CppExtractor.split_qualified nm) as [cls meth].
    eexists. split; [now left | reflexivity].
Qed.

(** X12. The call graph never names an unknown caller: when a CallInfo of
    any of the three extractors has a caller_function, it was emitted for a
    call node of the walk, with the callee taken from that node and the
    node's line, and there is a function_definition node of the walk whose
    byte range contains the start of that call node and for which
    extract_functions emits, at that very node, a FunctionInfo whose name
    is the caller_function. *)
Theorem caller_is_enclosing_extracted_function
        (lang : Language) (root : Node) (source : string) (ci : CallInfo.t) (name : string) :
  In ci (extract_calls (extractor lang) root source) ->
  CallInfo.caller_function ci = Some name ->
  exists call_node fnode f,
    In call_node (walk_tree root) /\
    ntype (nr_node call_node) = call_type lang /\
    takes_callee source lang (nr_node call_node) (CallInfo.callee_name ci) /\
    CallInfo.line ci = start_line (nr_node call_node) /\
    In fnode (walk_tree root) /\
    is_type (nr_node fnode) "function_definition" = true /\
    start_byte (nr_node fnode) <= start_byte (nr_node call_node) <= end_byte (nr_node fnode) /\
    In f (functions_at (bodies lang) fnode source) /\
    In f (extract_functions (extractor lang) root source) /\
    FunctionInfo.name f = name.
Proof.
  rewrite extract_calls_walk, extract_functions_walk, walk_tree_preorder.
  intros Hin Hcaller.
  apply in_flat_map in Hin. destruct Hin as (call_node & Hcall & Hci).
  apply calls_at_takes in Hci. destruct Hci as (Hcty & Htakes & Hline & Hfind).
  rewrite Hcaller in Hfind.
  pose proof (find_caller_first (func_ranges lang (preorder [] root) source)
                (start_byte (nr_node call_node))) as Hfirst.
  rewrite <- Hfind in Hfirst.
  destruct Hfirst as (before & s & e & after & Hranges & Hpos & _).
  assert (Hrange : In (s, e, name) (func_ranges lang (preorder [] root) source)).
  { rewrite Hranges. apply in_or_app. right. now left. }
  unfold func_ranges in Hrange. apply in_flat_map in Hrange.
  destruct Hrange as (fnode & Hfnode & Hat).
  apply ranges_at_function in Hat. destruct Hat as (Hty & -> & -> & f & Hf & Hname).
  exists call_node, fnode, f. repeat split; try assumption; try lia.
  apply in_flat_map. now exists fnode.
Qed.

Lemma caller_is_enclosing_extracted_function_witness :
  exists call_node fnode f,
    In call_node (walk_tree py_nested_root) /\
    ntype (nr_node call_node) = call_type python /\
    takes_callee py_nested_source python (nr_node call_node) "g" /\
    3 = start_line (nr_node call_node) /\
    In fnode (walk_tree py_nested_root) /\
    is_type (nr_node fnode) "function_definition" = true /\
    start_byte (nr_node fnode) <= start_byte (nr_node call_node) <= end_byte (nr_node fnode) /\
    In f (functions_at (bodies python) fnode py_nested_source) /\
    In f (extract_functions (extractor python) py_nested_root py_nested_source) /\
    FunctionInfo.name f = "outer".
Proof.
  apply (caller_is_enclosing_extracted_function python py_nested_root py_nested_source
           (CallInfo.mk "g" 3 (Some "outer")) "outer").
  - vm_compute. left. reflexivity.
  - reflexivity.
Defined.

(** ** The two declarator resolvers side by side *)

Lemma is_type_known (n : Node) (t t' : string) :
  ntype n = t -> is_type n t' = String.eqb t t'.
Proof. intros <-. reflexivity. Qed.

Lemma type_in_known (n : Node) (t : string) (ts : list string) :
  ntype n = t -> type_in n ts = existsb (String.eqb t) ts.
Proof. intros <-. reflexivity. Qed.

Lemma c_resolver_no_case (node : Node) (source : string) (t : string) :
  ntype node = t ->
  existsb (String.eqb t)
    ["function_declarator"; "pointer_declarator"; "identifier"; "parenthesized_declarator"]
  = false ->
  CExtractor._extract_declarator_info node source = (None, "()").
Proof.
  intros Hty Hnone. rewrite c_declarator_info_eq.
  rewrite !(is_type_known node t _ Hty).
  cbn [existsb] in Hnone.
  apply orb_false_elim in Hnone. destruct Hnone as [H1 Hnone].
  apply orb_false_elim in Hnone. destruct Hnone as [H2 Hnone].
  apply orb_false_elim in Hnone. destruct Hnone as [H3 Hnone].
  apply orb_false_elim in Hnone. destruct Hnone as [H4 _].
  now rewrite H1, H2, H3, H4.
Qed.

Lemma child_field_in (n child : Node) (f : string) :
  child_by_field_name n f = Some child -> In child (children n).
Proof. unfold child_by_field_name. intros H. apply (find_some _ _ H). Qed.

Lemma cpp_resolver_extends_c_node (node : Node) (source : string) :
  forall name,
    fst (CExtractor._extract_declarator_info node source) = Some name ->
    CppExtractor._extract_declarator_info node source =
    CExtractor._extract_declarator_info node source.
Proof.
  induction node as [node IH] using Node_children_ind.
  rewrite Forall_forall in IH. intros name.
  rewrite c_declarator_info_eq, cpp_declarator_info_eq.
  destruct (is_type node "function_declarator") eqn:Hfd.
  - destruct (child_by_field_name node "declarator") as [decl|] eqn:Hdecl; [|discriminate].
    cbn [fst]. intros Hname. f_equal.
    destruct (is_type decl "identifier") eqn:Hid.
    + rewrite (type_in_known decl "identifier" _ (is_type_true _ _ Hid)). reflexivity.
    + destruct (type_in decl ["identifier"; "qualified_identifier"; "field_identifier"])
        eqn:Hids.
      * exfalso. unfold type_in in Hids. apply existsb_exists in Hids.
        destruct Hids as (t & Ht & Heq). apply String.eqb_eq in Heq.
        destruct Ht as [<-|[<-|[<-|[]]]].
        -- unfold is_type in Hid. rewrite Heq in Hid. discriminate.
        -- now rewrite (c_resolver_no_case decl source _ Heq eq_refl) in Hname.
        -- now rewrite (c_resolver_no_case decl source _ Heq eq_refl) in Hname.
      * now rewrite (IH decl (child_field_in _ _ _ Hdecl) name Hname).
  - destruct (is_type node "pointer_declarator") eqn:Hptr.
    + destruct (child_by_field_name node "declarator") as [decl|] eqn:Hdecl; [|discriminate].
      intros Hname. now apply (IH decl (child_field_in _ _ _ Hdecl) name).
    + destruct (is_type node "identifier") eqn:Hid.
      * intros _. pose proof (is_type_true _ _ Hid) as Hty.
        rewrite (is_type_known node _ "reference_declarator" Hty).
        now rewrite (type_in_known node _ _ Hty).
      * destruct (is_type node "parenthesized_declarator") eqn:Hpar; [|discriminate].
        pose proof (is_type_true _ _ Hpar) as Hty.
        rewrite (is_type_known node _ "reference_declarator" Hty).
        rewrite (type_in_known node _ _ Hty). cbn [String.eqb existsb orb].
        change (("parenthesized_declarator" =? "reference_declarator")%string) with false.
        change (existsb (String.eqb "parenthesized_declarator")
                  ["identifier"; "qualified_identifier"; "field_identifier"]) with false.
        cbv iota.
        destruct (find (fun child => negb (type_in child ["("; ")"])) (children node))
          as [child|] eqn:Hchild; [|discriminate].
        intros Hname. now apply (IH child (proj1 (find_some _ _ Hchild)) name).
Qed.

(** X13. The C++ resolver extends the C resolver: whenever the C resolver
    recovers a name from a declarator, the C++ resolver returns the very
    same name and parameter text for it. *)
Theorem cpp_resolver_extends_c (node : Node) (source name : string) :
  fst (CExtractor._extract_declarator_info node source) = Some name ->
  CppExtractor._extract_declarator_info node source =
  CExtractor._extract_declarator_info node source.
Proof. apply cpp_resolver_extends_c_node. Qed.

Lemma cpp_resolver_extends_c_witness :
  CppExtractor._extract_declarator_info c_unit_fp_declarator c_unit_source =
  CExtractor._extract_declarator_info c_unit_fp_declarator c_unit_source.
Proof.
  apply (cpp_resolver_extends_c c_unit_fp_declarator c_unit_source "fp").
  vm_compute. reflexivity.
Defined.

(** ** Where resolved names come from *)

Lemma preorder_nodes (anc : list Node) (n : Node) :
  map nr_node (preorder anc n) = subtree n.
Proof.
  unfold subtree. pose proof (preorder_under anc n []) as H. simpl in H.
  rewrite H, map_map. reflexivity.
Qed.

Lemma subtree_self (n : Node) : In n (subtree n).
Proof. unfold subtree. rewrite preorder_eq. now left. Qed.

Lemma subtree_child (n child x : Node) :
  In child (children n) -> In x (subtree child) -> In x (subtree n).
Proof.
  intros Hchild Hx. unfold subtree. rewrite preorder_eq. right.
  rewrite flat_map_concat_map, concat_map, map_map.
  apply in_concat. exists (subtree child). split; [|exact Hx].
  apply in_map_iff. exists child. split; [apply preorder_nodes | exact Hchild].
Qed.

Lemma cpp_get_var_name_eq (node : Node) (source : string) :
  CppExtractor._get_var_name node source =
  if type_in node ["identifier"; "field_identifier"] then Some (get_node_text node source)
  else if type_in node ["init_declarator"; "pointer_declarator"; "array_declarator"] then
    match child_by_field_name node "declarator" with
    | Some decl => CppExtractor._get_var_name decl source
    | None =>
        option_map (fun child => get_node_text child source)
          (find (fun child => type_in child ["identifier"; "field_identifier"])
                (children node))
    end
  else None.
Proof.
  destruct node as [ty fld sb eb sr er cs].
  cbn [CppExtractor._get_var_name]. rewrite !on_first_find.
  unfold child_by_field_name.
  destruct (type_in _ ["identifier"; "field_identifier"]); [reflexivity|].
  destruct (type_in _ _); [|reflexivity].
  destruct (find (has_field "declarator") _); reflexivity.
Qed.

Lemma find_pointwise {A : Type} (p q : A -> bool) (l : list A) :
  (forall x, p x = q x) -> find p l = find q l.
Proof.
  intros Hpq. induction l as [|x l IH]; [reflexivity|].
  simpl. now rewrite Hpq, IH.
Qed.

Lemma type_in_single (n : Node) (t : string) : type_in n [t] = is_type n t.
Proof. unfold type_in, is_type. simpl. apply orb_false_r. Qed.

Lemma var_name_node_origin (ids : list string) (node n : Node) :
  var_name_node ids node n -> In n (subtree node) /\ type_in n ids = true.
Proof.
  induction 1 as [node Hid|node decl n Hw Hdecl Hn [IHin IHty]|node child Hw Hdecl Hchild].
  - split; [apply subtree_self | exact Hid].
  - split; [|exact IHty].
    apply (subtree_child node decl); [apply (child_field_in _ _ _ Hdecl) | exact IHin].
  - apply find_some in Hchild. destruct Hchild as [Hin Hty]. split; [|exact Hty].
    apply (subtree_child node child); [exact Hin | apply subtree_self].
Qed.

Lemma c_var_name_node (node : Node) (source : string) :
  forall name,
    CExtractor._get_var_name node source = Some name ->
    exists n, var_name_node ["identifier"] node n /\ name = get_node_text n source.
Proof.
  induction node as [node IH] using Node_children_ind.
  rewrite Forall_forall in IH. intros name. rewrite c_get_var_name_eq.
  destruct (is_type node "identifier") eqn:Hid.
  - intros H. injection H as <-. exists node. split; [|reflexivity].
    apply name_here. now rewrite type_in_single.
  - destruct (type_in node ["init_declarator"; "pointer_declarator"; "array_declarator"])
      eqn:Hw; [|discriminate].
    assert (Hwrap : is_var_wrapper ["identifier"] node = true).
    { unfold is_var_wrapper. now rewrite type_in_single, Hid, Hw. }
    destruct (child_by_field_name node "declarator") as [decl|] eqn:Hdecl.
    + intros Hname. pose proof (child_field_in _ _ _ Hdecl) as Hin.
      destruct (IH decl Hin name Hname) as (n & Hn & Htext).
      exists n. split; [|exact Htext]. now apply (name_below _ node decl n).
    + destruct (find _ (children node)) as [child|] eqn:Hchild; simpl; [|discriminate].
      intros H. injection H as <-. exists child. split; [|reflexivity].
      apply name_first_child; try assumption.
      rewrite <- Hchild. apply find_pointwise. intros x. apply type_in_single.
Qed.

Lemma c_var_name_node_text (node n : Node) (source : string) :
  var_name_node ["identifier"] node n ->
  CExtractor._get_var_name node source = Some (get_node_text n source).
Proof.
  induction 1 as [node Hid|node decl n Hw Hdecl Hn IH|node child Hw Hdecl Hchild];
    rewrite c_get_var_name_eq.
  - rewrite type_in_single in Hid. now rewrite Hid.
  - unfold is_var_wrapper in Hw. rewrite type_in_single in Hw.
    apply andb_prop in Hw. destruct Hw as [Hid Hw]. apply negb_true_iff in Hid.
    now rewrite Hid, Hw, Hdecl.
  - unfold is_var_wrapper in Hw. rewrite type_in_single in Hw.
    apply andb_prop in Hw. destruct Hw as [Hid Hw]. apply negb_true_iff in Hid.
    rewrite Hid, Hw, Hdecl.
    rewrite (find_pointwise (fun child => is_type child "identifier")
               (fun child => type_in child ["identifier"]) (children node)
               (fun x => eq_sym (type_in_single x "identifier"))).
    now rewrite Hchild.
Qed.

Lemma cpp_var_name_node (node : Node) (source : string) :
  forall name,
    CppExtractor._get_var_name node source = Some name ->
    exists n,
      var_name_node ["identifier"; "field_identifier"] node n /\
      name = get_node_text n source.
Proof.
  induction node as [node IH] using Node_children_ind.
  rewrite Forall_forall in IH. intros name. rewrite cpp_get_var_name_eq.
  destruct (type_in node ["identifier"; "field_identifier"]) eqn:Hid.
  - intros H. injection H as <-. exists node. split; [|reflexivity].
    now apply name_here.
  - destruct (type_in node ["init_declarator"; "pointer_declarator"; "array_declarator"])
      eqn:Hw; [|discriminate].
    assert (Hwrap : is_var_wrapper ["identifier"; "field_identifier"] node = true).
    { unfold is_var_wrapper. now rewrite Hid, Hw. }
    destruct (child_by_field_name node "declarator") as [decl|] eqn:Hdecl.
    + intros Hname. pose proof (child_field_in _ _ _ Hdecl) as Hin.
      destruct (IH decl Hin name Hname) as (n & Hn & Htext).
      exists n. split; [|exact Htext]. now apply (name_below _ node decl n).
    + destruct (find _ (children node)) as [child|] eqn:Hchild; simpl; [|discriminate].
      intros H. injection H as <-. exists child. split; [|reflexivity].
      now apply name_first_child.
Qed.

Lemma cpp_var_name_node_text (node n : Node) (source : string) :
  var_name_node ["identifier"; "field_identifier"] node n ->
  CppExtractor._get_var_name node source = Some (get_node_text n source).
Proof.
  induction 1 as [node Hid|node decl n Hw Hdecl Hn IH|node child Hw Hdecl Hchild];
    rewrite cpp_get_var_name_eq.
  - now rewrite Hid.
  - unfold is_var_wrapper in Hw.
    apply andb_prop in Hw. destruct Hw as [Hid Hw]. apply negb_true_iff in Hid.
    now rewrite Hid, Hw, Hdecl.
  - unfold is_var_wrapper in Hw.
    apply andb_prop in Hw. destruct Hw as [Hid Hw]. apply negb_true_iff in Hid.
    now rewrite Hid, Hw, Hdecl, Hchild.
Qed.

(** X14. _get_var_name returns a name exactly when a node names the
    declarator, and the name is that node's text. The naming node is the
    declarator itself when it is an identifier (C), or an identifier or
    field_identifier (C++); for an init_declarator, pointer_declarator or
    array_declarator with a declarator field it is the node naming that
    field's child; for such a wrapper without a declarator field it is the
    first identifier (or field_identifier) among the wrapper's children,
    whichever role that child has. The naming node always lies in the
    subtree of the declarator and is of an identifier type, so the name is
    never the text of the declarator as a whole. *)
Theorem var_name_is_identifier_text (node : Node) (source name : string) :
  (CExtractor._get_var_name node source = Some name <->
   exists n,
     var_name_node ["identifier"] node n /\
     In n (subtree node) /\ is_type n "identifier" = true /\ name = get_node_text n source) /\
  (CppExtractor._get_var_name node source = Some name <->
   exists n,
     var_name_node ["identifier"; "field_identifier"] node n /\
     In n (subtree node) /\
     type_in n ["identifier"; "field_identifier"] = true /\
     name = get_node_text n source).
Proof.
  split; split.
  - intros Hname. destruct (c_var_name_node node source name Hname) as (n & Hn & Htext).
    destruct (var_name_node_origin _ _ _ Hn) as [Hin Hty].
    rewrite type_in_single in Hty. now exists n.
  - intros (n & Hn & _ & _ & ->). now apply c_var_name_node_text.
  - intros Hname. destruct (cpp_var_name_node node source name Hname) as (n & Hn & Htext).
    destruct (var_name_node_origin _ _ _ Hn) as [Hin Hty]. now exists n.
  - intros (n & Hn & _ & _ & ->). now apply cpp_var_name_node_text.
Qed.

Lemma chain_end_in_subtree (cxx : bool) (node : Node) :
  In (chain_end cxx node) (subtree node).
Proof.
  induction node as [node IH] using Node_children_ind.
  rewrite Forall_forall in IH. rewrite chain_end_eq.
  destruct (wrapped_child cxx node) as [p|]; [|apply subtree_self].
  destruct (find p (children node)) as [inner|] eqn:Hinner; [|apply subtree_self].
  apply find_some in Hinner. destruct Hinner as [Hin _].
  apply (subtree_child node inner); [exact Hin | now apply IH].
Qed.

(** X15. A function name that a declarator resolver returns is always the
    text of a node in the subtree of the declarator whose type is
    identifier (C), or identifier, qualified_identifier or
    field_identifier (C++). *)
Theorem resolved_name_is_identifier_text
        (cxx : bool) (node : Node) (source name : string) :
  fst (declarator_info cxx node source) = Some name ->
  exists n,
    In n (subtree node) /\
    type_in n (identifier_types cxx) = true /\
    name = get_node_text n source.
Proof.
  rewrite resolver_chain. cbn [fst]. unfold chain_name.
  destruct (type_in (chain_end cxx node) (identifier_types cxx)) eqn:Hty; [|discriminate].
  intros H. injection H as <-.
  exists (chain_end cxx node). repeat split; [apply chain_end_in_subtree | exact Hty].
Qed.

Lemma resolved_name_is_identifier_text_witness :
  exists n,
    In n (subtree c_fnptr_declarator) /\
    type_in n (identifier_types false) = true /\
    "f" = get_node_text n c_fnptr_source.
Proof.
  apply (resolved_name_is_identifier_text false c_fnptr_declarator c_fnptr_source "f").
  vm_compute. reflexivity.
Defined.

(** ** Choosing the extractor for a file *)

Lemma endswith_append (suffix s : string) :
  endswith suffix s = true <-> exists front, s = front ++ suffix.
Proof.
  split.
  - induction s as [|ch s IH]; cbn [endswith]; intros H.
    + rewrite orb_false_r in H. apply String.eqb_eq in H. now exists EmptyString.
    + apply orb_prop in H. destruct H as [H|H].
      * apply String.eqb_eq in H. now exists EmptyString.
      * destruct (IH H) as (front & ->). now exists (String ch front).
  - intros (front & ->). induction front as [|ch front IH].
    + simpl. destruct suffix; cbn [endswith]; now rewrite String.eqb_refl.
    + cbn [append endswith]. rewrite IH. apply orb_true_r.
Qed.

Lemma common_suffixes_nest (front1 end1 front2 end2 : string) :
  front1 ++ end1 = front2 ++ end2 ->
  endswith end1 end2 = true \/ endswith end2 end1 = true.
Proof.
  revert front2. induction front1 as [|ch front1 IH]; intros front2 Heq.
  - right. apply endswith_append. now exists front2.
  - destruct front2 as [|ch2 front2].
    + left. apply endswith_append. exists (String ch front1). now rewrite Heq.
    + injection Heq as _ Heq. now apply (IH front2).
Qed.

Lemma extensions_do_not_nest (l1 l2 : Language) (e1 e2 : string) :
  l1 <> l2 ->
  In e1 (extensions l1) ->
  In e2 (extensions l2) ->
  endswith e1 e2 = false /\ endswith e2 e1 = false.
Proof.
  intros Hne H1 H2.
  destruct l1, l2; try (now elim Hne); cbn in H1, H2;
    repeat (destruct H1 as [<-|H1]; [|]); try (now destruct H1);
    repeat (destruct H2 as [<-|H2]; [|]); try (now destruct H2);
    split; reflexivity.
Qed.

Lemma language_groups_exclusive (path : string) (l1 l2 : Language) :
  l1 <> l2 ->
  existsb (fun ext => endswith ext path) (extensions l1) = true ->
  existsb (fun ext => endswith ext path) (extensions l2) = false.
Proof.
  intros Hne H1. destruct (existsb _ (extensions l2)) eqn:H2; [|reflexivity].
  apply existsb_exists in H1, H2.
  destruct H1 as (e1 & Hin1 & Hend1). destruct H2 as (e2 & Hin2 & Hend2).
  apply endswith_append in Hend1, Hend2.
  destruct Hend1 as (f1 & ->). destruct Hend2 as (f2 & Heq).
  destruct (extensions_do_not_nest l1 l2 e1 e2 Hne Hin1 Hin2) as [Ha Hb].
  destruct (common_suffixes_nest f1 e1 f2 e2 Heq); congruence.
Qed.

Lemma get_extractor_for_file_unfold (path : string) :
  get_extractor_for_file path =
  if existsb (fun ext => endswith ext path) (extensions python)
  then Some (extractor python, python)
  else if existsb (fun ext => endswith ext path) (extensions c)
  then Some (extractor c, c)
  else if existsb (fun ext => endswith ext path) (extensions cpp)
  then Some (extractor cpp, cpp)
  else None.
Proof. reflexivity. Qed.

(** X16. The extractor chosen for a file does not depend on the order in
    which the languages and extensions are tried: the file gets the
    extractor of a language exactly when its path ends with one of that
    language's extensions, and gets none exactly when it ends with no
    listed extension at all. *)
Theorem get_extractor_for_file_by_extension (path : string) (lang : Language) :
  (get_extractor_for_file path = Some (extractor lang, lang) <->
   exists ext, In ext (extensions lang) /\ endswith ext path = true) /\
  (get_extractor_for_file path = None <->
   forall l ext, In ext (extensions l) -> endswith ext path = false).
Proof.
  rewrite get_extractor_for_file_unfold. split; split.
  - intros Hget.
    assert (Hgroup : existsb (fun ext => endswith ext path) (extensions lang) = true).
    { destruct (existsb _ (extensions python)) eqn:Hp;
        [injection Hget as _ <-; exact Hp|].
      destruct (existsb _ (extensions c)) eqn:Hc; [injection Hget as _ <-; exact Hc|].
      destruct (existsb _ (extensions cpp)) eqn:Hx;
        [injection Hget as _ <-; exact Hx | discriminate]. }
    apply existsb_exists in Hgroup. exact Hgroup.
  - intros Hext.
    assert (Hgroup : existsb (fun ext => endswith ext path) (extensions lang) = true).
    { now apply existsb_exists. }
    destruct lang.
    + now rewrite Hgroup.
    + rewrite (language_groups_exclusive path c python) by (discriminate || assumption).
      now rewrite Hgroup.
    + rewrite (language_groups_exclusive path cpp python) by (discriminate || assumption).
      rewrite (language_groups_exclusive path cpp c) by (discriminate || assumption).
      now rewrite Hgroup.
  - intros Hget l ext Hin.
    destruct (existsb _ (extensions python)) eqn:Hp; [discriminate|].
    destruct (existsb _ (extensions c)) eqn:Hc; [discriminate|].
    destruct (existsb _ (extensions cpp)) eqn:Hx; [discriminate|].
    assert (Hl : existsb (fun ext => endswith ext path) (extensions l) = false)
      by (destruct l; assumption).
    destruct (endswith ext path) eqn:Hend; [|reflexivity].
    rewrite <- Hl. symmetry. apply existsb_exists. now exists ext.
  - intros Hnone.
    assert (Hgroup : forall l, existsb (fun ext => endswith ext path) (extensions l) = false).
    { intros l. destruct (existsb _ (extensions l)) eqn:Hl; [|reflexivity].
      apply existsb_exists in Hl. destruct Hl as (ext & Hin & Hend).
      now rewrite (Hnone l ext Hin) in Hend. }
    now rewrite !Hgroup.
Qed.

(** ** Scope resolution *)

Lemma preorder_ancestors (n : Node) :
  forall anc r a,
    In r (preorder anc n) -> In a (nr_anc r) -> In a anc \/ In a (subtree n).
Proof.
  induction n as [n IH] using Node_children_ind. intros anc r a Hr Ha.
  rewrite preorder_eq in Hr. destruct Hr as [<-|Hr]; [now left|].
  apply in_flat_map in Hr. destruct Hr as (child & Hchild & Hr).
  rewrite Forall_forall in IH.
  destruct (IH child Hchild (n :: anc) r a Hr Ha) as [[<-|Hanc]|Hsub].
  - right. apply subtree_self.
  - now left.
  - right. now apply (subtree_child n child).
Qed.

Lemma parent_class_in_spec (class_types : list string) (anc : list Node) (source : string) :
  match parent_class_in class_types anc source with
  | Some name =>
      exists between owner up name_node,
        anc = (between ++ owner :: up)%list /\
        Forall (fun a => type_in a class_types = false \/
                         child_by_field_name a "name" = None) between /\
        type_in owner class_types = true /\
        child_by_field_name owner "name" = Some name_node /\
        name = get_node_text name_node source
  | None =>
      Forall (fun a => type_in a class_types = false \/
                       child_by_field_name a "name" = None) anc
  end.
Proof.
  induction anc as [|p up IH]; simpl; [constructor|].
  destruct (type_in p class_types) eqn:Hty.
  - destruct (child_by_field_name p "name") as [name_node|] eqn:Hname.
    + exists [], p, up, name_node. repeat split; try assumption. constructor.
    + destruct (parent_class_in class_types up source) as [name|].
      * destruct IH as (between & owner & up' & name_node & -> & Hb & Ho & Hn & Ht).
        exists (p :: between), owner, up', name_node.
        repeat split; try assumption. constructor; [now right | exact Hb].
      * constructor; [now right | exact IH].
  - destruct (parent_class_in class_types up source) as [name|].
    + destruct IH as (between & owner & up' & name_node & -> & Hb & Ho & Hn & Ht).
      exists (p :: between), owner, up', name_node.
      repeat split; try assumption. constructor; [now left | exact Hb].
    + constructor; [now left | exact IH].
Qed.

(** X17. The scope resolver of the Python and C++ extractors returns the
    name text of the nearest parent, going outwards, that is of a class
    type and has a name field; class-type parents without a name field are
    passed over, and the answer is None exactly when no parent qualifies. *)
Theorem scope_resolver_nearest_named (node : NodeRef) (source : string) :
  PythonExtractor._get_parent_class node source
    = parent_class_in ["class_definition"] (nr_anc node) source /\
  CppExtractor._get_parent_class node source
    = parent_class_in ["class_specifier"; "struct_specifier"] (nr_anc node) source /\
  forall class_types,
    match parent_class_in class_types (nr_anc node) source with
    | Some name =>
        exists between owner up name_node,
          nr_anc node = (between ++ owner :: up)%list /\
          Forall (fun a => type_in a class_types = false \/
                           child_by_field_name a "name" = None) between /\
          type_in owner class_types = true /\
          child_by_field_name owner "name" = Some name_node /\
          name = get_node_text name_node source
    | None =>
        Forall (fun a => type_in a class_types = false \/
                         child_by_field_name a "name" = None) (nr_anc node)
    end.
Proof.
  split; [reflexivity|]. split; [reflexivity|].
  intros class_types. apply parent_class_in_spec.
Qed.

Lemma parent_class_in_none (class_types : list string) (anc : list Node) (source : string) :
  Forall (fun a => type_in a class_types = false) anc ->
  parent_class_in class_types anc source = None.
Proof.
  induction 1 as [|p up Hp _ IH]; simpl; [reflexivity|]. now rewrite Hp.
Qed.

Lemma python_variables_without_class (node : NodeRef) (source : string) (v : VariableInfo.t) :
  PythonExtractor._get_parent_class node source = None ->
  In v (PythonExtractor.extract_variables_at node source) ->
  VariableInfo.scope v = "global" /\ VariableInfo.class_name v = None.
Proof.
  intros Hcls Hin.
  assert (Hcons : scope_consistent v).
  { now apply (variables_at_scope_consistent python node source). }
  destruct Hcons as [Hglobal|[Hscope [cn Hcn]]]; [exact Hglobal|]. exfalso.
  unfold PythonExtractor.extract_variables_at in Hin.
  destruct (is_type (nr_node node) "assignment").
  - unfold PythonExtractor._extract_assignment, PythonExtractor.assignment_scope in Hin.
    rewrite Hcls in Hin.
    destruct (nr_anc node) as [|p [|g up]]; try (now destruct Hin).
    destruct (is_type p "expression_statement"); [|now destruct Hin].
    destruct (is_type g "module").
    + destruct (child_by_field_name (nr_node node) "left") as [l|]; [|now destruct Hin].
      destruct (is_type l "identifier"); [|now destruct Hin].
      destruct Hin as [<-|[]]. discriminate.
    + destruct (is_type g "block"); now destruct Hin.
  - destruct (is_type (nr_node node) "annotated_assignment"); [|now destruct Hin].
    unfold PythonExtractor._extract_annotated_assignment in Hin. rewrite Hcls in Hin.
    destruct (nr_anc node) as [|p up]; [now destruct Hin|].
    destruct (type_in p ["module"; "block"]); [|now destruct Hin].
    destruct (is_type p "module"); [|now destruct Hin].
    destruct (child_by_field_name (nr_node node) "name") as [nn|]; [|now destruct Hin].
    destruct (is_type nn "identifier"); [|now destruct Hin].
    destruct Hin as [<-|[]]. discriminate.
Qed.

(** X18. In a Python tree without any class definition, every variable
    reported is global and carries no class name, and no function carries a
    class name. *)
Theorem python_without_classes (root : Node) (source : string) :
  no_class_definition root ->
  (forall v, In v (extract_variables (extractor python) root source) ->
             VariableInfo.scope v = "global" /\ VariableInfo.class_name v = None) /\
  (forall f, In f (extract_functions (extractor python) root source) ->
             FunctionInfo.class_name f = None).
Proof.
  unfold no_class_definition. intros Hnone. rewrite forallb_forall in Hnone.
  assert (Hcls : forall node, In node (preorder [] root) ->
                              PythonExtractor._get_parent_class node source = None).
  { intros node Hnode. apply parent_class_in_none. apply Forall_forall. intros a Ha.
    destruct (preorder_ancestors root [] node a Hnode Ha) as [[]|Hsub].
    specialize (Hnone a Hsub). apply negb_true_iff in Hnone.
    unfold type_in, existsb. fold (is_type a "class_definition"). now rewrite Hnone. }
  split.
  - intros v. rewrite extract_variables_walk. intros Hin.
    apply in_flat_map in Hin. destruct Hin as (node & Hnode & Hv).
    now apply (python_variables_without_class node source v (Hcls node Hnode)).
  - intros f. rewrite extract_functions_walk. intros Hin.
    apply in_flat_map in Hin. destruct Hin as (node & Hnode & Hf).
    simpl in Hf. unfold PythonExtractor.extract_functions_at in Hf.
    destruct (is_type (nr_node node) "function_definition"); [|now destruct Hf].
    destruct Hf as [<-|[]]. simpl. now apply Hcls.
Qed.

Lemma python_without_classes_witness :
  (forall v, In v (extract_variables (extractor python) py_nested_root py_nested_source) ->
             VariableInfo.scope v = "global" /\ VariableInfo.class_name v = None) /\
  (forall f, In f (extract_functions (extractor python) py_nested_root py_nested_source) ->
             FunctionInfo.class_name f = None).
Proof.
  apply (python_without_classes py_nested_root py_nested_source).
  vm_compute. reflexivity.
Defined.

(** ** Order of the entity lists *)

Lemma nondecreasing_sorted (l : list nat) :
  nondecreasing l = true <-> StronglySorted le l.
Proof.
  split.
  - intros H. apply Sorted_StronglySorted; [intros x y z; apply Nat.le_trans|].
    induction l as [|a [|b rest] IH]; [constructor | repeat constructor |].
    change (nondecreasing (a :: b :: rest))
      with ((a <=? b)%nat && nondecreasing (b :: rest)) in H.
    apply andb_prop in H. destruct H as [Hab Hrest].
    constructor; [now apply IH|]. constructor. now apply Nat.leb_le.
  - induction 1 as [|a l _ IH Hall]; [reflexivity|].
    destruct l as [|b rest]; [reflexivity|].
    change (nondecreasing (a :: b :: rest))
      with ((a <=? b)%nat && nondecreasing (b :: rest)).
    rewrite IH, andb_true_r.
    inversion Hall; subst. now apply Nat.leb_le.
Qed.

Lemma strongly_sorted_app (l1 l2 : list nat) :
  StronglySorted le l1 -> StronglySorted le l2 ->
  (forall a b, In a l1 -> In b l2 -> a <= b) ->
  StronglySorted le (l1 ++ l2).
Proof.
  intros H1 H2 Hcross. induction H1 as [|a l1 _ IH Hall]; [exact H2|].
  simpl. constructor.
  - apply IH. intros x y Hx Hy. apply Hcross; [now right | exact Hy].
  - apply Forall_app. split; [exact Hall|].
    apply Forall_forall. intros y Hy. apply Hcross; [now left | exact Hy].
Qed.

Lemma strongly_sorted_constant (k : nat) (l : list nat) :
  Forall (fun v => v = k) l -> StronglySorted le l.
Proof.
  induction 1 as [|v l Hv Hl IH]; constructor; [exact IH|].
  subst. apply Forall_forall. intros y Hy.
  rewrite Forall_forall in Hl. now rewrite (Hl y Hy).
Qed.

Lemma lines_in_walk_order {A : Type} (line : A -> nat) (body : NodeRef -> list A)
      (nodes : list NodeRef) :
  (forall node e, In e (body node) -> line e = start_line (nr_node node)) ->
  nondecreasing (map (fun r => start_row (nr_node r)) nodes) = true ->
  nondecreasing (map line (flat_map body nodes)) = true.
Proof.
  intros Hline Hrows. apply nondecreasing_sorted. apply nondecreasing_sorted in Hrows.
  induction nodes as [|x nodes IH]; [constructor|].
  simpl in *. inversion Hrows as [|? ? Hrest Hall]; subst.
  rewrite map_app. apply strongly_sorted_app.
  - apply (strongly_sorted_constant (start_line (nr_node x))).
    apply Forall_forall. intros v Hv. apply in_map_iff in Hv.
    destruct Hv as (e & <- & He). now apply Hline.
  - now apply IH.
  - intros a b Ha Hb. apply in_map_iff in Ha, Hb.
    destruct Ha as (e & <- & He). destruct Hb as (e' & <- & He').
    apply in_flat_map in He'. destruct He' as (y & Hy & He').
    rewrite (Hline x e He), (Hline y e' He'). unfold start_line.
    rewrite Forall_forall in Hall.
    specialize (Hall (start_row (nr_node y))
                     (in_map (fun r => start_row (nr_node r)) nodes y Hy)).
    lia.
Qed.

Lemma python_aliased_import_line (node child : Node) (source : string)
      (mk_module : string -> string) (imp : ImportInfo.t) :
  In imp (PythonExtractor.aliased_import node child source mk_module) ->
  ImportInfo.line imp = start_line node.
Proof.
  unfold PythonExtractor.aliased_import.
  destruct (child_by_field_name child "name"); [|intros []]. now intros [<-|[]].
Qed.

Lemma imports_at_line (lang : Language) (node : NodeRef) (source : string)
      (imp : ImportInfo.t) :
  In imp (imports_at (bodies lang) node source) ->
  ImportInfo.line imp = start_line (nr_node node).
Proof.
  destruct lang; simpl.
  - unfold PythonExtractor.extract_imports_at.
    destruct (is_type (nr_node node) "import_statement").
    + unfold PythonExtractor._extract_import. intros Hin.
      apply in_flat_map in Hin. destruct Hin as (child & _ & Hin).
      destruct (is_type child "dotted_name"); [now destruct Hin as [<-|[]]|].
      destruct (is_type child "aliased_import"); [|now destruct Hin].
      now apply python_aliased_import_line in Hin.
    + destruct (is_type (nr_node node) "import_from_statement"); [|intros []].
      unfold PythonExtractor._extract_from_import. intros Hin.
      apply in_flat_map in Hin. destruct Hin as ([i child] & _ & Hin).
      destruct (is_type child "dotted_name" && _); [now destruct Hin as [<-|[]]|].
      destruct (is_type child "aliased_import"); [|now destruct Hin].
      now apply python_aliased_import_line in Hin.
  - intros Hin. destruct (c_family_imports_at c node source imp) as (pn & _ & _ & ->);
      [discriminate | exact Hin | reflexivity].
  - intros Hin. destruct (c_family_imports_at cpp node source imp) as (pn & _ & _ & ->);
      [discriminate | exact Hin | reflexivity].
Qed.

Lemma variables_at_line (lang : Language) (node : NodeRef) (source : string)
      (v : VariableInfo.t) :
  In v (variables_at (bodies lang) node source) ->
  VariableInfo.line v = start_line (nr_node node).
Proof.
  destruct lang; simpl.
  - unfold PythonExtractor.extract_variables_at.
    destruct (is_type (nr_node node) "assignment").
    + unfold PythonExtractor._extract_assignment.
      destruct (nr_anc node) as [|p [|g up]]; try (intros []).
      destruct (is_type p "expression_statement"); [|intros []].
      destruct (PythonExtractor.assignment_scope node g source) as [[sc cn]|]; [|intros []].
      destruct (child_by_field_name (nr_node node) "left") as [l|]; [|intros []].
      destruct (is_type l "identifier"); [|intros []]. now intros [<-|[]].
    + destruct (is_type (nr_node node) "annotated_assignment"); [|intros []].
      unfold PythonExtractor._extract_annotated_assignment.
      destruct (nr_anc node) as [|p up]; [intros []|].
      destruct (type_in p ["module"; "block"]); [|intros []].
      destruct (if is_type p "module" then _ else _) as [[sc cn]|]; [|intros []].
      destruct (child_by_field_name (nr_node node) "name") as [nn|]; [|intros []].
      destruct (is_type nn "identifier"); [|intros []]. now intros [<-|[]].
  - unfold CExtractor.extract_variables_at, CExtractor._extract_declaration.
    destruct (is_type (nr_node node) "declaration"); [|intros []].
    destruct (nr_anc node) as [|p up]; [intros []|].
    destruct (is_type p "translation_unit"); [|intros []].
    destruct (child_by_field_name (nr_node node) "declarator") as [d|]; [|intros []].
    destruct (CExtractor._get_var_name d source) as [name|]; [|intros []].
    destruct (PyStr.truthy name); [|intros []]. now intros [<-|[]].
  - unfold CppExtractor.extract_variables_at, CppExtractor._extract_declaration,
      CppExtractor._extract_field.
    destruct (is_type (nr_node node) "declaration").
    + destruct (nr_anc node) as [|p up]; [intros []|].
      destruct (is_type p "translation_unit"); [|intros []].
      destruct (child_by_field_name (nr_node node) "declarator") as [d|]; [|intros []].
      destruct (CppExtractor._get_var_name d source) as [name|]; [|intros []].
      destruct (PyStr.truthy name); [|intros []]. now intros [<-|[]].
    + destruct (is_type (nr_node node) "field_declaration"); [|intros []].
      destruct (CppExtractor._get_parent_class node source) as [cn|]; [|intros []].
      destruct (PyStr.truthy cn); [|intros []].
      destruct (child_by_field_name (nr_node node) "declarator") as [d|]; [|intros []].
      destruct (CppExtractor._get_var_name d source) as [name|]; [|intros []].
      destruct (PyStr.truthy name); [|intros []]. now intros [<-|[]].
Qed.

(** X19. On a tree whose start rows never go back along the pre-order
    walk, each of the five entity lists of each extractor comes out in
    source order: its line numbers (line_start for functions and classes)
    are non-decreasing. *)
Theorem entities_in_line_order (lang : Language) (root : Node) (source : string) :
  rows_in_walk_order root ->
  nondecreasing (map FunctionInfo.line_start
                   (extract_functions (extractor lang) root source)) = true /\
  nondecreasing (map ClassInfo.line_start
                   (extract_classes (extractor lang) root source)) = true /\
  nondecreasing (map ImportInfo.line
                   (extract_imports (extractor lang) root source)) = true /\
  nondecreasing (map VariableInfo.line
                   (extract_variables (extractor lang) root source)) = true /\
  nondecreasing (map CallInfo.line
                   (extract_calls (extractor lang) root source)) = true.
Proof.
  unfold rows_in_walk_order. intros Hrows.
  rewrite extract_functions_walk, extract_classes_walk, extract_imports_walk,
    extract_variables_walk, extract_calls_walk.
  repeat split; apply lines_in_walk_order; try exact Hrows; intros node e He.
  - now apply functions_at_lines in He.
  - now apply classes_at_lines in He.
  - now apply imports_at_line in He.
  - now apply variables_at_line in He.
  - now apply calls_at_shape in He.
Qed.

Lemma entities_in_line_order_witness :
  nondecreasing (map FunctionInfo.line_start
                   (extract_functions (extractor python) py_class_root py_class_source))
    = true /\
  nondecreasing (map ClassInfo.line_start
                   (extract_classes (extractor python) py_class_root py_class_source))
    = true /\
  nondecreasing (map ImportInfo.line
                   (extract_imports (extractor python) py_class_root py_class_source))
    = true /\
  nondecreasing (map VariableInfo.line
                   (extract_variables (extractor python) py_class_root py_class_source))
    = true /\
  nondecreasing (map CallInfo.line
                   (extract_calls (extractor python) py_class_root py_class_source))
    = true.
Proof.
  apply (entities_in_line_order python py_class_root py_class_source).
  vm_compute. reflexivity.
Defined.

(** ** How many entities, and from where *)

Lemma flat_map_at_most_one {A : Type} (keep : NodeRef -> bool) (body : NodeRef -> list A)
      (nodes : list NodeRef) :
  (forall node, length (body node) <= if keep node then 1 else 0) ->
  length (flat_map body nodes) <= length (filter keep nodes).
Proof.
  intros Hbody. induction nodes as [|x nodes IH]; simpl; [lia|].
  rewrite length_app. specialize (Hbody x). destruct (keep x); simpl; lia.
Qed.

Lemma flat_map_exactly_one {A : Type} (keep : NodeRef -> bool) (body : NodeRef -> list A)
      (nodes : list NodeRef) :
  (forall node, length (body node) = if keep node then 1 else 0) ->
  length (flat_map body nodes) = length (filter keep nodes).
Proof.
  intros Hbody. induction nodes as [|x nodes IH]; simpl; [lia|].
  rewrite length_app. specialize (Hbody x). destruct (keep x); simpl; lia.
Qed.

(** X20. No extractor reports more functions than the tree has
    function_definition nodes, nor more classes than it has class (or
    struct) nodes; the Python extractor reports exactly one FunctionInfo
    per function_definition node and one ClassInfo per class_definition
    node, dropping none. *)
Theorem definitions_counted (lang : Language) (root : Node) (source : string) :
  length (extract_functions (extractor lang) root source)
    <= length (filter is_function_node (walk_tree root)) /\
  length (extract_classes (extractor lang) root source)
    <= length (filter (is_class_node lang) (walk_tree root)) /\
  length (extract_functions (extractor python) root source)
    = length (filter is_function_node (walk_tree root)) /\
  length (extract_classes (extractor python) root source)
    = length (filter (is_class_node python) (walk_tree root)).
Proof.
  rewrite !extract_functions_walk, !extract_classes_walk, walk_tree_preorder.
  repeat split.
  - apply flat_map_at_most_one. intros node. unfold is_function_node.
    destruct lang; simpl;
      [unfold PythonExtractor.extract_functions_at
      | unfold CExtractor.extract_functions_at
      | unfold CppExtractor.extract_functions_at];
      destruct (is_type (nr_node node) "function_definition"); simpl; try lia.
    + destruct (CExtractor._extract_function node source); simpl; lia.
    + destruct (CppExtractor._extract_function node source); simpl; lia.
  - apply flat_map_at_most_one. intros node. unfold is_class_node.
    destruct lang; cbn [bodies classes_at];
      [unfold PythonExtractor.extract_classes_at
      | unfold CExtractor.extract_classes_at
      | unfold CppExtractor.extract_classes_at].
    + destruct (is_type (nr_node node) "class_definition"); simpl; lia.
    + destruct (is_type (nr_node node) "struct_specifier"); simpl; [|lia].
      destruct (CExtractor._extract_struct node source); simpl; lia.
    + destruct (type_in (nr_node node) ["class_specifier"; "struct_specifier"]);
        simpl; [|lia].
      destruct (CppExtractor._extract_class node source); simpl; lia.
  - apply flat_map_exactly_one. intros node. unfold is_function_node. simpl.
    unfold PythonExtractor.extract_functions_at.
    now destruct (is_type (nr_node node) "function_definition").
  - apply flat_map_exactly_one. intros node. unfold is_class_node. simpl.
    unfold PythonExtractor.extract_classes_at.
    now destruct (is_type (nr_node node) "class_definition").
Qed.

Lemma global_variables_at_file_level (lang : Language) (node : NodeRef) (source : string)
      (v : VariableInfo.t) :
  In v (variables_at (bodies lang) node source) ->
  VariableInfo.scope v = "global" ->
  at_file_level lang node = true.
Proof.
  destruct lang; simpl.
  - unfold PythonExtractor.extract_variables_at.
    destruct (is_type (nr_node node) "assignment") eqn:Ha.
    + unfold PythonExtractor._extract_assignment, PythonExtractor.assignment_scope.
      destruct (nr_anc node) as [|p [|g up]]; try (intros []).
      destruct (is_type p "expression_statement"); [|intros []].
      destruct (is_type g "module"); [reflexivity|].
      destruct (is_type g "block"); [|intros []].
      destruct (truthy_opt _); [|intros []].
      destruct (child_by_field_name (nr_node node) "left") as [l|]; [|intros []].
      destruct (is_type l "identifier"); [|intros []].
      intros [<-|[]]. discriminate.
    + destruct (is_type (nr_node node) "annotated_assignment"); [|intros []].
      unfold PythonExtractor._extract_annotated_assignment.
      destruct (nr_anc node) as [|p up]; [intros []|].
      destruct (type_in p ["module"; "block"]); [|intros []].
      destruct (is_type p "module"); [intros _ _; apply orb_true_r|].
      destruct (truthy_opt _); [|intros []].
      destruct (child_by_field_name (nr_node node) "name") as [nn|]; [|intros []].
      destruct (is_type nn "identifier"); [|intros []].
      intros [<-|[]]. discriminate.
  - unfold CExtractor.extract_variables_at.
    destruct (is_type (nr_node node) "declaration"); [|intros []].
    destruct (nr_anc node) as [|p up]; [intros []|].
    destruct (is_type p "translation_unit"); [reflexivity | intros []].
  - unfold CppExtractor.extract_variables_at, CppExtractor._extract_field.
    destruct (is_type (nr_node node) "declaration").
    + destruct (nr_anc node) as [|p up]; [intros []|].
      destruct (is_type p "translation_unit"); [reflexivity | intros []].
    + destruct (is_type (nr_node node) "field_declaration"); [|intros []].
      destruct (CppExtractor._get_parent_class node source) as [cn|]; [|intros []].
      destruct (PyStr.truthy cn); [|intros []].
      destruct (child_by_field_name (nr_node node) "declarator") as [d|]; [|intros []].
      destruct (CppExtractor._get_var_name d source) as [name|]; [|intros []].
      destruct (PyStr.truthy name); [|intros []].
      intros [<-|[]]. discriminate.
Qed.

(** X21. A variable reported with scope 'global' always comes from a node
    standing directly at file level: for Python an assignment in an
    expression statement of the module, or an annotated assignment of the
    module; for C and C++ a declaration whose parent is the translation
    unit. Nothing declared inside a function body, a block or a namespace
    is ever reported as global. *)
Theorem globals_come_from_file_level
        (lang : Language) (root : Node) (source : string) (v : VariableInfo.t) :
  In v (extract_variables (extractor lang) root source) ->
  VariableInfo.scope v = "global" ->
  exists node,
    In node (walk_tree root) /\
    at_file_level lang node = true /\
    VariableInfo.line v = start_line (nr_node node).
Proof.
  rewrite extract_variables_walk, walk_tree_preorder. intros Hin Hscope.
  apply in_flat_map in Hin. destruct Hin as (node & Hnode & Hv).
  exists node. repeat split; [exact Hnode | | now apply (variables_at_line lang node source)].
  now apply (global_variables_at_file_level lang node source v).
Qed.

Lemma globals_come_from_file_level_witness :
  exists node,
    In node (walk_tree c_unit_root) /\
    at_file_level c node = true /\
    3 = start_line (nr_node node).
Proof.
  apply (globals_come_from_file_level c c_unit_root c_unit_source
           (VariableInfo.mk "g" 3 "global" None (Some "int"))).
  - vm_compute. left. reflexivity.
  - reflexivity.
Defined.

(** X22. The C and C++ extractors never report a variable with an empty
    name, the C extractor never reports a function with an empty name, and
    the C++ extractor never reports a call with an empty callee name. *)
Theorem c_family_names_not_empty (root : Node) (source : string) :
  (forall lang v,
      lang <> python ->
      In v (extract_variables (extractor lang) root source) ->
      PyStr.truthy (VariableInfo.name v) = true) /\
  (forall f, In f (extract_functions (extractor c) root source) ->
             PyStr.truthy (FunctionInfo.name f) = true) /\
  (forall ci, In ci (extract_calls (extractor cpp) root source) ->
              PyStr.truthy (CallInfo.callee_name ci) = true).
Proof.
  repeat split.
  - intros lang v Hlang. rewrite extract_variables_walk. intros Hin.
    apply in_flat_map in Hin. destruct Hin as (node & _ & Hv).
    destruct lang; [now elim Hlang | |]; simpl in Hv.
    + unfold CExtractor.extract_variables_at, CExtractor._extract_declaration in Hv.
      destruct (is_type (nr_node node) "declaration"); [|now destruct Hv].
      destruct (nr_anc node) as [|p up]; [now destruct Hv|].
      destruct (is_type p "translation_unit"); [|now destruct Hv].
      destruct (child_by_field_name (nr_node node) "declarator") as [d|]; [|now destruct Hv].
      destruct (CExtractor._get_var_name d source) as [name|]; [|now destruct Hv].
      destruct (PyStr.truthy name) eqn:Hname; [|now destruct Hv].
      now destruct Hv as [<-|[]].
    + unfold CppExtractor.extract_variables_at, CppExtractor._extract_declaration,
        CppExtractor._extract_field in Hv.
      destruct (is_type (nr_node node) "declaration").
      * destruct (nr_anc node) as [|p up]; [now destruct Hv|].
        destruct (is_type p "translation_unit"); [|now destruct Hv].
        destruct (child_by_field_name (nr_node node) "declarator") as [d|];
          [|now destruct Hv].
        destruct (CppExtractor._get_var_name d source) as [name|]; [|now destruct Hv].
        destruct (PyStr.truthy name) eqn:Hname; [|now destruct Hv].
        now destruct Hv as [<-|[]].
      * destruct (is_type (nr_node node) "field_declaration"); [|now destruct Hv].
        destruct (CppExtractor._get_parent_class node source) as [cn|]; [|now destruct Hv].
        destruct (PyStr.truthy cn); [|now destruct Hv].
        destruct (child_by_field_name (nr_node node) "declarator") as [d|];
          [|now destruct Hv].
        destruct (CppExtractor._get_var_name d source) as [name|]; [|now destruct Hv].
        destruct (PyStr.truthy name) eqn:Hname; [|now destruct Hv].
        now destruct Hv as [<-|[]].
  - intros f. rewrite extract_functions_walk. intros Hin.
    apply in_flat_map in Hin. destruct Hin as (node & _ & Hf). simpl in Hf.
    unfold CExtractor.extract_functions_at, CExtractor._extract_function in Hf.
    destruct (is_type (nr_node node) "function_definition"); [|now destruct Hf].
    destruct (child_by_field_name (nr_node node) "declarator") as [d|]; [|now destruct Hf].
    destruct (CExtractor._extract_declarator_info d source) as [[name|] params];
      [|now destruct Hf].
    destruct (PyStr.truthy name) eqn:Hname; simpl in Hf; [|now destruct Hf].
    now destruct Hf as [<-|[]].
  - intros ci. rewrite extract_calls_walk. intros Hin.
    apply in_flat_map in Hin. destruct Hin as (node & _ & Hci). simpl in Hci.
    unfold CppExtractor.extract_calls_at in Hci.
    destruct (is_type (nr_node node) "call_expression"); [|now destruct Hci].
    destruct (CppExtractor.callee_of (nr_node node) source) as [callee|]; [|now destruct Hci].
    destruct (PyStr.truthy callee) eqn:Hcallee; [|now destruct Hci].
    now destruct Hci as [<-|[]].
Qed.

Lemma c_family_ranges_match_functions (lang : Language) (node : NodeRef) (source : string) :
  lang <> python ->
  map (fun r => snd r) (ranges_at (bodies lang) node source) =
  map FunctionInfo.name (functions_at (bodies lang) node source).
Proof.
  intros Hlang. destruct lang; [now elim Hlang | |]; simpl.
  - unfold CExtractor.func_ranges_at, CExtractor.extract_functions_at,
      CExtractor._extract_function.
    destruct (is_type (nr_node node) "function_definition"); [|reflexivity].
    destruct (child_by_field_name (nr_node node) "declarator") as [d|]; [|reflexivity].
    destruct (CExtractor._extract_declarator_info d source) as [[nm|] params];
      [|reflexivity].
    cbn [fst]. destruct (PyStr.truthy nm); reflexivity.
  - unfold CppExtractor.func_ranges_at, CppExtractor.extract_functions_at,
      CppExtractor._extract_function.
    destruct (is_type (nr_node node) "function_definition"); [|reflexivity].
    destruct (child_by_field_name (nr_node node) "declarator") as [d|]; [|reflexivity].
    destruct (CppExtractor._extract_declarator_info d source) as [[nm|] params];
      [|reflexivity].
    cbn [fst]. destruct (PyStr.truthy nm); [|reflexivity].
    destruct (split_qualified_spec nm) as (_ & _ & Hstrip).
    cbn [negb map snd]. rewrite Hstrip.
    destruct (CppExtractor.split_qualified nm) as [cls meth]. reflexivity.
Qed.

(** X23. For the C and the C++ extractor, the phase-1 table of
    extract_calls and the result of extract_functions never disagree,
    although each resolves the declarators on its own: the names of the
    table's ranges are the names of the reported functions, one for one and
    in the same order. *)
Theorem phase_one_table_matches_functions
        (lang : Language) (root : Node) (source : string) :
  lang <> python ->
  map (fun r => snd r) (func_ranges lang (walk_tree root) source) =
  map FunctionInfo.name (extract_functions (extractor lang) root source).
Proof.
  intros Hlang. rewrite extract_functions_walk, walk_tree_preorder. unfold func_ranges.
  induction (preorder [] root) as [|node nodes IH]; [reflexivity|].
  simpl. rewrite !map_app, IH. f_equal.
  now apply c_family_ranges_match_functions.
Qed.

Lemma phase_one_table_matches_functions_witness :
  map (fun r => snd r) (func_ranges cpp (walk_tree cpp_unit_root) cpp_unit_source) =
  map FunctionInfo.name (extract_functions (extractor cpp) cpp_unit_root cpp_unit_source).
Proof.
  apply (phase_one_table_matches_functions cpp cpp_unit_root cpp_unit_source).
  discriminate.
Defined.
